(** * The WinCC OA marketplace add-on handler, embedded and verified

    A shallow embedding of the TypeScript sources of the add-on
    (CommandExecutor, AsciiManager, NodeInstaller, PathResolver and
    AddOnHandler) together with the properties proved about them.

    Asynchronous functions are embedded in a small monad that threads the
    state of the outside world, may throw a JavaScript error, and records
    every call made to an external collaborator (file system, child
    processes, git, the control-script runtime, the GitHub API) together
    with the answer that call received.  The collaborators themselves are
    parameters of the development. *)

From Stdlib Require Import String Ascii List ZArith Lia Bool.
From Stdlib Require Import DecimalString DecimalPos DecimalZ.
Import ListNotations.
Set Warnings "-register-all".
Local Open Scope list_scope.
Local Open Scope string_scope.

(** ** JavaScript built-ins used by the sources

    A string of the embedding holds the UTF-8 text of the JavaScript
    string it stands for. *)

Module Js.

(** Truthiness of a string: only the empty string is falsy. *)
Definition truthy (s : string) : bool := negb (s =? "").

(** [s || d] on strings. *)
Definition orElse (s d : string) : string := if truthy s then s else d.

(** Template-literal rendering of an integral number. *)
Definition numberToString (n : Z) : string :=
  NilZero.string_of_int (Z.to_int n).

(** [hay.includes(needle)]. *)
Fixpoint includes (hay needle : string) : bool :=
  if prefix needle hay then true
  else match hay with
       | EmptyString => false
       | String _ rest => includes rest needle
       end.

(** [arr.includes(x)] on an array of numbers. *)
Definition arrayIncludes (arr : list Z) (x : Z) : bool :=
  existsb (Z.eqb x) arr.

(** [arr.join(sep)]. *)
Definition join (sep : string) (arr : list string) : string :=
  String.concat sep arr.

Fixpoint dropWhile {A : Type} (p : A -> bool) (l : list A) : list A :=
  match l with
  | [] => []
  | x :: r => if p x then dropWhile p r else l
  end.

(** The white space and the line terminators of ECMAScript, each by the
    bytes of its UTF-8 form: U+0009 to U+000D, U+0020, U+00A0, U+1680,
    U+2000 to U+200A, U+2028, U+2029, U+202F, U+205F, U+3000 and
    U+FEFF. *)
Definition whiteSpace : list (list nat) :=
  [[9]; [10]; [11]; [12]; [13]; [32]; [194; 160]; [225; 154; 128];
   [226; 128; 128]; [226; 128; 129]; [226; 128; 130]; [226; 128; 131];
   [226; 128; 132]; [226; 128; 133]; [226; 128; 134]; [226; 128; 135];
   [226; 128; 136]; [226; 128; 137]; [226; 128; 138]; [226; 128; 168];
   [226; 128; 169]; [226; 128; 175]; [226; 129; 159]; [227; 128; 128];
   [239; 187; 191]]%nat.

(** What is left of [l] after [prefix], when [l] starts with it. *)
Fixpoint stripPrefix (prefix l : list ascii) : option (list ascii) :=
  match prefix, l with
  | [], _ => Some l
  | c :: prefix', d :: l' =>
      if Ascii.eqb c d then stripPrefix prefix' l' else None
  | _ :: _, [] => None
  end.

Fixpoint stripOne (prefixes : list (list ascii)) (l : list ascii)
  : option (list ascii) :=
  match prefixes with
  | [] => None
  | prefix :: others =>
      match stripPrefix prefix l with
      | Some rest => Some rest
      | None => stripOne others l
      end
  end.

(** Strips from the front of [l] as long as one of [prefixes] is there;
    [fuel] bounds the number of rounds. *)
Fixpoint stripAll (fuel : nat) (prefixes : list (list ascii)) (l : list ascii)
  : list ascii :=
  match fuel with
  | O => l
  | S fuel' =>
      match stripOne prefixes l with
      | Some rest => stripAll fuel' prefixes rest
      | None => l
      end
  end.

Definition trimStart (l : list ascii) : list ascii :=
  stripAll (length l) (map (map ascii_of_nat) whiteSpace) l.

Definition trimEnd (l : list ascii) : list ascii :=
  rev (stripAll (length l)
         (map (fun bytes => rev (map ascii_of_nat bytes)) whiteSpace)
         (rev l)).

(** [s.trim()] *)
Definition trim (s : string) : string :=
  string_of_list_ascii (trimEnd (trimStart (list_ascii_of_string s))).

(** Values produced by [JSON.parse] and by the remote API (numbers are
    kept integral). *)
Inductive Json : Type :=
| JNull
| JBool (b : bool)
| JNum (n : Z)
| JStr (s : string)
| JArr (items : list Json)
| JObj (fields : list (string * Json)).

Definition jsonTruthy (v : Json) : bool :=
  match v with
  | JNull => false
  | JBool b => b
  | JNum n => negb (n =? 0)%Z
  | JStr s => truthy s
  | JArr _ | JObj _ => true
  end.

(** A thrown [Error]: its message and, for HTTP errors, its status. *)
Record Error : Type := mkError { message : string; status : option Z }.

Definition newError (msg : string) : Error :=
  {| message := msg; status := None |}.

(** The values the [code] of an error of [child_process] can have: the
    exit code of the process, the name of a system error, [null] when a
    signal ended the process; the declared type, [code?: number], lets
    it be missing as well. *)
Inductive Code : Type :=
| CodeNumber (n : Z)
| CodeName (name : string)
| CodeNull
| CodeMissing.

(** The code in a template literal. *)
Definition codeToString (c : Code) : string :=
  match c with
  | CodeNumber n => numberToString n
  | CodeName name => name
  | CodeNull => "null"
  | CodeMissing => "undefined"
  end.

(** [c === 0] *)
Definition isZero (c : Code) : bool :=
  match c with
  | CodeNumber n => (n =? 0)%Z
  | _ => false
  end.

(** [Number(c)]: an integer, or nothing for [NaN] and for a number that
    is not an integer; [ofString] is [Number] on strings. *)
Definition toNumber (ofString : string -> option Z) (c : Code) : option Z :=
  match c with
  | CodeNumber n => Some n
  | CodeName name => ofString name
  | CodeNull => Some 0%Z
  | CodeMissing => None
  end.

(** [arr.includes(x)] on an array of integers, for a number [x]. *)
Definition includesNumber (arr : list Z) (x : option Z) : bool :=
  match x with
  | Some n => arrayIncludes arr n
  | None => false
  end.

End Js.

(** ** The [path] module of Node.js

    The sources use six functions of [path].  Their behaviour depends on
    the platform, so the embedding takes them as an interface;
    [posix] implements it the way Node does on POSIX systems. *)

Module NodePath.

Record Api : Type := {
  isAbsolute : string -> bool;
  normalize : string -> string;
  join : list string -> string;
  (** [resolve cwd segments]: [path.resolve(...segments)] in a process whose
      working directory is [cwd]. *)
  resolve : string -> list string -> string;
  basename : string -> string;
  dirname : string -> string
}.

Definition slash : ascii := "/"%char.

Definition isSlash (c : ascii) : bool := Ascii.eqb c slash.

(** The segments of a path, separators removed. *)
Fixpoint splitChars (cur : list ascii) (cs : list ascii) : list (list ascii) :=
  match cs with
  | [] => [rev cur]
  | c :: r => if isSlash c then (rev cur :: splitChars [] r)%list
              else splitChars (c :: cur) r
  end.

Definition segments (p : string) : list string :=
  map string_of_list_ascii (splitChars [] (list_ascii_of_string p)).

(** Node's [normalizeString]: the stack of kept segments, most recent
    first. *)
Fixpoint normalizeSegments (allowAboveRoot : bool) (stack : list string)
  (segs : list string) : list string :=
  match segs with
  | [] => rev stack
  | s :: r =>
      if (s =? "") || (s =? ".") then normalizeSegments allowAboveRoot stack r
      else if s =? ".." then
        match stack with
        | top :: below =>
            if top =? ".." then
              normalizeSegments allowAboveRoot
                (if allowAboveRoot then ".." :: stack else stack) r
            else normalizeSegments allowAboveRoot below r
        | [] =>
            normalizeSegments allowAboveRoot
              (if allowAboveRoot then [".."] else []) r
        end
      else normalizeSegments allowAboveRoot (s :: stack) r
  end.

Definition normalizeString (p : string) (allowAboveRoot : bool) : string :=
  Js.join "/" (normalizeSegments allowAboveRoot [] (segments p)).

Definition startsWithSlash (p : string) : bool :=
  match p with
  | String c _ => isSlash c
  | EmptyString => false
  end.

Definition endsWithSlash (p : string) : bool :=
  match rev (list_ascii_of_string p) with
  | c :: _ => isSlash c
  | [] => false
  end.

Definition posixNormalize (p : string) : string :=
  if p =? "" then "."
  else
    let isAbs := startsWithSlash p in
    let trailing := endsWithSlash p in
    let body := normalizeString p (negb isAbs) in
    if body =? "" then
      if isAbs then "/" else if trailing then "./" else "."
    else
      let body := if trailing then body ++ "/" else body in
      if isAbs then "/" ++ body else body.

Definition posixJoin (args : list string) : string :=
  match filter Js.truthy args with
  | [] => "."
  | parts => posixNormalize (Js.join "/" parts)
  end.

(** The right-to-left accumulation of [path.resolve]: stops at the first
    absolute argument. *)
Fixpoint resolveAcc (revArgs : list string) (acc : string) : string * bool :=
  match revArgs with
  | [] => (acc, false)
  | p :: r =>
      if p =? "" then resolveAcc r acc
      else
        let acc' := p ++ "/" ++ acc in
        if startsWithSlash p then (acc', true) else resolveAcc r acc'
  end.

Definition posixResolve (cwd : string) (args : list string) : string :=
  let '(joined, isAbs) := resolveAcc (rev args ++ [cwd])%list "" in
  let body := normalizeString joined (negb isAbs) in
  if isAbs then "/" ++ body
  else if body =? "" then "." else body.

Definition posixBasename (p : string) : string :=
  last (filter Js.truthy (segments p)) "".

Definition posixDirname (p : string) : string :=
  match list_ascii_of_string p with
  | [] => "."
  | c0 :: rest =>
      let hasRoot := isSlash c0 in
      let afterName :=
        Js.dropWhile (fun c => negb (isSlash c))
          (Js.dropWhile isSlash (rev rest)) in
      match afterName with
      | [] => if hasRoot then "/" else "."
      | _ :: before =>
          if hasRoot && (length before =? 0)%nat then "//"
          else string_of_list_ascii (c0 :: rev before)
      end
  end.

Definition posix : Api := {|
  isAbsolute := startsWithSlash;
  normalize := posixNormalize;
  join := posixJoin;
  resolve := posixResolve;
  basename := posixBasename;
  dirname := posixDirname
|}.

End NodePath.

(** ** Data exchanged with the collaborators *)

(** The result of an asynchronous or throwing computation. *)
Inductive Outcome (A : Type) : Type :=
| Returned (a : A)
| Threw (e : Js.Error).

Arguments Returned {A} a.
Arguments Threw {A} e.

(** [ExecException] of [child_process]: an [Error] with a [code]. *)
Record ExecException : Type := {
  exMessage : string;
  exCode : Js.Code
}.

(** The arguments [exec] passes to its callback. *)
Record ExecCallback : Type := {
  cbErr : option ExecException;
  cbStdout : string;
  cbStderr : string
}.

(** CommandResult.ts; [exitCode] holds what [execute] puts there, the
    code of the error as it is. *)
Record CommandResult : Type := {
  command : string;
  workingDirectory : string;
  exitCode : Js.Code;
  message : string;
  stderr : string;
  stdout : string
}.

(** What [simple-git]'s [pull] resolves to. *)
Record PullSummary : Type := {
  changes : Z;
  insertions : Z;
  deletions : Z
}.

Record PullResult : Type := {
  summary : PullSummary;
  files : list string
}.

(** [fs.Dirent], and the directory tree that [readdir] discloses below a
    directory: a directory is missing, cannot be read, or lists entries
    (the subtree of an entry matters only when the entry is a
    directory). *)
Inductive DirentKind : Type := IsFile | IsDirectory | IsOther.

Record Dirent : Type := { name : string; kind : DirentKind }.

Inductive DirTree : Type :=
| Missing
| Unreadable (e : Js.Error)
| Listing (entries : list (Dirent * DirTree)).

(** Values returned by a control-script function. *)
Inductive CtrlValue : Type :=
| CtrlInt (n : Z)
| CtrlBool (b : bool)
| CtrlString (s : string)
| CtrlDynString (l : list string)
| CtrlDynDynString (l : list (list string)).

(** A repository record of the GitHub API ([repo: any] in the source):
    the fields the handler reads. [license_name] is [repo.license?.name]. *)
Record RawRepo : Type := {
  r_name : Js.Json;
  r_full_name : Js.Json;
  r_description : Js.Json;
  r_language : Js.Json;
  r_stargazers_count : Js.Json;
  r_forks_count : Js.Json;
  r_size : Js.Json;
  r_default_branch : Js.Json;
  r_created_at : Js.Json;
  r_updated_at : Js.Json;
  r_pushed_at : Js.Json;
  r_clone_url : Js.Json;
  r_ssh_url : Js.Json;
  r_homepage : Js.Json;
  r_topics : Js.Json;
  r_private : Js.Json;
  r_archived : Js.Json;
  r_disabled : Js.Json;
  r_fork : Js.Json;
  r_has_issues : Js.Json;
  r_has_projects : Js.Json;
  r_has_wiki : Js.Json;
  r_has_pages : Js.Json;
  r_has_downloads : Js.Json;
  r_license_name : option Js.Json
}.

(** The parameters of [octokit.rest.repos.listForOrg]. *)
Record ListRequest : Type := {
  q_org : string;
  q_type : string;
  q_sort : string;
  q_direction : string;
  q_per_page : Z;
  q_page : Z
}.

Inductive Level : Type := LogLevel | WarnLevel | ErrorLevel.

(** One observable step of a run: console output, or a call to a
    collaborator with the answer it gave. *)
Inductive Event : Type :=
| Console (lvl : Level) (text : string)
| Exec (cmd : string) (cwd : option string) (answer : Outcome ExecCallback)
| CtrlStart (fn : string) (args : list string) (answer : Outcome CtrlValue)
| Mkdir (dir : string) (answer : Outcome unit)
| GitPull (baseDir : string) (answer : Outcome PullResult)
| GitClone (baseDir url repo : string) (options : list string)
    (answer : Outcome unit)
| ListForOrg (request : ListRequest) (answer : Outcome (list RawRepo)).

(** The collaborators, over a state [W] of the outside world.  Reads
    observe the world; calls may change it. *)
Record Collaborators (W : Type) : Type := {
  process_cwd : W -> string;
  date_now : W -> Z;
  fs_existsSync : W -> string -> bool;
  (** [fs.statSync(p).isDirectory()] *)
  fs_isDirectory : W -> string -> bool;
  fs_readFileSync : W -> string -> Outcome string;
  (** [fs.existsSync] and [fs.promises.readdir], followed downwards *)
  fs_readdirTree : W -> string -> DirTree;
  (** [fs.mkdirSync(dir, { recursive: true })] *)
  fs_mkdirSync : string -> W -> Outcome unit * W;
  (** [child_process.exec]: the callback it makes, or the error it
      throws at once for a command or a directory it does not accept *)
  child_exec : string -> option string -> W -> Outcome ExecCallback * W;
  (** [WinccoaCtrlScript.start(fn, args, types)] *)
  ctrl_start : string -> list string -> W -> Outcome CtrlValue * W;
  (** [simpleGit(baseDir).pull()] *)
  git_pull : string -> W -> Outcome PullResult * W;
  (** [simpleGit(baseDir).clone(url, repo, options)] *)
  git_clone : string -> string -> string -> list string -> W
              -> Outcome unit * W;
  octokit_listForOrg : ListRequest -> W -> Outcome (list RawRepo) * W;
  JSON_parse : string -> Outcome Js.Json;
  (** [JSON.stringify(v, null, indent)] *)
  JSON_stringify : Js.Json -> Z -> string;
  (** [Number(s)] for a string: the integer it denotes, nothing for
      [NaN] and for a number that is not an integer *)
  Number_ofString : string -> option Z
}.

Arguments process_cwd {W} _ _.
Arguments date_now {W} _ _.
Arguments fs_existsSync {W} _ _ _.
Arguments fs_isDirectory {W} _ _ _.
Arguments fs_readFileSync {W} _ _ _.
Arguments fs_readdirTree {W} _ _ _.
Arguments fs_mkdirSync {W} _ _ _.
Arguments child_exec {W} _ _ _ _.
Arguments ctrl_start {W} _ _ _ _.
Arguments git_pull {W} _ _ _.
Arguments git_clone {W} _ _ _ _ _ _.
Arguments octokit_listForOrg {W} _ _ _.
Arguments JSON_parse {W} _ _.
Arguments JSON_stringify {W} _ _ _.
Arguments Number_ofString {W} _ _.

(** ** The effect monad *)

Module Eff.

(** A computation from a world: its outcome, the world it leaves and the
    events it produced, oldest first. *)
Definition M (W A : Type) : Type := W -> Outcome A * W * list Event.

Section Ops.
Context {W : Type}.

Definition ret {A : Type} (a : A) : M W A :=
  fun w => (Returned a, w, []).

Definition throw {A : Type} (e : Js.Error) : M W A :=
  fun w => (Threw e, w, []).

Definition bind {A B : Type} (m : M W A) (k : A -> M W B) : M W B :=
  fun w =>
    match m w with
    | (Returned a, w1, t1) =>
        let '(r, w2, t2) := k a w1 in (r, w2, (t1 ++ t2)%list)
    | (Threw e, w1, t1) => (Threw e, w1, t1)
    end.

(** [try { m } catch (e) { handler e }] *)
Definition tryCatch {A : Type} (m : M W A) (handler : Js.Error -> M W A)
  : M W A :=
  fun w =>
    match m w with
    | (Returned a, w1, t1) => (Returned a, w1, t1)
    | (Threw e, w1, t1) =>
        let '(r, w2, t2) := handler e w1 in (r, w2, (t1 ++ t2)%list)
    end.

(** Reading the world. *)
Definition observe {A : Type} (f : W -> A) : M W A :=
  fun w => (Returned (f w), w, []).

Definition emit (ev : Event) : M W unit :=
  fun w => (Returned tt, w, [ev]).

Definition console (lvl : Level) (text : string) : M W unit :=
  emit (Console lvl text).

(** A call to a collaborator that may throw, recorded with its answer. *)
Definition call {A : Type} (f : W -> Outcome A * W)
  (record : Outcome A -> Event) : M W A :=
  fun w => let '(r, w1) := f w in (r, w1, [record r]).

(** [for (const x of xs) { await body(x) }] *)
Fixpoint forEach {A : Type} (xs : list A) (body : A -> M W unit) : M W unit :=
  match xs with
  | [] => ret tt
  | x :: rest => bind (body x) (fun _ => forEach rest body)
  end.

End Ops.

Definition outcome {W A : Type} (r : Outcome A * W * list Event) : Outcome A :=
  fst (fst r).

Definition finalWorld {W A : Type} (r : Outcome A * W * list Event) : W :=
  snd (fst r).

Definition events {W A : Type} (r : Outcome A * W * list Event) : list Event :=
  snd r.

End Eff.

Declare Scope eff_scope.
Delimit Scope eff_scope with eff.
Notation "x <- c ;; k" := (Eff.bind c (fun x => k))
  (at level 61, c at next level, right associativity) : eff_scope.
Notation "c ;; k" := (Eff.bind c (fun _ => k))
  (at level 61, right associativity) : eff_scope.
Local Open Scope eff_scope.

(** ** CommandExecutor.ts *)

Module CommandExecutor.

(** The object literal built in the callback of [exec]. *)
Definition resultOf (cmd : string) (cwd : option string) (cb : ExecCallback)
  : CommandResult :=
  {| command := cmd;
     workingDirectory :=
       match cwd with
       | Some d => d
       | None => "Not specified (using current directory)"
       end;
     exitCode :=
       match cbErr cb with
       | Some err =>
           match exCode err with
           | Js.CodeMissing => Js.CodeNumber 0
           | code => code
           end
       | None => Js.CodeNumber 0
       end;
     message :=
       match cbErr cb with
       | Some err => Js.orElse (exMessage err) ""
       | None => ""
       end;
     stderr := Js.orElse (cbStderr cb) "";
     stdout := Js.orElse (cbStdout cb) "" |}.

Section WithCollaborators.
Context {W : Type} (env : Collaborators W).

(** [execute(command, cwd?)]: the promise is settled by [resolve] from the
    callback of [exec], with the result built there; an error that
    [exec] throws in the executor of the promise rejects it. *)
Definition execute (cmd : string) (cwd : option string)
  : Eff.M W CommandResult :=
  fun w =>
    match child_exec env cmd cwd w with
    | (Returned cb, w1) =>
        (Returned (resultOf cmd cwd cb), w1, [Exec cmd cwd (Returned cb)])
    | (Threw e, w1) => (Threw e, w1, [Exec cmd cwd (Threw e)])
    end.

End WithCollaborators.
End CommandExecutor.

(** ** AsciiManager.ts *)

Module AsciiManager.

Definition SUCCESS_EXIT_CODES : list Z := [0%Z].

Definition WARNING_EXIT_CODES : list Z := [55%Z].

Definition dquote : string := String (ascii_of_nat 34) EmptyString.

Definition newline : string := String (ascii_of_nat 10) EmptyString.

Definition logDetails (result : CommandResult) : string :=
  "Command:           " ++ command result ++ newline ++
  "Exit Code:         " ++ Js.codeToString (exitCode result) ++ newline ++
  "Working Directory: " ++ workingDirectory result ++ newline ++
  "Message:           " ++ Js.orElse (message result) "None" ++ newline ++
  "Stderr:            " ++ Js.orElse (stderr result) "None" ++ newline ++
  "Stdout:            " ++ Js.orElse (stdout result) "None".

Section WithCollaborators.
Context {W : Type} (env : Collaborators W).

(** [import(winccoa, fileName, confirm, useDbdFiles, logWarnings,
    noVerbose)].  The preparation of the command line
    ([prepareImportCommand], which only reads paths) is an argument. *)
Definition import (prepareImportCommand : Eff.M W string)
  (fileName : string) (logWarnings : bool) : Eff.M W bool :=
  Eff.tryCatch
    (cmd <- prepareImportCommand ;;
     if negb (Js.truthy (Js.trim cmd)) then
       Eff.console ErrorLevel
         ("[AsciiManager.import] Invalid import command generated for file: "
            ++ dquote ++ fileName ++ dquote ++ ".") ;;
       Eff.ret false
     else
       result <- CommandExecutor.execute env cmd None ;;
       let code := Js.toNumber (Number_ofString env) (exitCode result) in
       if Js.includesNumber SUCCESS_EXIT_CODES code then Eff.ret true
       else if Js.includesNumber WARNING_EXIT_CODES code then
         (if logWarnings then
            Eff.console WarnLevel
              ("[AsciiManager.import] Import completed with warnings."
                 ++ newline ++ logDetails result)
          else Eff.ret tt) ;;
         Eff.ret true
       else
         Eff.console ErrorLevel
           ("[AsciiManager.import] Import failed." ++ newline
              ++ logDetails result) ;;
         Eff.ret false)
    (fun err =>
       Eff.console ErrorLevel
         ("[AsciiManager.import] Exception during import of " ++ dquote
            ++ fileName ++ dquote ++ ": " ++ Js.message err) ;;
       Eff.ret false).

End WithCollaborators.
End AsciiManager.

(** ** NodeInstaller.ts *)

Module NodeInstaller.

Definition isPackageJson (entry : Dirent * DirTree) : bool :=
  match kind (fst entry) with
  | IsFile => name (fst entry) =? "package.json"
  | _ => false
  end.

Definition isWalkedDirectory (d : Dirent) : bool :=
  match kind d with
  | IsDirectory => negb (name d =? "node_modules")
  | _ => false
  end.

Section Entries.
Context {W : Type} (nodePath : NodePath.Api).
Variable walk : string -> DirTree -> list string -> Eff.M W (list string).
Variable dir : string.

(** The loop [for (const entry of entries)] of [findPackageDirs], with
    the recursive call as [walk]; [acc] is the shared array [found]. *)
Fixpoint walkEntries (entries : list (Dirent * DirTree)) (acc : list string)
  : Eff.M W (list string) :=
  match entries with
  | [] => Eff.ret acc
  | entry :: rest =>
      if isWalkedDirectory (fst entry) then
        acc1 <- walk (NodePath.join nodePath [dir; name (fst entry)])
                  (snd entry) acc ;;
        walkEntries rest acc1
      else walkEntries rest acc
  end.

End Entries.

Section WithCollaborators.
Context {W : Type} (path : NodePath.Api) (env : Collaborators W).

(** The body of [findPackageDirs(dir, found)] on the tree below [dir]:
    the array [found] is shared by all recursive calls, which push to it;
    the value here is [found] after the call. *)
Fixpoint walkPackageDirs (dir : string) (tree : DirTree) (found : list string)
  {struct tree} : Eff.M W (list string) :=
  match tree with
  | Missing => Eff.ret found
  | Unreadable e => Eff.throw e
  | Listing entries =>
      found1 <-
        (if existsb isPackageJson entries then
           Eff.console LogLevel ("Found package.json in " ++ dir) ;;
           Eff.ret (found ++ [dir])%list
         else Eff.ret found) ;;
      walkEntries path walkPackageDirs dir entries found1
  end.

(** [findPackageDirs(dir)], called with the default [found = []]: a
    missing directory answers a fresh empty array, any other the shared
    one. *)
Definition findPackageDirs (dir : string) : Eff.M W (list string) :=
  tree <- Eff.observe (fun w => fs_readdirTree env w dir) ;;
  found <- walkPackageDirs dir tree [] ;;
  Eff.ret (match tree with
           | Missing => []
           | _ => found
           end).

Definition commandLine (cmd : string) (args : list string) : string :=
  Js.join " " (cmd :: args).

Definition runCommand (cmd : string) (args : list string) (cwd : string)
  : Eff.M W unit :=
  Eff.console LogLevel
    ("Running command: " ++ cmd ++ " " ++ Js.join " " args ++ " in " ++ cwd) ;;
  result <- CommandExecutor.execute env (commandLine cmd args) (Some cwd) ;;
  if negb (Js.isZero (exitCode result)) then
    Eff.throw
      (Js.newError
         (cmd ++ " " ++ Js.join " " args ++ " failed with code "
            ++ Js.codeToString (exitCode result) ++ AsciiManager.newline
            ++ stderr result))
  else Eff.ret tt.

(** The body of the loop of [installAndBuild]. *)
Definition installAndBuildIn (dir : string) : Eff.M W unit :=
  Eff.console LogLevel ("Installing and building in " ++ dir) ;;
  runCommand "npm" ["install"] dir ;;
  runCommand "npx" ["tsc"] dir.

Definition installAndBuild (projDir : string) : Eff.M W unit :=
  dirs <- findPackageDirs (projDir ++ "/javascript") ;;
  Eff.forEach dirs installAndBuildIn.

End WithCollaborators.
End NodeInstaller.

(** ** PathResolver.ts *)

Module PathResolver.

(** An entry of the array of paths: a string, or another value, kept by
    the words Node has for it in the message of its [TypeError]. *)
Inductive PathEntry : Type :=
| EntryString (p : string)
| EntryOther (received : string).

(** What [winccoa.getPaths()] answers, as [Array.isArray] sees it.  For a
    value [v] that is no array, [lastEntry] is what [v[v.length - 1]]
    gives: an error when [v] is [null] or [undefined], and otherwise an
    entry or nothing, which is [undefined]. *)
Inductive PathsValue : Type :=
| NotAnArray (lastEntry : Outcome (option PathEntry))
| PathsArray (items : list PathEntry).

(** The manager instance, as far as [PathResolver] uses it; the call of
    [getPaths] may throw. *)
Record WinccoaManager : Type := {
  getPaths : Outcome PathsValue;
  (** [getVersionInfo().winccoa.version] *)
  version : Outcome string
}.

(** The [TypeError] of [path] for an argument that is no string. *)
Definition typeError (received : string) : Js.Error :=
  Js.newError
    ("The " ++ AsciiManager.dquote ++ "path" ++ AsciiManager.dquote
       ++ " argument must be of type string. Received " ++ received).

(** An error thrown by a call, or its value. *)
Definition fromOutcome {W A : Type} (o : Outcome A) : Eff.M W A :=
  fun w => (o, w, []).

Section WithCollaborators.
Context {W : Type} (path : NodePath.Api).

(** [path.normalize(x)] where [x] may be [undefined] or no string. *)
Definition normalizeEntry (x : option PathEntry) : Eff.M W string :=
  match x with
  | Some (EntryString p) => Eff.ret (NodePath.normalize path p)
  | Some (EntryOther received) => Eff.throw (typeError received)
  | None => Eff.throw (typeError "undefined")
  end.

Definition getProjectPath (winccoa : option WinccoaManager) : Eff.M W string :=
  match winccoa with
  | None =>
      Eff.console ErrorLevel
        "[PathResolver.getProjectPath] Invalid WinCC OA manager instance provided." ;;
      Eff.ret ""
  | Some manager =>
      answered <- fromOutcome (getPaths manager) ;;
      match answered with
      | PathsArray paths =>
          if (length paths <? 2)%nat then
            Eff.console ErrorLevel
              "[PathResolver.getProjectPath] Invalid or incomplete paths array returned from WinCC OA manager." ;;
            Eff.ret ""
          else normalizeEntry (nth_error paths 0)
      | NotAnArray _ =>
          Eff.console ErrorLevel
            "[PathResolver.getProjectPath] Invalid or incomplete paths array returned from WinCC OA manager." ;;
          Eff.ret ""
      end
  end.

Definition getInstallationPath (winccoa : option WinccoaManager)
  : Eff.M W string :=
  match winccoa with
  | None =>
      Eff.console ErrorLevel
        "[PathResolver.getInstallationPath] Invalid WinCC OA manager instance provided." ;;
      Eff.ret ""
  | Some manager =>
      answered <- fromOutcome (getPaths manager) ;;
      match answered with
      | PathsArray paths =>
          if (length paths <? 2)%nat then
            Eff.console ErrorLevel
              "[PathResolver.getInstallationPath] Invalid or incomplete paths array returned from WinCC OA manager." ;;
            Eff.ret ""
          else normalizeEntry (nth_error paths (length paths - 1))
      | NotAnArray _ =>
          Eff.console ErrorLevel
            "[PathResolver.getInstallationPath] Invalid or incomplete paths array returned from WinCC OA manager." ;;
          Eff.ret ""
      end
  end.

End WithCollaborators.
End PathResolver.

(** ** AddonConfig.ts *)

Module AddonConfig.

Inductive StartMode : Type := Always | Manual | Once | Unknown.

(** The string value of each member of the enum. *)
Definition startModeValue (m : StartMode) : string :=
  match m with
  | Always => "always"
  | Manual => "manual"
  | Once => "once"
  | Unknown => ""
  end.

Record ManagerConfig : Type := {
  Name : string;
  startMode : StartMode;
  Options : string
}.

Record AddonConfig : Type := {
  RepoName : string;
  Keywords : list string;
  Subproject : string;
  Version : string;
  Description : string;
  OaVersion : string;
  Managers : option (list ManagerConfig);
  Dplists : option (list string);
  UpdateScripts : option (list string)
}.

End AddonConfig.

(** ** AddOnHandler.ts *)

Module AddOnHandler.
Import AddonConfig.

(** *** The repository name of a clone URL *)

(** The regular expression [/\/([^\/]+?)(?:\.git)?$/], matched the way a
    backtracking matcher does.  [lazyName taken rest]: the group has
    consumed [taken]; the optional [.git] and the end of input are tried
    before the lazy group takes one more character. *)
Fixpoint lazyName (taken rest : string) : option string :=
  if (rest =? ".git") || (rest =? "") then Some taken
  else match rest with
       | EmptyString => None
       | String c r =>
           if NodePath.isSlash c then None
           else lazyName (taken ++ String c EmptyString) r
       end.

(** The match attempted right after a slash: the group needs one
    character that is not a slash. *)
Definition matchAfterSlash (rest : string) : option string :=
  match rest with
  | EmptyString => None
  | String c r =>
      if NodePath.isSlash c then None else lazyName (String c EmptyString) r
  end.

(** [url.match(...)]: the leftmost position at which the expression
    matches; the value is the first capture group. *)
Fixpoint repoNameMatch (url : string) : option string :=
  match url with
  | EmptyString => None
  | String c r =>
      if NodePath.isSlash c then
        match matchAfterSlash r with
        | Some captured => Some captured
        | None => repoNameMatch r
        end
      else repoNameMatch r
  end.

(** The result of [listOrganizationRepositories] for one repository. *)
Record RepoSummary : Type := {
  name : Js.Json;
  fullName : Js.Json;
  description : Js.Json;
  language : Js.Json;
  stars : Js.Json;
  forks : Js.Json;
  size : Js.Json;
  defaultBranch : Js.Json;
  createdAt : Js.Json;
  updatedAt : Js.Json;
  pushedAt : Js.Json;
  cloneUrl : Js.Json;
  sshUrl : Js.Json;
  homepage : Js.Json;
  topics : Js.Json;
  private : Js.Json;
  archived : Js.Json;
  disabled : Js.Json;
  fork : Js.Json;
  hasIssues : Js.Json;
  hasProjects : Js.Json;
  hasWiki : Js.Json;
  hasPages : Js.Json;
  hasDownloads : Js.Json;
  license : Js.Json
}.

Definition summarize (repo : RawRepo) : RepoSummary := {|
  name := r_name repo;
  fullName := r_full_name repo;
  description := r_description repo;
  language := r_language repo;
  stars := r_stargazers_count repo;
  forks := r_forks_count repo;
  size := r_size repo;
  defaultBranch := r_default_branch repo;
  createdAt := r_created_at repo;
  updatedAt := r_updated_at repo;
  pushedAt := r_pushed_at repo;
  cloneUrl := r_clone_url repo;
  sshUrl := r_ssh_url repo;
  homepage := r_homepage repo;
  topics := r_topics repo;
  private := r_private repo;
  archived := r_archived repo;
  disabled := r_disabled repo;
  fork := r_fork repo;
  hasIssues := r_has_issues repo;
  hasProjects := r_has_projects repo;
  hasWiki := r_has_wiki repo;
  hasPages := r_has_pages repo;
  hasDownloads := r_has_downloads repo;
  license :=
    match r_license_name repo with
    | Some n => if Js.jsonTruthy n then n else Js.JNull
    | None => Js.JNull
    end
|}.

(** The [options] argument of [listOrganizationRepositories]. *)
Record ListOptions : Type := {
  type : option string;
  sort : option string;
  direction : option string;
  perPage : option Z;
  maxPages : option Z
}.

Definition noOptions : ListOptions :=
  {| type := None; sort := None; direction := None;
     perPage := None; maxPages := None |}.

(** A destructuring default. *)
Definition orDefault {A : Type} (o : option A) (d : A) : A :=
  match o with
  | Some v => v
  | None => d
  end.

(** The target of a clone: lines 336 to 391 of [cloneRepository]. *)
Record ResolvedTarget : Type := {
  fullPath : string;
  repoName : string
}.

(** What [cloneRepository] resolves to. *)
Record CloneResult : Type := {
  path : string;
  fileContent : option string
}.

Definition addManagerArgs (manager : ManagerConfig) : list string :=
  [Name manager; startModeValue (startMode manager); Options manager; ""; ""].

Section WithCollaborators.
Context {W : Type} (nodePath : NodePath.Api) (env : Collaborators W)
  (_defaultDirectory : string).

Definition ctrlScriptStart (fn : string) (args : list string)
  : Eff.M W CtrlValue :=
  Eff.call (ctrl_start env fn args) (CtrlStart fn args).

Definition gitPull (baseDir : string) : Eff.M W PullResult :=
  Eff.call (git_pull env baseDir) (GitPull baseDir).

Definition gitClone (baseDir url repo : string) (options : list string)
  : Eff.M W unit :=
  Eff.call (git_clone env baseDir url repo options)
    (GitClone baseDir url repo options).

Definition mkdirRecursive (dir : string) : Eff.M W unit :=
  Eff.call (fs_mkdirSync env dir) (Mkdir dir).

Definition listForOrg (request : ListRequest) : Eff.M W (list RawRepo) :=
  Eff.call (octokit_listForOrg env request) (ListForOrg request).

(** A synchronous read that may throw. *)
Definition reading {A : Type} (f : W -> Outcome A) : Eff.M W A :=
  fun w => (f w, w, []).

(** *** Sub-project registration *)

Definition attachManager (manager : ManagerConfig) : Eff.M W unit :=
  Eff.console LogLevel
    ("Adding manager " ++ Name manager ++ " with start mode "
       ++ startModeValue (startMode manager) ++ " and options "
       ++ Options manager) ;;
  _ <- ctrlScriptStart "addManager" (addManagerArgs manager) ;;
  Eff.ret tt.

Definition registerSubProject (path : string) (config : AddonConfig)
  : Eff.M W CtrlValue :=
  ret <- ctrlScriptStart "registerSubProj" [path] ;;
  NodeInstaller.installAndBuild nodePath env path ;;
  Eff.forEach (orDefault (Managers config) []) attachManager ;;
  Eff.ret ret.

Definition unregisterSubProject (path : string) : Eff.M W CtrlValue :=
  ctrlScriptStart "unregisterSubProj" [path].

Definition listSubProjects : Eff.M W CtrlValue :=
  ctrlScriptStart "listSubProjs" [].

(** *** Cloning *)

Definition fallbackName (w : W) : string :=
  "repo-" ++ Js.numberToString (date_now env w).

Definition extractRepoNameFromUrl (url : string) (w : W) : string :=
  match repoNameMatch url with
  | Some captured => if Js.truthy captured then captured else fallbackName w
  | None => fallbackName w
  end.

Definition readWinCCOAPackageJson (repositoryPath : string)
  : Eff.M W (option string) :=
  Eff.tryCatch
    (let packageWinCCoAPath :=
       NodePath.join nodePath [repositoryPath; "package.winccoa.json"] in
     present <- Eff.observe (fun w => fs_existsSync env w packageWinCCoAPath) ;;
     if present then
       Eff.console LogLevel
         "package.winccoa.json found - this appears to be a WinCC OA addon" ;;
       content <- reading (fun w => fs_readFileSync env w packageWinCCoAPath) ;;
       parsed <- reading (fun _ => JSON_parse env content) ;;
       Eff.ret (Some (JSON_stringify env parsed 2))
     else
       Eff.console LogLevel
         "package.winccoa.json not found - this may not be a WinCC OA addon" ;;
       Eff.ret None)
    (fun error =>
       Eff.console ErrorLevel
         ("Failed to read or parse package.winccoa.json: "
            ++ Js.message error) ;;
       Eff.ret None).

(** Lines 336 to 391: where the repository goes, in the world [w]. *)
Definition resolveTarget (cloneUrl : string) (targetDirectory : option string)
  (w : W) : ResolvedTarget :=
  let byDefault :=
    let repoName := extractRepoNameFromUrl cloneUrl w in
    {| repoName := repoName;
       fullPath := NodePath.resolve nodePath (process_cwd env w)
                     [_defaultDirectory; repoName] |} in
  match targetDirectory with
  | None => byDefault
  | Some targetDirectory =>
      if negb (Js.truthy targetDirectory) then byDefault
      else if NodePath.isAbsolute nodePath targetDirectory then
        if fs_existsSync env w targetDirectory
           && fs_isDirectory env w targetDirectory then
          let gitDir := NodePath.join nodePath [targetDirectory; ".git"] in
          if fs_existsSync env w gitDir then
            {| fullPath := targetDirectory;
               repoName := NodePath.basename nodePath targetDirectory |}
          else
            let repoName := extractRepoNameFromUrl cloneUrl w in
            {| repoName := repoName;
               fullPath := NodePath.join nodePath [targetDirectory; repoName] |}
        else
          {| fullPath := targetDirectory;
             repoName := NodePath.basename nodePath targetDirectory |}
      else
        let resolvedPath :=
          NodePath.resolve nodePath (process_cwd env w) [targetDirectory] in
        if fs_existsSync env w resolvedPath
           && fs_isDirectory env w resolvedPath then
          let gitDir := NodePath.join nodePath [resolvedPath; ".git"] in
          if fs_existsSync env w gitDir then
            {| fullPath := resolvedPath;
               repoName := NodePath.basename nodePath resolvedPath |}
          else
            let repoName := extractRepoNameFromUrl cloneUrl w in
            {| repoName := repoName;
               fullPath := NodePath.join nodePath [resolvedPath; repoName] |}
        else
          {| fullPath := resolvedPath;
             repoName := NodePath.basename nodePath resolvedPath |}
  end.

(** The report printed after each [pull]. *)
Definition pullReport (pullResult : PullResult) : string :=
  if negb (changes (summary pullResult) =? 0)%Z then
    "Pull completed: " ++ Js.numberToString (changes (summary pullResult))
      ++ " changes, " ++ Js.numberToString (insertions (summary pullResult))
      ++ " insertions, " ++ Js.numberToString (deletions (summary pullResult))
      ++ " deletions"
  else "Repository is already up to date".

Definition logPull (pullResult : PullResult) : Eff.M W unit :=
  Eff.console LogLevel (pullReport pullResult) ;;
  Eff.console LogLevel "Git pull completed successfully!".

(** The [catch] block of [cloneRepository]. *)
Definition cloneFailure (cloneUrl : string) (targetDirectory : option string)
  (error : Js.Error) : Eff.M W CloneResult :=
  let msg := Js.message error in
  if Js.includes msg "repository not found"
     || Js.includes msg "could not read from remote repository"
     || Js.includes msg "not found"
     || Js.includes msg "does not exist" then
    Eff.throw
      (Js.newError
         ("Repository not found at URL: " ++ cloneUrl
            ++ ". Please check the URL and your access permissions."))
  else if Js.includes msg "already exists"
          || Js.includes msg "destination path" then
    shown <- Eff.observe
               (fun w =>
                  match targetDirectory with
                  | Some t =>
                      if Js.truthy t then t
                      else extractRepoNameFromUrl cloneUrl w
                  | None => extractRepoNameFromUrl cloneUrl w
                  end) ;;
    Eff.throw (Js.newError ("Directory '" ++ shown ++ "' already exists"))
  else if Js.includes msg "Permission denied"
          || Js.includes msg "authentication" then
    Eff.throw
      (Js.newError
         ("Authentication failed. Please check your credentials for URL: "
            ++ cloneUrl))
  else
    Eff.throw
      (Js.newError ("Failed to clone repository from URL: " ++ msg)).

Definition branchGiven (branch : option string) : option string :=
  match branch with
  | Some b => if Js.truthy b then Some b else None
  | None => None
  end.

Definition cloneOptionsFor (branch : option string) : list string :=
  match branchGiven branch with
  | Some b => ["--branch"; b]
  | None => []
  end.

Definition cloneRepository (cloneUrl : string) (targetDirectory : option string)
  (branch : option string) : Eff.M W CloneResult :=
  Eff.tryCatch
    (target <- Eff.observe (resolveTarget cloneUrl targetDirectory) ;;
     let fullPath := fullPath target in
     let repoName := repoName target in
     Eff.console LogLevel ("Target directory: " ++ fullPath) ;;
     alreadyThere <- Eff.observe (fun w => fs_existsSync env w fullPath) ;;
     if alreadyThere then
       Eff.console LogLevel
         (AsciiManager.newline ++ "Repository already exists at: "
            ++ fullPath) ;;
       Eff.console LogLevel "Performing git pull to ensure latest changes..." ;;
       pullResult <- gitPull fullPath ;;
       logPull pullResult ;;
       content <- readWinCCOAPackageJson fullPath ;;
       Eff.ret {| path := fullPath; fileContent := content |}
     else
       Eff.console LogLevel ("Cloning repository from URL: " ++ cloneUrl) ;;
       Eff.console LogLevel ("Target directory: " ++ fullPath) ;;
       let parentDir := NodePath.dirname nodePath fullPath in
       parentThere <- Eff.observe (fun w => fs_existsSync env w parentDir) ;;
       (if negb parentThere then
          mkdirRecursive parentDir ;;
          Eff.console LogLevel ("Created parent directory: " ++ parentDir)
        else Eff.ret tt) ;;
       let cloneOptions := cloneOptionsFor branch in
       Eff.console LogLevel
         (AsciiManager.newline ++ "Cloning "
            ++ match branchGiven branch with
               | Some b => "branch '" ++ b ++ "' from "
               | None => ""
               end
            ++ cloneUrl ++ "...") ;;
       gitClone parentDir cloneUrl repoName cloneOptions ;;
       Eff.console LogLevel
         (AsciiManager.newline ++ "Successfully cloned repository to: "
            ++ fullPath) ;;
       Eff.console LogLevel "Performing git pull to ensure latest changes..." ;;
       pullResult <- gitPull fullPath ;;
       logPull pullResult ;;
       content <- readWinCCOAPackageJson fullPath ;;
       Eff.ret {| path := fullPath; fileContent := content |})
    (cloneFailure cloneUrl targetDirectory).

(** *** Listing the repositories of an organization *)

(** The [while (hasMorePages && page <= maxPages)] loop.  [fuel] bounds the
    number of iterations; [None] means the bound was reached with the
    loop condition still true. *)
Fixpoint pageLoop (fuel : nat) (org type sort direction : string)
  (perPage maxPages : Z) (hasMorePages : bool) (page : Z)
  (allRepos : list RepoSummary) : Eff.M W (option (list RepoSummary)) :=
  if hasMorePages && (page <=? maxPages)%Z then
    match fuel with
    | O => Eff.ret None
    | S fuel' =>
        Eff.console LogLevel
          ("Fetching page " ++ Js.numberToString page ++ "...") ;;
        response <- listForOrg
                      {| q_org := org; q_type := type; q_sort := sort;
                         q_direction := direction; q_per_page := perPage;
                         q_page := page |} ;;
        let repos := map summarize response in
        pageLoop fuel' org type sort direction perPage maxPages
          (Z.of_nat (length response) =? perPage)%Z (page + 1)%Z
          (allRepos ++ repos)%list
    end
  else Eff.ret (Some allRepos).

(** [error.status === code] *)
Definition statusIs (error : Js.Error) (code : Z) : bool :=
  match Js.status error with
  | Some s => (s =? code)%Z
  | None => false
  end.

(** The [catch] block of [listOrganizationRepositories]. *)
Definition listFailure {A : Type} (org : string) (error : Js.Error)
  : Eff.M W A :=
  if statusIs error 404 then
    Eff.throw
      (Js.newError
         ("Organization '" ++ org ++ "' not found or is not accessible"))
  else if statusIs error 403 then
    Eff.throw
      (Js.newError
         ("Access denied to organization '" ++ org
            ++ "'. You may need authentication or proper permissions."))
  else
    Eff.throw
      (Js.newError
         ("Failed to list organization repositories: " ++ Js.message error)).

(** [listOrganizationRepositories(org, options)]; the loop gets as much
    fuel as [maxPages] allows iterations. *)
Definition listOrganizationRepositories (org : string) (options : ListOptions)
  : Eff.M W (option (list RepoSummary)) :=
  let type := orDefault (type options) "all" in
  let sort := orDefault (sort options) "updated" in
  let direction := orDefault (direction options) "desc" in
  let perPage := orDefault (perPage options) 100%Z in
  let maxPages := orDefault (maxPages options) 10%Z in
  Eff.tryCatch
    (Eff.console LogLevel ("Fetching repositories for organization: " ++ org) ;;
     fetched <- pageLoop (Z.to_nat maxPages) org type sort direction
                  perPage maxPages true 1%Z [] ;;
     match fetched with
     | Some allRepos =>
         Eff.console LogLevel
           ("Retrieved " ++ Js.numberToString (Z.of_nat (length allRepos))
              ++ " repositories from organization: " ++ org) ;;
         Eff.ret (Some allRepos)
     | None => Eff.ret None
     end)
    (listFailure org).

End WithCollaborators.
End AddOnHandler.

(** ** Reading a run *)

Module Trace.

(** The calls to control-script functions, in order. *)
Fixpoint ctrlCalls (t : list Event) : list (string * list string) :=
  match t with
  | [] => []
  | CtrlStart fn args _ :: r => (fn, args) :: ctrlCalls r
  | _ :: r => ctrlCalls r
  end.

(** The argument lists of the [addManager] calls: the attachments
    attempted. *)
Definition attachments (t : list Event) : list (list string) :=
  map snd (filter (fun c => fst c =? "addManager") (ctrlCalls t)).

(** The commands handed to [exec], with their working directory. *)
Fixpoint execCalls (t : list Event) : list (string * option string) :=
  match t with
  | [] => []
  | Exec cmd cwd _ :: r => (cmd, cwd) :: execCalls r
  | _ :: r => execCalls r
  end.

(** File-system changes and git operations. *)
Inductive Operation : Type :=
| OpMkdir (dir : string)
| OpPull (baseDir : string)
| OpClone (baseDir url repo : string) (options : list string).

Fixpoint operations (t : list Event) : list Operation :=
  match t with
  | [] => []
  | Mkdir dir _ :: r => OpMkdir dir :: operations r
  | GitPull baseDir _ :: r => OpPull baseDir :: operations r
  | GitClone baseDir url repo options _ :: r =>
      OpClone baseDir url repo options :: operations r
  | _ :: r => operations r
  end.

(** The page requests sent to the remote API, each with its answer. *)
Fixpoint pageRequests (t : list Event)
  : list (ListRequest * Outcome (list RawRepo)) :=
  match t with
  | [] => []
  | ListForOrg request answer :: r => (request, answer) :: pageRequests r
  | _ :: r => pageRequests r
  end.

(** The lines printed to the console, whatever the level. *)
Fixpoint consoleLines (t : list Event) : list string :=
  match t with
  | [] => []
  | Console _ text :: r => text :: consoleLines r
  | _ :: r => consoleLines r
  end.

Definition answeredNormally {A : Type} (o : Outcome A) : bool :=
  match o with
  | Returned _ => true
  | Threw _ => false
  end.

(** No collaborator call of the run threw. *)
Definition callSucceeded (ev : Event) : bool :=
  match ev with
  | Console _ _ => true
  | Exec _ _ answer => answeredNormally answer
  | CtrlStart _ _ answer => answeredNormally answer
  | Mkdir _ answer => answeredNormally answer
  | GitPull _ answer => answeredNormally answer
  | GitClone _ _ _ _ answer => answeredNormally answer
  | ListForOrg _ answer => answeredNormally answer
  end.

Definition allCallsSucceeded (t : list Event) : bool :=
  forallb callSucceeded t.

End Trace.

(** ** Stub collaborators

    A small simulated world on which the functions above can be run: a
    file system given by lists, a clock, a remote that serves fixed pages,
    child processes that fail in chosen directories and a control-script
    runtime whose [addManager] throws for chosen managers. *)

Module Sim.

Record World : Type := {
  cwd : string;
  clock : Z;
  dirs : list string;
  regularFiles : list (string * string);
  trees : list (string * DirTree);
  (** the files a clone brings, by name *)
  remoteFiles : list (string * string);
  pages : list (list RawRepo)
}.

Definition mem (s : string) (l : list string) : bool :=
  existsb (String.eqb s) l.

Fixpoint lookup {A : Type} (k : string) (l : list (string * A)) : option A :=
  match l with
  | [] => None
  | (k', v) :: r => if k =? k' then Some v else lookup k r
  end.

Definition present (w : World) (p : string) : bool :=
  mem p (dirs w)
  || match lookup p (regularFiles w) with
     | Some _ => true
     | None => false
     end.

Definition readFile (w : World) (p : string) : Outcome string :=
  match lookup p (regularFiles w) with
  | Some content => Returned content
  | None =>
      Threw
        (Js.newError
           ("ENOENT: no such file or directory, open '" ++ p ++ "'"))
  end.

Definition readdirTree (w : World) (p : string) : DirTree :=
  match lookup p (trees w) with
  | Some t => t
  | None => Missing
  end.

Definition withFiles (w : World) (ds : list string)
  (fs : list (string * string)) : World :=
  {| cwd := cwd w; clock := clock w; dirs := (ds ++ dirs w)%list;
     regularFiles := (fs ++ regularFiles w)%list; trees := trees w;
     remoteFiles := remoteFiles w; pages := pages w |}.

Definition mkdir (d : string) (w : World) : Outcome unit * World :=
  (Returned tt, withFiles w [d] []).

Definition succeeded : ExecCallback :=
  {| cbErr := None; cbStdout := ""; cbStderr := "" |}.

Definition failed (cmd : string) : ExecCallback :=
  {| cbErr := Some {| exMessage := "Command failed: " ++ cmd;
                      exCode := Js.CodeNumber 1 |};
     cbStdout := "";
     cbStderr := "failed" |}.

(** The error [exec] throws for the empty command. *)
Definition refused : Js.Error :=
  Js.newError "The argument 'file' cannot be empty. Received ''".

Definition exec (failingDirs : list string) (cmd : string)
  (dir : option string) (w : World) : Outcome ExecCallback * World :=
  if cmd =? "" then (Threw refused, w)
  else
    match dir with
    | Some d =>
        if mem d failingDirs then (Returned (failed cmd), w)
        else (Returned succeeded, w)
    | None => (Returned succeeded, w)
    end.

Definition ctrl (throwing : list string) (fn : string) (args : list string)
  (w : World) : Outcome CtrlValue * World :=
  if fn =? "addManager" then
    if mem (hd "" args) throwing then
      (Threw (Js.newError ("addManager failed for " ++ hd "" args)), w)
    else (Returned (CtrlBool false), w)
  else if fn =? "listSubProjs" then (Returned (CtrlDynDynString []), w)
  else (Returned (CtrlInt 0), w).

Definition upToDate : PullResult :=
  {| summary := {| changes := 0; insertions := 0; deletions := 0 |};
     files := [] |}.

Definition pull (baseDir : string) (w : World) : Outcome PullResult * World :=
  if mem (NodePath.posixJoin [baseDir; ".git"]) (dirs w) then
    (Returned upToDate, w)
  else (Threw (Js.newError "fatal: not a git repository"), w).

Definition clone (baseDir url repo : string) (options : list string)
  (w : World) : Outcome unit * World :=
  let target := NodePath.posixJoin [baseDir; repo] in
  if present w target then
    (Threw
       (Js.newError
          ("fatal: destination path '" ++ repo
             ++ "' already exists and is not an empty directory.")), w)
  else
    (Returned tt,
     withFiles w [target; NodePath.posixJoin [target; ".git"]]
       (map (fun f => (NodePath.posixJoin [target; fst f], snd f))
          (remoteFiles w))).

Definition listPage (request : ListRequest) (w : World)
  : Outcome (list RawRepo) * World :=
  (Returned (nth (Z.to_nat (q_page request) - 1) (pages w) []), w).

(** A stub of [JSON]: it reads the three documents below and writes
    values without nesting. *)
Definition parse (s : string) : Outcome Js.Json :=
  if s =? "{}" then Returned (Js.JObj [])
  else if s =? "[]" then Returned (Js.JArr [])
  else if s =? "null" then Returned Js.JNull
  else Threw (Js.newError "Unexpected token in JSON").

Definition stringify (v : Js.Json) (indent : Z) : string :=
  match v with
  | Js.JNull => "null"
  | Js.JBool true => "true"
  | Js.JBool false => "false"
  | Js.JNum n => Js.numberToString n
  | Js.JStr s => AsciiManager.dquote ++ s ++ AsciiManager.dquote
  | Js.JArr _ => "[]"
  | Js.JObj _ => "{}"
  end.

(** The stub collaborators, for given stubs of [exec] and of the
    control-script runtime. *)
Definition envOf
  (execStub : string -> option string -> World
              -> Outcome ExecCallback * World)
  (ctrlStub : string -> list string -> World -> Outcome CtrlValue * World)
  : Collaborators World := {|
  process_cwd := cwd;
  date_now := clock;
  fs_existsSync := present;
  fs_isDirectory := fun w p => mem p (dirs w);
  fs_readFileSync := readFile;
  fs_readdirTree := readdirTree;
  fs_mkdirSync := mkdir;
  child_exec := execStub;
  ctrl_start := ctrlStub;
  git_pull := pull;
  git_clone := clone;
  octokit_listForOrg := listPage;
  JSON_parse := parse;
  JSON_stringify := stringify;
  Number_ofString := fun _ => None
|}.

Definition env (failingDirs throwing : list string) : Collaborators World :=
  envOf (exec failingDirs) (ctrl throwing).

(** The callback for a process that a signal ended. *)
Definition killed (cmd : string) : ExecCallback :=
  {| cbErr := Some {| exMessage := "Command failed: " ++ cmd;
                      exCode := Js.CodeNull |};
     cbStdout := "";
     cbStderr := "" |}.

(** A repository record with a name and nothing else. *)
Definition repoNamed (n : string) : RawRepo := {|
  r_name := Js.JStr n; r_full_name := Js.JNull; r_description := Js.JNull;
  r_language := Js.JNull; r_stargazers_count := Js.JNum 0;
  r_forks_count := Js.JNum 0; r_size := Js.JNum 0;
  r_default_branch := Js.JStr "main"; r_created_at := Js.JNull;
  r_updated_at := Js.JNull; r_pushed_at := Js.JNull; r_clone_url := Js.JNull;
  r_ssh_url := Js.JNull; r_homepage := Js.JNull; r_topics := Js.JArr [];
  r_private := Js.JBool false; r_archived := Js.JBool false;
  r_disabled := Js.JBool false; r_fork := Js.JBool false;
  r_has_issues := Js.JBool true; r_has_projects := Js.JBool true;
  r_has_wiki := Js.JBool true; r_has_pages := Js.JBool false;
  r_has_downloads := Js.JBool true; r_license_name := None
|}.

(** A project directory [/proj/addon] whose [javascript] folder holds two
    packages, [one] and [two]; [/existing/plainDir] is a plain directory
    and [/existing/repo] a git repository with a manifest. *)
Definition packageDir : DirTree :=
  Listing [({| name := "package.json"; kind := IsFile |}, Missing);
           ({| name := "node_modules"; kind := IsDirectory |}, Listing [])].

Definition projectTree : DirTree :=
  Listing [({| name := "one"; kind := IsDirectory |}, packageDir);
           ({| name := "readme.md"; kind := IsFile |}, Missing);
           ({| name := "two"; kind := IsDirectory |}, packageDir)].

Definition world0 : World := {|
  cwd := "/home/operator";
  clock := 1700000000000;
  dirs := ["/existing"; "/existing/plainDir"; "/existing/repo";
           "/existing/repo/.git"; "/home/operator"; "/proj/addon";
           "/opt/projects"];
  regularFiles := [("/existing/repo/package.winccoa.json", "{}")];
  trees := [("/proj/addon/javascript", projectTree)];
  remoteFiles := [("package.winccoa.json", "{ not json")];
  pages := [[repoNamed "a"; repoNamed "b"]; [repoNamed "c"; repoNamed "d"];
            [repoNamed "e"]; [repoNamed "never"; repoNamed "asked"]]
|}.

Definition manager (n : string) : AddonConfig.ManagerConfig :=
  {| AddonConfig.Name := n; AddonConfig.startMode := AddonConfig.Always;
     AddonConfig.Options := "" |}.


End Sim.

(** ** Vocabulary of the statements *)

Module Spec.

(** The last path segment of a URL: what follows its last slash, when it
    has a slash. *)
Fixpoint lastSegment (url : string) : option string :=
  match url with
  | EmptyString => None
  | String c rest =>
      match lastSegment rest with
      | Some seg => Some seg
      | None => if NodePath.isSlash c then Some rest else None
      end
  end.

(** A segment with a trailing [.git] removed. *)
Fixpoint stripDotGit (seg : string) : string :=
  if seg =? ".git" then EmptyString
  else match seg with
       | EmptyString => EmptyString
       | String c rest => String c (stripDotGit rest)
       end.

(** No slash occurs in the string. *)
Fixpoint slashFree (s : string) : bool :=
  match s with
  | EmptyString => true
  | String c rest => negb (NodePath.isSlash c) && slashFree rest
  end.

(** What the probe for the manifest finds below [repositoryPath] in the
    world [w]: the re-serialized document when the file is there, can be
    read and parses; nothing otherwise. *)
Definition manifestContent {W : Type} (nodePath : NodePath.Api)
  (env : Collaborators W) (repositoryPath : string) (w : W) : option string :=
  let manifest :=
    NodePath.join nodePath [repositoryPath; "package.winccoa.json"] in
  if fs_existsSync env w manifest then
    match fs_readFileSync env w manifest with
    | Returned text =>
        match JSON_parse env text with
        | Returned document => Some (JSON_stringify env document 2)
        | Threw _ => None
        end
    | Threw _ => None
    end
  else None.

(** The operations of a fresh clone, in order: the parent directory is
    made when it is missing, the repository is cloned into it under its
    name, and the clone is pulled. *)
Definition freshCloneOperations {W : Type} (nodePath : NodePath.Api)
  (env : Collaborators W) (url : string) (branch : option string) (w : W)
  (target : AddOnHandler.ResolvedTarget) : list Trace.Operation :=
  let parentDir := NodePath.dirname nodePath (AddOnHandler.fullPath target) in
  ((if fs_existsSync env w parentDir then [] else [Trace.OpMkdir parentDir])
   ++ [Trace.OpClone parentDir url (AddOnHandler.repoName target)
         (AddOnHandler.cloneOptionsFor branch);
       Trace.OpPull (AddOnHandler.fullPath target)])%list.

(** The summaries of the pages that were answered, in the order of the
    requests. *)
Definition pagesOf (requests : list (ListRequest * Outcome (list RawRepo)))
  : list AddOnHandler.RepoSummary :=
  flat_map (fun request =>
              match snd request with
              | Returned data => map AddOnHandler.summarize data
              | Threw _ => []
              end) requests.










(** The three tiers named by the comment of the class [AsciiManager]. *)
Inductive ExitClassification : Type := Success | Warning | Error.

(** The tier of a number ([None] for [NaN]) for two arrays of codes, in
    the words of the specification: success for a code of the first
    array, warning for a code of the second that is not in the first,
    error for everything else. *)
Definition classify (code : option Z) (successCodes warningCodes : list Z)
  : ExitClassification :=
  if Js.includesNumber successCodes code then Success
  else if Js.includesNumber warningCodes code then Warning
  else Error.

(** A run from [w] that only printed: no control-script call, no
    command, the world as it was. *)
Definition quiet {W A : Type} (w : W) (run : Outcome A * W * list Event)
  : Prop :=
  Trace.ctrlCalls (Eff.events run) = []
  /\ Trace.execCalls (Eff.events run) = []
  /\ Eff.finalWorld run = w.

End Spec.

(** ** Proof automation for runs *)

(** Runs a computation of the effect monad as far as its shape allows,
    leaving strings and collaborators alone. *)
Ltac eff_run :=
  cbv beta iota zeta
    delta [Eff.bind Eff.ret Eff.throw Eff.tryCatch Eff.observe Eff.emit
           Eff.console Eff.call Eff.outcome Eff.finalWorld Eff.events
           fst snd negb].

Ltac eff_run_in H :=
  cbv beta iota zeta
    delta [Eff.bind Eff.ret Eff.throw Eff.tryCatch Eff.observe Eff.emit
           Eff.console Eff.call Eff.outcome Eff.finalWorld Eff.events
           fst snd negb] in H.

(** Reads the projections of a trace built from appended pieces. *)
Ltac trace_simpl :=
  cbn [app Trace.operations Trace.consoleLines Trace.allCallsSucceeded
       Trace.callSucceeded Trace.answeredNormally Trace.ctrlCalls
       Trace.execCalls Trace.pageRequests forallb andb].

(** One step of a run of [cloneRepository]: the next collaborator
    answers.  [probe] describes the run of the manifest probe and
    [failure] the run of the [catch] block. *)
Ltac clone_step probe failure :=
  match goal with
  | |- context [fs_mkdirSync ?e ?d ?w] =>
      destruct (fs_mkdirSync e d w) as [[[] | ?] ?]
  | |- context [git_clone ?e ?a ?b ?c ?d ?w] =>
      destruct (git_clone e a b c d w) as [[[] | ?] ?]
  | |- context [git_pull ?e ?d ?w] =>
      destruct (git_pull e d w) as [[? | ?] ?]
  | |- context [AddOnHandler.readWinCCOAPackageJson ?p ?e ?d ?w] =>
      let t := fresh "t" in
      let Hrun := fresh "Hrun" in
      let Hops := fresh "Hops" in
      let Hok := fresh "Hok" in
      destruct (probe d w) as [t [Hrun [Hops Hok]]];
      rewrite Hrun, ?app_nil_r;
      cbn [app Trace.operations Trace.consoleLines Trace.allCallsSucceeded
           Trace.callSucceeded Trace.answeredNormally forallb andb];
      rewrite ?Hops; try fold (Trace.allCallsSucceeded t); rewrite ?Hok
  | |- context [AddOnHandler.cloneFailure ?e ?u ?h ?err ?w] =>
      let e' := fresh "e'" in
      let He' := fresh "He'" in
      destruct (failure u h err w) as [e' He']; rewrite He'
  end; eff_run.

(** ** Further collaborators

    What the remaining functions need beyond [Collaborators]: the
    platform of the process, control scripts created from a source text,
    the access probe of [fs.promises] and the clock read as text. *)

Record Runtime (W : Type) : Type := {
  (** [process.platform] *)
  process_platform : string;
  (** [new WinccoaCtrlScript(winccoa, code).start("main", args, types)]
      for a script whose [main] is declared to return a string; the
      arguments are given as text *)
  script_main : string -> list string -> W -> Outcome string * W;
  (** [fs.promises.access(p)] *)
  fs_access : W -> string -> Outcome unit;
  (** [new Date().toISOString()] *)
  date_toISOString : W -> string
}.

Arguments process_platform {W} _.
Arguments script_main {W} _ _ _ _.
Arguments fs_access {W} _ _ _.
Arguments date_toISOString {W} _ _.

(** ** More JavaScript built-ins *)

Module JsText.

(** [s.endsWith(suffix)] *)
Fixpoint endsWith (s suffix : string) : bool :=
  (s =? suffix)
  || match s with
     | EmptyString => false
     | String _ rest => endsWith rest suffix
     end.

Definition backslash : ascii := ascii_of_nat 92.

(** [s.replace(/\\/g, "/")] *)
Fixpoint replaceBackslashes (s : string) : string :=
  match s with
  | EmptyString => EmptyString
  | String c rest =>
      String (if Ascii.eqb c backslash then NodePath.slash else c)
        (replaceBackslashes rest)
  end.

(** [n || d] on numbers. *)
Definition numberOr (n d : Z) : Z := if (n =? 0)%Z then d else n.

(** [arr.pop() ?? ""] on an array of strings. *)
Definition popOrEmpty (arr : list string) : string := last arr "".

End JsText.

(** ** File.ts *)

Module File.

Section WithCollaborators.
Context {W : Type} (rt : Runtime W).

(** [exists(filePath)] *)
Definition exists_ (filePath : string) : Eff.M W bool :=
  Eff.tryCatch
    (AddOnHandler.reading (fun w => fs_access rt w filePath) ;;
     Eff.ret true)
    (fun _ => Eff.ret false).

End WithCollaborators.
End File.

(** ** PathResolver.ts: the paths of components and files *)

Module ComponentPaths.

(** [ComponentId] *)
Definition ASCII_COMPONENT : Z := 6.

Definition GETCMLICINFO_COMPONENT : Z := 2019.

(** The manager instance. *)
Definition Manager : Type := PathResolver.WinccoaManager.

(** The two control scripts, white space aside. *)
Definition componentPathScript : string :=
  "string main(int componentId) { return WINCCOA_BIN_PATH + getComponentName(componentId); }".

Definition filePathScript : string :=
  "string main(string fileName) { return getPath(DPLIST_REL_PATH, fileName); }".

Section WithCollaborators.
Context {W : Type} (path : NodePath.Api) (rt : Runtime W).

(** [script.start("main", args, types)], recorded with its answer. *)
Definition scriptStart (code : string) (args : list string) : Eff.M W string :=
  fun w =>
    let '(r, w1) := script_main rt code args w in
    (r, w1,
     [CtrlStart "main" args
        match r with
        | Returned s => Returned (CtrlString s)
        | Threw e => Threw e
        end]).

Definition getComponentPath (winccoa : option Manager) (componentId : Z)
  : Eff.M W string :=
  match winccoa with
  | None =>
      Eff.console ErrorLevel
        "[PathResolver.getComponentPath] Invalid WinCC OA manager instance provided." ;;
      Eff.ret ""
  | Some _ =>
      Eff.tryCatch
        (pathResult <- scriptStart componentPathScript
                         [Js.numberToString componentId] ;;
         let normalizedPath := NodePath.normalize path pathResult in
         if negb (Js.truthy normalizedPath) then Eff.ret ""
         else if (process_platform rt =? "win32")
                 && negb (JsText.endsWith normalizedPath ".exe") then
           Eff.ret (normalizedPath ++ ".exe")
         else Eff.ret normalizedPath)
        (fun err =>
           Eff.console ErrorLevel
             ("[PathResolver.getComponentPath] Failed to resolve component path for componentId="
                ++ Js.numberToString componentId ++ ": " ++ Js.message err) ;;
           Eff.ret "")
  end.

Definition getFilePath (winccoa : option Manager) (fileName : string)
  (useDbdFiles : bool) : Eff.M W string :=
  match winccoa with
  | None =>
      Eff.console ErrorLevel
        "[PathResolver.getFilePath] Invalid WinCC OA manager instance provided." ;;
      Eff.ret ""
  | Some manager =>
      if negb (Js.truthy (Js.trim fileName)) then
        Eff.console ErrorLevel
          "[PathResolver.getFilePath] Invalid or empty fileName provided." ;;
        Eff.ret ""
      else
        Eff.tryCatch
          (pathResult <-
             (if useDbdFiles then
                oaPaths <- PathResolver.fromOutcome
                             (PathResolver.getPaths manager) ;;
                installation <-
                  match oaPaths with
                  | PathResolver.PathsArray items =>
                      Eff.ret (nth_error items (length items - 1))
                  | PathResolver.NotAnArray lastEntry =>
                      PathResolver.fromOutcome lastEntry
                  end ;;
                release <- PathResolver.fromOutcome
                             (PathResolver.version manager) ;;
                match installation with
                | Some (PathResolver.EntryString dir) =>
                    Eff.ret (NodePath.join path
                               [dir; "dbdfiles"; "version_" ++ release;
                                fileName])
                | Some (PathResolver.EntryOther received) =>
                    Eff.throw (PathResolver.typeError received)
                | None => Eff.throw (PathResolver.typeError "undefined")
                end
              else scriptStart filePathScript [fileName]) ;;
           Eff.ret (NodePath.normalize path pathResult))
          (fun err =>
             Eff.console ErrorLevel
               ("[PathResolver.getFilePath] Failed to resolve file path for fileName="
                  ++ AsciiManager.dquote ++ fileName ++ AsciiManager.dquote
                  ++ ": " ++ Js.message err) ;;
             Eff.ret "")
  end.

End WithCollaborators.
End ComponentPaths.

(** ** AsciiManager.ts: the preparation of the import command *)

Module AsciiImport.
Import ComponentPaths.

(** The text [getProjectName] cuts out of the project path. *)
Definition projectNameOf (projectPath : string) : string :=
  JsText.popOrEmpty
    (filter Js.truthy
       (NodePath.segments (JsText.replaceBackslashes (Js.trim projectPath)))).

Definition quoted (s : string) : string :=
  AsciiManager.dquote ++ s ++ AsciiManager.dquote.

(** The array [args] of [prepareImportCommand]. *)
Definition importArgs (asciiManagerPath importFilePath runningProjectName : string)
  (confirm noVerbose : bool) : list string :=
  let confirmationFlag := if confirm then "-yes" else "-no" in
  let verboseFlag := if noVerbose then "-noVerbose" else "" in
  [quoted asciiManagerPath; "-in"; quoted importFilePath; verboseFlag;
   "-PROJ"; quoted runningProjectName; confirmationFlag].

Section WithCollaborators.
Context {W : Type} (path : NodePath.Api) (env : Collaborators W)
  (rt : Runtime W).

Definition getProjectName (winccoa : option Manager) : Eff.M W string :=
  Eff.tryCatch
    (projectPath <- PathResolver.getProjectPath path winccoa ;;
     Eff.ret (projectNameOf projectPath))
    (fun err =>
       Eff.console ErrorLevel
         ("[AsciiManager.getProjectName] Failed to extract project name: "
            ++ Js.message err) ;;
       Eff.ret "").

(** [prepareImportCommand(winccoa, fileName, confirm, useDbdFiles,
    noVerbose)].  The source starts the three computations of
    [Promise.all] one after the other and lets the two scripts run side
    by side; here each runs to its end before the next starts, so that
    the events of a run come in an order and from worlds that are one of
    those the source allows only when the scripts do not depend on each
    other.  What each computation returns for the answers it gets, and
    which calls are made, is the same. *)
Definition prepareImportCommand (winccoa : option Manager) (fileName : string)
  (confirm useDbdFiles noVerbose : bool) : Eff.M W string :=
  Eff.tryCatch
    (match winccoa with
     | None =>
         Eff.console ErrorLevel
           "[AsciiManager.prepareImportCommand] Invalid WinCC OA manager instance." ;;
         Eff.ret ""
     | Some _ =>
         if negb (Js.truthy (Js.trim fileName)) then
           Eff.console ErrorLevel
             "[AsciiManager.prepareImportCommand] Invalid or empty fileName provided." ;;
           Eff.ret ""
         else
           componentPath <- getComponentPath path rt winccoa ASCII_COMPONENT ;;
           filePath <- getFilePath path rt winccoa fileName useDbdFiles ;;
           projectName <- getProjectName winccoa ;;
           let asciiManagerPath := Js.trim componentPath in
           let importFilePath := Js.trim filePath in
           let runningProjectName := Js.trim projectName in
           if negb (Js.truthy asciiManagerPath)
              || negb (Js.truthy importFilePath)
              || negb (Js.truthy runningProjectName) then
             Eff.console ErrorLevel
               ("[AsciiManager.prepareImportCommand] Invalid paths: asciiManagerPath="
                  ++ quoted asciiManagerPath ++ ", importFilePath="
                  ++ quoted importFilePath ++ ", runningProjectName="
                  ++ quoted runningProjectName ++ ".") ;;
             Eff.ret ""
           else
             present <- File.exists_ rt importFilePath ;;
             if negb present then
               Eff.console ErrorLevel
                 ("[AsciiManager.prepareImportCommand] Import file does not exist: "
                    ++ quoted importFilePath ++ ".") ;;
               Eff.ret ""
             else
               Eff.ret
                 (Js.join " "
                    (filter Js.truthy
                       (importArgs asciiManagerPath importFilePath
                          runningProjectName confirm noVerbose)))
     end)
    (fun err =>
       Eff.console ErrorLevel
         ("[AsciiManager.prepareImportCommand] Exception while preparing import command: "
            ++ Js.message err) ;;
       Eff.ret "").

(** [import] with the preparation it has in the source. *)
Definition import (winccoa : option Manager) (fileName : string)
  (confirm useDbdFiles logWarnings noVerbose : bool) : Eff.M W bool :=
  AsciiManager.import env
    (prepareImportCommand winccoa fileName confirm useDbdFiles noVerbose)
    fileName logWarnings.

End WithCollaborators.
End AsciiImport.

(** ** AddOnHandler.ts: pulling, and importing ASCII files *)

(** What [pullRepository] resolves to. *)
Module Pulled.

Record Report : Type := {
  success : bool;
  message : string;
  directory : string;
  changes : Z;
  insertions : Z;
  deletions : Z;
  files : list string;
  updatedAt : string
}.

End Pulled.

Module Repository.

Section WithCollaborators.
Context {W : Type} (nodePath : NodePath.Api) (env : Collaborators W)
  (rt : Runtime W).

(** The [catch] block of [pullRepository]. *)
Definition pullFailure (repositoryDirectory : string) (error : Js.Error)
  : Eff.M W Pulled.Report :=
  let msg := Js.message error in
  Eff.console ErrorLevel
    ("Failed to pull repository at " ++ repositoryDirectory ++ ": " ++ msg) ;;
  if Js.includes msg "not a git repository" then
    Eff.throw
      (Js.newError
         ("Directory is not a git repository: " ++ repositoryDirectory))
  else if Js.includes msg "does not exist" then
    Eff.throw
      (Js.newError
         ("Repository directory does not exist: " ++ repositoryDirectory))
  else if Js.includes msg "Permission denied"
          || Js.includes msg "authentication" then
    Eff.throw
      (Js.newError
         ("Authentication failed for repository at: " ++ repositoryDirectory))
  else if Js.includes msg "merge conflict" then
    Eff.throw
      (Js.newError
         ("Merge conflicts detected in repository at: " ++ repositoryDirectory
            ++ ". Please resolve conflicts manually."))
  else Eff.throw (Js.newError ("Failed to pull repository: " ++ msg)).

Definition pullRepository (repositoryDirectory : string)
  : Eff.M W Pulled.Report :=
  Eff.tryCatch
    (present <- Eff.observe
                  (fun w => fs_existsSync env w repositoryDirectory) ;;
     if negb present then
       Eff.throw
         (Js.newError
            ("Repository directory does not exist: " ++ repositoryDirectory))
     else
       let gitDir := NodePath.join nodePath [repositoryDirectory; ".git"] in
       isRepository <- Eff.observe (fun w => fs_existsSync env w gitDir) ;;
       if negb isRepository then
         Eff.throw
           (Js.newError
              ("Directory is not a git repository: " ++ repositoryDirectory))
       else
         Eff.console LogLevel
           ("Pulling latest changes from repository: " ++ repositoryDirectory
              ++ " to {}") ;;
         pullResult <- AddOnHandler.gitPull env repositoryDirectory ;;
         AddOnHandler.logPull pullResult ;;
         now <- Eff.observe (date_toISOString rt) ;;
         Eff.ret
           {| Pulled.success := true;
              Pulled.message := "Repository updated successfully";
              Pulled.directory := repositoryDirectory;
              Pulled.changes :=
                JsText.numberOr (changes (summary pullResult)) 0;
              Pulled.insertions :=
                JsText.numberOr (insertions (summary pullResult)) 0;
              Pulled.deletions :=
                JsText.numberOr (deletions (summary pullResult)) 0;
              Pulled.files := files pullResult;
              Pulled.updatedAt := now |})
    (pullFailure repositoryDirectory).

(** [importAsciiFiles(fileList)], on the array it makes of its argument;
    [winccoa] is the manager instance of the module. *)
Definition importAsciiFiles (winccoa : ComponentPaths.Manager)
  (files : list string) : Eff.M W unit :=
  Eff.forEach files
    (fun file =>
       Eff.tryCatch
         (imported <- AsciiImport.import nodePath env rt (Some winccoa) file
                        false false false false ;;
          if negb imported then
            Eff.console ErrorLevel
              ("[importAsciiFiles] Failed to import: " ++ file)
          else Eff.ret tt)
         (fun error =>
            Eff.console ErrorLevel
              ("[importAsciiFiles] Exception while importing " ++ file ++ ": "
                 ++ Js.message error))).

End WithCollaborators.
End Repository.

(** ** Service.ts *)

Module MarketplaceService.

(** [Vrpc.Variant], as far as the service builds values of it. *)
Inductive Variant : Type :=
| VBool (b : bool)
| VInt (n : Z)
| VString (s : string)
| VMapping (entries : list (string * Variant)).

(** [mapping.get(key)] on a mapping whose values are strings. *)
Fixpoint get (key : string) (mapping : list (string * string))
  : option string :=
  match mapping with
  | [] => None
  | (k, v) :: rest => if k =? key then Some v else get key rest
  end.

(** The configuration [registerSubProjects] registers every path with. *)
Definition config : AddonConfig.AddonConfig :=
  {| AddonConfig.RepoName := "";
     AddonConfig.Keywords := [];
     AddonConfig.Subproject := "";
     AddonConfig.Version := "1.0.0";
     AddonConfig.Description := "";
     AddonConfig.OaVersion := "";
     AddonConfig.Managers := Some [];
     AddonConfig.Dplists := Some [];
     AddonConfig.UpdateScripts := Some [] |}.

(** The options [listRemoteRepositories] passes. *)
Definition remoteOptions : AddOnHandler.ListOptions :=
  {| AddOnHandler.type := Some "public";
     AddOnHandler.sort := Some "updated";
     AddOnHandler.direction := Some "desc";
     AddOnHandler.perPage := None;
     AddOnHandler.maxPages := None |}.

Definition missingUrl : Js.Error :=
  Js.newError
    ("Missing required " ++ AsciiImport.quoted "url" ++ " parameter in mapping").

Section WithCollaborators.
Context {W : Type} (nodePath : NodePath.Api) (env : Collaborators W)
  (rt : Runtime W) (_defaultDirectory : string).
(** How [console.log] shows a value, and [JSON.stringify] on the list of
    repositories. *)
Variable inspect : CtrlValue -> string.
Variable stringifyRepos : list AddOnHandler.RepoSummary -> string.

(** The body of the loop of [registerSubProjects]. *)
Definition registerOne (path : string) : Eff.M W unit :=
  Eff.console LogLevel ("Registering sub-project at path: " ++ path) ;;
  result <- AddOnHandler.registerSubProject nodePath env path config ;;
  Eff.console LogLevel
    ("Sub-project " ++ path ++ " registered with result code: "
       ++ inspect result).

(** [registerSubProjects], on the array of paths of the request. *)
Definition registerSubProjects (paths : list string) : Eff.M W Variant :=
  Eff.forEach paths registerOne ;;
  Eff.ret (VBool true).

(** The body of the loop of [unregisterSubProjects]. *)
Definition unregisterOne (path : string) : Eff.M W unit :=
  Eff.console LogLevel ("Unregistering sub-project at path: " ++ path) ;;
  result <- AddOnHandler.unregisterSubProject env path ;;
  Eff.console LogLevel
    ("Sub-project " ++ path ++ " unregistered with result code: "
       ++ inspect result).

Definition unregisterSubProjects (paths : list string) : Eff.M W Variant :=
  Eff.forEach paths unregisterOne ;;
  Eff.ret (VBool true).

(** [listRemoteRepositories]; the request is [Some name] when it is a
    string.  The result is absent only where that of
    [listOrganizationRepositories] is. *)
Definition listRemoteRepositories (request : option string)
  : Eff.M W (option Variant) :=
  let organizationName :=
    match request with
    | Some name => name
    | None => "winccoa"
    end in
  orgRepos <- AddOnHandler.listOrganizationRepositories env organizationName
                remoteOptions ;;
  Eff.ret (option_map (fun repos => VString (stringifyRepos repos)) orgRepos).

(** [pullRepository], on the string of the request. *)
Definition pullRepository (directory : string) : Eff.M W Variant :=
  result <- Repository.pullRepository nodePath env rt directory ;;
  Eff.ret (VInt (Pulled.changes result)).

(** [cloneRepository], on the mapping of the request. *)
Definition cloneRepository (requestMapping : list (string * string))
  : Eff.M W Variant :=
  match get "url" requestMapping with
  | None => Eff.throw missingUrl
  | Some repositoryURL =>
      let branch := get "branch" requestMapping in
      let targetDir := get "targetDirectory" requestMapping in
      result <- AddOnHandler.cloneRepository nodePath env _defaultDirectory
                  repositoryURL targetDir branch ;;
      Eff.ret
        (VMapping
           [("repositoryPath", VString (AddOnHandler.path result));
            ("fileContent",
             VString
               match AddOnHandler.fileContent result with
               | Some content => if Js.truthy content then content else ""
               | None => ""
               end)])
  end.

End WithCollaborators.
End MarketplaceService.

(** ** Vocabulary of the further statements *)

Module Reach.

(** [found] is a directory of the tree below [dir] that holds a
    [package.json] file and is reached from [dir] through directories
    other than [node_modules]. *)
Inductive PackageAt (path : NodePath.Api)
  : string -> DirTree -> string -> Prop :=
| package_here (dir : string) (entries : list (Dirent * DirTree)) :
    existsb NodeInstaller.isPackageJson entries = true ->
    PackageAt path dir (Listing entries) dir
| package_below (dir : string) (entries : list (Dirent * DirTree))
    (entry : Dirent * DirTree) (found : string) :
    In entry entries ->
    NodeInstaller.isWalkedDirectory (fst entry) = true ->
    PackageAt path (NodePath.join path [dir; name (fst entry)]) (snd entry)
      found ->
    PackageAt path dir (Listing entries) found.

(** A directory that cannot be read, with the error of reading it, is
    reached the same way. *)
Inductive UnreadableAt : DirTree -> Js.Error -> Prop :=
| unreadable_here (e : Js.Error) : UnreadableAt (Unreadable e) e
| unreadable_below (entries : list (Dirent * DirTree))
    (entry : Dirent * DirTree) (e : Js.Error) :
    In entry entries ->
    NodeInstaller.isWalkedDirectory (fst entry) = true ->
    UnreadableAt (snd entry) e ->
    UnreadableAt (Listing entries) e.

(** What a run of the walk of [tree], started at [dir] in the world [w]
    with [found] already collected, says about the tree. *)
Definition walkOutcome {W : Type} (path : NodePath.Api) (dir : string)
  (tree : DirTree) (found : list string) (w : W)
  (run : Outcome (list string) * W * list Event) : Prop :=
  match run with
  | (Returned result, w1, _) =>
      w1 = w
      /\ (exists extra,
             result = (found ++ extra)%list
             /\ forall d, In d extra <-> PackageAt path dir tree d)
      /\ forall e, ~ UnreadableAt tree e
  | (Threw e, _, _) => UnreadableAt tree e
  end.

(** The same for the loop over the entries of [dir]. *)
Definition entriesOutcome {W : Type} (path : NodePath.Api) (dir : string)
  (entries : list (Dirent * DirTree)) (acc : list string) (w : W)
  (run : Outcome (list string) * W * list Event) : Prop :=
  let below (entry : Dirent * DirTree) (P : DirTree -> Prop) : Prop :=
    In entry entries
    /\ NodeInstaller.isWalkedDirectory (fst entry) = true
    /\ P (snd entry) in
  match run with
  | (Returned result, w1, _) =>
      w1 = w
      /\ (exists extra,
             result = (acc ++ extra)%list
             /\ forall d,
                 In d extra
                 <-> exists entry,
                       below entry
                         (fun sub =>
                            PackageAt path
                              (NodePath.join path [dir; name (fst entry)])
                              sub d))
      /\ forall entry e, ~ below entry (fun sub => UnreadableAt sub e)
  | (Threw e, _, _) =>
      exists entry, below entry (fun sub => UnreadableAt sub e)
  end.

(** Neither a slash nor a backslash. *)
Definition plain (c : ascii) : bool :=
  negb (NodePath.isSlash c) && negb (Ascii.eqb c JsText.backslash).

(** No slash and no backslash occurs in the string. *)
Fixpoint separatorFree (s : string) : bool :=
  match s with
  | EmptyString => true
  | String c rest => plain c && separatorFree rest
  end.

(** Slashes and backslashes only. *)
Definition separatorsOnly (s : string) : bool :=
  forallb (fun c => negb (plain c)) (list_ascii_of_string s).

(** Empty, or with a slash or a backslash as its last character. *)
Definition endsAtSeparator (s : string) : bool :=
  match rev (list_ascii_of_string s) with
  | [] => true
  | c :: _ => negb (plain c)
  end.

(** The messages [cloneRepository] rejects with. *)
Definition cloneErrorMessage (cloneUrl : string) (msg : string) : Prop :=
  msg = "Repository not found at URL: " ++ cloneUrl
          ++ ". Please check the URL and your access permissions."
  \/ (exists shown, msg = "Directory '" ++ shown ++ "' already exists")
  \/ msg = "Authentication failed. Please check your credentials for URL: "
             ++ cloneUrl
  \/ (exists cause, msg = "Failed to clone repository from URL: " ++ cause).

(** The messages [pullRepository] rejects with, for the message of what
    went wrong. *)
Definition pullErrorMessage (dir cause msg : string) : Prop :=
  msg = "Directory is not a git repository: " ++ dir
  \/ msg = "Repository directory does not exist: " ++ dir
  \/ msg = "Authentication failed for repository at: " ++ dir
  \/ msg = "Merge conflicts detected in repository at: " ++ dir
             ++ ". Please resolve conflicts manually."
  \/ msg = "Failed to pull repository: " ++ cause.

(** The message [listOrganizationRepositories] rejects with when a page
    request failed with [error]. *)
Definition listErrorMessage (org : string) (error : Js.Error) : string :=
  if AddOnHandler.statusIs error 404 then
    "Organization '" ++ org ++ "' not found or is not accessible"
  else if AddOnHandler.statusIs error 403 then
    "Access denied to organization '" ++ org
      ++ "'. You may need authentication or proper permissions."
  else "Failed to list organization repositories: " ++ Js.message error.

(** The command line of an import, for paths and a project name that are
    not empty. *)
Definition importCommand (asciiManagerPath importFilePath projectName : string)
  (confirm noVerbose : bool) : string :=
  AsciiImport.quoted asciiManagerPath ++ " -in "
    ++ AsciiImport.quoted importFilePath
    ++ (if noVerbose then " -noVerbose" else "")
    ++ " -PROJ " ++ AsciiImport.quoted projectName
    ++ (if confirm then " -yes" else " -no").

End Reach.

(** ** Further stubs *)

Module Bench.

(** A runtime on the simulated world: scripts answer from a table keyed
    by their argument, files are accessible when they are present. *)
Definition runtime (platform : string) (answers : list (string * string))
  : Runtime Sim.World := {|
  process_platform := platform;
  script_main := fun _ args w =>
    match Sim.lookup (hd "" args) answers with
    | Some answer => (Returned answer, w)
    | None => (Threw (Js.newError "script failed"), w)
    end;
  fs_access := fun w p =>
    if Sim.present w p then Returned tt
    else Threw (Js.newError ("ENOENT: no such file or directory, access '"
                               ++ p ++ "'"));
  date_toISOString := fun _ => "2023-11-14T22:13:20.000Z"
|}.

(** The stub collaborators with another remote. *)
Definition withRemote
  (remote : ListRequest -> Sim.World -> Outcome (list RawRepo) * Sim.World)
  : Collaborators Sim.World := {|
  process_cwd := Sim.cwd;
  date_now := Sim.clock;
  fs_existsSync := Sim.present;
  fs_isDirectory := fun w p => Sim.mem p (Sim.dirs w);
  fs_readFileSync := Sim.readFile;
  fs_readdirTree := Sim.readdirTree;
  fs_mkdirSync := Sim.mkdir;
  child_exec := Sim.exec [];
  ctrl_start := Sim.ctrl [];
  git_pull := Sim.pull;
  git_clone := Sim.clone;
  octokit_listForOrg := remote;
  JSON_parse := Sim.parse;
  JSON_stringify := Sim.stringify;
  Number_ofString := fun _ => None
|}.

Definition httpError (code : Z) : Js.Error :=
  {| Js.message := "request failed"; Js.status := Some code |}.

(** A remote whose second page is refused. *)
Definition forbiddenAfterOnePage (request : ListRequest) (w : Sim.World)
  : Outcome (list RawRepo) * Sim.World :=
  if (q_page request =? 1)%Z then Sim.listPage request w
  else (Threw (httpError 403), w).

(** A callback of [exec] with the exit code of a warning. *)
Definition warned : ExecCallback :=
  {| cbErr := Some {| exMessage := "Command failed";
                      exCode := Js.CodeNumber 55 |};
     cbStdout := "";
     cbStderr := "" |}.

Definition manager : ComponentPaths.Manager :=
  {| PathResolver.getPaths :=
       Returned
         (PathResolver.PathsArray
            [PathResolver.EntryString "/proj/addon";
             PathResolver.EntryString "/opt/winccoa"]);
     PathResolver.version := Returned "3.21" |}.

(** What the two scripts of [PathResolver] answer: the ASCII manager for
    the component 6, and the place of the list [list.dpl]. *)
Definition answers : list (string * string) :=
  [("6", "/opt/winccoa/bin/WCCOAascii");
   ("list.dpl", "/proj/addon/dplist/list.dpl")].

(** The simulated world with that list in place. *)
Definition world : Sim.World :=
  Sim.withFiles Sim.world0 [] [("/proj/addon/dplist/list.dpl", "")].

(** A project whose [javascript] directory holds two directories that
    cannot be read: [node_modules] and [src]. *)
Definition denied (dir : string) : Js.Error :=
  Js.newError ("EACCES: permission denied, scandir '" ++ dir ++ "'").

Definition lockedTree : DirTree :=
  Listing
    [({| name := "node_modules"; kind := IsDirectory |},
      Unreadable (denied "/locked/javascript/node_modules"));
     ({| name := "package.json"; kind := IsFile |}, Missing);
     ({| name := "src"; kind := IsDirectory |},
      Unreadable (denied "/locked/javascript/src"))].

Definition lockedWorld : Sim.World :=
  {| Sim.cwd := Sim.cwd Sim.world0;
     Sim.clock := Sim.clock Sim.world0;
     Sim.dirs := Sim.dirs Sim.world0;
     Sim.regularFiles := Sim.regularFiles Sim.world0;
     Sim.trees := [("/locked/javascript", lockedTree)];
     Sim.remoteFiles := Sim.remoteFiles Sim.world0;
     Sim.pages := Sim.pages Sim.world0 |}.

(** The world of the scenario, seen from inside the git repository
    [/existing/repo]. *)
Definition inRepository : Sim.World :=
  {| Sim.cwd := "/existing/repo";
     Sim.clock := Sim.clock Sim.world0;
     Sim.dirs := Sim.dirs Sim.world0;
     Sim.regularFiles := Sim.regularFiles Sim.world0;
     Sim.trees := Sim.trees Sim.world0;
     Sim.remoteFiles := Sim.remoteFiles Sim.world0;
     Sim.pages := Sim.pages Sim.world0 |}.

(** The no-break space U+00A0, in UTF-8. *)
Definition noBreakSpace : string :=
  String (ascii_of_nat 194) (String (ascii_of_nat 160) EmptyString).

End Bench.

(** * Properties *)

(** ** Exit-code classification *)

Section ExitClassifier.
Import AsciiManager.
Context {W : Type} (env : Collaborators W).

Lemma arrayIncludes_In (arr : list Z) (x : Z) :
  Js.arrayIncludes arr x = true <-> In x arr.
Proof.
  unfold Js.arrayIncludes. rewrite existsb_exists. split.
  - intros [y [Hin Heq]]. apply Z.eqb_eq in Heq. now subst.
  - intros Hin. exists x. split; [assumption | apply Z.eqb_refl].
Qed.

Lemma arrayIncludes_not_In (arr : list Z) (x : Z) :
  Js.arrayIncludes arr x = false <-> ~ In x arr.
Proof.
  rewrite <- arrayIncludes_In. destruct (Js.arrayIncludes arr x); split;
    intros H; try reflexivity; try discriminate; try congruence.
Qed.

(** The run of [import] once the command line is there and [exec] has
    called back, by the two tests of the source. *)
Lemma import_after_exec (prepare : Eff.M W string) (fileName : string)
  (logWarnings : bool) (w w1 w2 : W) (t1 : list Event) (cmd : string)
  (cb : ExecCallback) :
  prepare w = (Returned cmd, w1, t1) ->
  Js.truthy (Js.trim cmd) = true ->
  child_exec env cmd None w1 = (Returned cb, w2) ->
  let result := CommandExecutor.resultOf cmd None cb in
  let code := Js.toNumber (Number_ofString env) (exitCode result) in
  import env prepare fileName logWarnings w
  = if Js.includesNumber SUCCESS_EXIT_CODES code then
      (Returned true, w2, (t1 ++ [Exec cmd None (Returned cb)])%list)
    else if Js.includesNumber WARNING_EXIT_CODES code then
      (Returned true, w2,
       (t1 ++ Exec cmd None (Returned cb)
           :: (if logWarnings then
                 [Console WarnLevel
                    ("[AsciiManager.import] Import completed with warnings."
                       ++ newline ++ logDetails result)%string]
               else []))%list)
    else
      (Returned false, w2,
       (t1 ++ [Exec cmd None (Returned cb);
               Console ErrorLevel
                 ("[AsciiManager.import] Import failed." ++ newline
                    ++ logDetails result)%string])%list).
Proof.
  intros Hprep Htrim Hexec result code.
  unfold import, CommandExecutor.execute. eff_run.
  rewrite Hprep. eff_run. rewrite Htrim. eff_run. rewrite Hexec. eff_run.
  fold result. fold code.
  destruct (Js.includesNumber SUCCESS_EXIT_CODES code); [reflexivity |].
  destruct (Js.includesNumber WARNING_EXIT_CODES code); [| reflexivity].
  destruct logWarnings; reflexivity.
Qed.

(** C3, as the code has it.  The classification is the one [import]
    makes of the exit code of its command, read as a number; the two
    arrays are the constants of the class, [0] for success and [55] for
    warning.  Once the command line is there and [exec] has called back,
    the run is settled by the tier of that number: for a success code
    the answer is [true] and nothing is printed; for a warning code that
    is no success code the answer is [true] and the warning is printed
    when warnings are logged; for every other value, one that is no
    number included, the answer is [false] and the error is printed.  So
    the exit code 0 is a success, 55 a warning and 1 an error. *)
Theorem import_decides_in_three_tiers :
  forall (prepare : Eff.M W string) (fileName : string) (logWarnings : bool)
    (w w1 w2 : W) (t1 : list Event) (cmd : string) (cb : ExecCallback),
    prepare w = (Returned cmd, w1, t1) ->
    Js.truthy (Js.trim cmd) = true ->
    child_exec env cmd None w1 = (Returned cb, w2) ->
    let result := CommandExecutor.resultOf cmd None cb in
    let code := Js.toNumber (Number_ofString env) (exitCode result) in
    let ran := (t1 ++ [Exec cmd None (Returned cb)])%list in
    let warning :=
      Console WarnLevel
        ("[AsciiManager.import] Import completed with warnings."
           ++ newline ++ logDetails result) in
    let failure :=
      Console ErrorLevel
        ("[AsciiManager.import] Import failed." ++ newline
           ++ logDetails result) in
    let run := import env prepare fileName logWarnings w in
    (forall e, code = Some e -> In e SUCCESS_EXIT_CODES ->
       run = (Returned true, w2, ran))
    /\ (forall e, code = Some e ->
          In e WARNING_EXIT_CODES -> ~ In e SUCCESS_EXIT_CODES ->
          run = (Returned true, w2,
                 (ran ++ if logWarnings then [warning] else [])%list))
    /\ ((forall e, code = Some e ->
           ~ In e SUCCESS_EXIT_CODES /\ ~ In e WARNING_EXIT_CODES) ->
        run = (Returned false, w2, (ran ++ [failure])%list))
    /\ (forall e, In e SUCCESS_EXIT_CODES <-> e = 0%Z)
    /\ (forall e, In e WARNING_EXIT_CODES <-> e = 55%Z)
    /\ (exitCode result = Js.CodeNumber 0 -> run = (Returned true, w2, ran))
    /\ (exitCode result = Js.CodeNumber 55 ->
        run = (Returned true, w2,
               (ran ++ if logWarnings then [warning] else [])%list))
    /\ (exitCode result = Js.CodeNumber 1 ->
        run = (Returned false, w2, (ran ++ [failure])%list)).
Proof.
  intros prepare fileName logWarnings w w1 w2 t1 cmd cb Hprep Htrim Hexec
    result code ran warning failure run.
  pose proof (import_after_exec prepare fileName logWarnings w w1 w2 t1 cmd cb
                Hprep Htrim Hexec) as Hrun.
  cbv zeta in Hrun. fold result code run in Hrun.
  assert (Hsuccess : forall e, code = Some e -> In e SUCCESS_EXIT_CODES ->
                       run = (Returned true, w2, ran)).
  { intros e Hcode Hin. rewrite Hrun, Hcode. cbn [Js.includesNumber].
    apply arrayIncludes_In in Hin. now rewrite Hin. }
  assert (Hwarning : forall e, code = Some e ->
                       In e WARNING_EXIT_CODES -> ~ In e SUCCESS_EXIT_CODES ->
                       run = (Returned true, w2,
                              (ran ++ if logWarnings then [warning]
                                      else [])%list)).
  { intros e Hcode Hin Hout. rewrite Hrun, Hcode. cbn [Js.includesNumber].
    apply arrayIncludes_In in Hin. apply arrayIncludes_not_In in Hout.
    rewrite Hin, Hout. unfold ran. now rewrite <- app_assoc. }
  assert (Herror : (forall e, code = Some e ->
                      ~ In e SUCCESS_EXIT_CODES /\ ~ In e WARNING_EXIT_CODES) ->
                   run = (Returned false, w2, (ran ++ [failure])%list)).
  { intros Hnone. rewrite Hrun. unfold ran. rewrite <- app_assoc.
    destruct code as [e |]; [| reflexivity].
    destruct (Hnone e eq_refl) as [Hs Hw].
    apply arrayIncludes_not_In in Hs, Hw. cbn [Js.includesNumber].
    now rewrite Hs, Hw. }
  assert (Hzero : forall e, In e SUCCESS_EXIT_CODES <-> e = 0%Z).
  { intros e. unfold SUCCESS_EXIT_CODES. simpl. intuition congruence. }
  assert (Hfifty : forall e, In e WARNING_EXIT_CODES <-> e = 55%Z).
  { intros e. unfold WARNING_EXIT_CODES. simpl. intuition congruence. }
  repeat split; try assumption; try (apply Hzero); try (apply Hfifty).
  - intros Hcode. apply (Hsuccess 0%Z); [| now apply Hzero].
    unfold code. now rewrite Hcode.
  - intros Hcode. apply (Hwarning 55%Z).
    + unfold code. now rewrite Hcode.
    + now apply Hfifty.
    + rewrite Hzero. discriminate.
  - intros Hcode. apply Herror. intros e He.
    unfold code in He. rewrite Hcode in He. injection He as <-.
    rewrite Hzero, Hfifty. split; discriminate.
Qed.

End ExitClassifier.

(** C3 fails as stated: the caller supplies no sets.  For the success
    set [1] the claim has the exit code 1 as a success; [import], which
    takes no set, answers [false] for it and prints the error. *)
Lemma import_takes_no_sets_from_the_caller :
  let successCodes := [1%Z] in
  let warningCodes : list Z := [] in
  let answered (_ : string) (_ : option string) (w : Sim.World) :=
    (Returned (Sim.failed "ascii"), w) in
  let run :=
    AsciiManager.import (Sim.envOf answered (Sim.ctrl []))
      (Eff.ret "ascii") "a.dpl" false Sim.world0 in
  In 1%Z successCodes
  /\ Spec.classify (Some 1%Z) successCodes warningCodes = Spec.Success
  /\ exitCode (CommandExecutor.resultOf "ascii" None (Sim.failed "ascii"))
     = Js.CodeNumber 1
  /\ Eff.outcome run = Returned false
  /\ Trace.consoleLines (Eff.events run)
     = ["[AsciiManager.import] Import failed." ++ AsciiManager.newline
          ++ AsciiManager.logDetails
               (CommandExecutor.resultOf "ascii" None (Sim.failed "ascii"))].
Proof.
  cbv zeta. repeat split. now left.
Qed.

(** ** CommandExecutor.execute *)

Section CommandExecution.
Context {W : Type} (env : Collaborators W).

(** C9, as the code has it.  When [exec] takes the call and calls back,
    [execute] resolves, with a result that names the command; the call
    is the only event.  Without an error object the exit code is 0 and
    the message empty; with an error object the message is the error's
    message and the exit code is the code of the error as it is (a
    number, the name of a system error, or null), and 0 when the error
    has no code.  When [exec] throws at once, [execute] rejects with
    what [exec] threw. *)
Theorem execute_resolves_when_exec_calls_back :
  forall (cmd : string) (cwd : option string) (w : W),
    let answer := fst (child_exec env cmd cwd w) in
    let w1 := snd (child_exec env cmd cwd w) in
    let run := CommandExecutor.execute env cmd cwd w in
    (forall cb, answer = Returned cb ->
       exists result,
         run = (Returned result, w1, [Exec cmd cwd (Returned cb)])
         /\ command result = cmd
         /\ (cbErr cb = None ->
             exitCode result = Js.CodeNumber 0 /\ message result = "")
         /\ (forall err, cbErr cb = Some err ->
               message result = exMessage err
               /\ exitCode result = match exCode err with
                                    | Js.CodeMissing => Js.CodeNumber 0
                                    | code => code
                                    end))
    /\ (forall e, answer = Threw e ->
          run = (Threw e, w1, [Exec cmd cwd (Threw e)])).
Proof.
  intros cmd cwd w. cbv zeta. unfold CommandExecutor.execute.
  destruct (child_exec env cmd cwd w) as [[cb | e] w1]; simpl; split;
    try (intros ? [=]; fail).
  - intros cb' [= <-]. eexists. split; [reflexivity |].
    split; [reflexivity |]. split.
    + intros Hnone. simpl. now rewrite Hnone.
    + intros err Hsome. simpl. rewrite Hsome. split; [| reflexivity].
      unfold Js.orElse, Js.truthy.
      destruct (String.eqb_spec (exMessage err) ""); simpl; congruence.
  - intros e' [= <-]. reflexivity.
Qed.

End CommandExecution.

(** C9 fails as stated: [exec] throws at once for the empty command, in
    the executor of the promise, and [execute] rejects. *)
Lemma execute_rejects_the_empty_command :
  CommandExecutor.execute (Sim.env [] []) "" None Sim.world0
  = (Threw Sim.refused, Sim.world0, [Exec "" None (Threw Sim.refused)]).
Proof. reflexivity. Qed.

(** ** PathResolver.getProjectPath and getInstallationPath *)

Section ProjectPaths.
Import PathResolver.
Context {W : Type} (path : NodePath.Api).

Lemma nth_error_last {A : Type} (l : list A) (d : A) :
  l <> [] -> nth_error l (length l - 1) = Some (last l d).
Proof.
  induction l as [| a [| b r] IH]; intros Hne.
  - congruence.
  - reflexivity.
  - assert (H : b :: r <> []) by discriminate.
    specialize (IH H). simpl in IH |- *.
    rewrite Nat.sub_0_r in IH. exact IH.
Qed.

(** C10, on the code.  Both functions answer the empty string when the
    manager is missing or when [getPaths()] is not an array of at least
    two entries, and otherwise the normalized first entry
    ([getProjectPath]) and the normalized last entry
    ([getInstallationPath]) when that entry is a string.  But they do
    throw: what [getPaths()] throws is not caught, and neither is the
    [TypeError] of [path.normalize] for an entry that is no string.  In
    each of these cases nothing is printed and the world is left as it
    was. *)
Theorem project_and_installation_path_outcomes :
  forall (winccoa : option WinccoaManager) (w : W),
    let expected (pick : list PathEntry -> option PathEntry)
      : Outcome string :=
      match winccoa with
      | Some manager =>
          match getPaths manager with
          | Returned (PathsArray paths) =>
              if (2 <=? length paths)%nat then
                match pick paths with
                | Some (EntryString p) =>
                    Returned (NodePath.normalize path p)
                | Some (EntryOther received) => Threw (typeError received)
                | None => Threw (typeError "undefined")
                end
              else Returned ""
          | Returned (NotAnArray _) => Returned ""
          | Threw e => Threw e
          end
      | None => Returned ""
      end in
    Eff.outcome (getProjectPath path winccoa w) = expected (@hd_error _)
    /\ Eff.outcome (getInstallationPath path winccoa w)
       = expected (fun paths => Some (last paths (EntryOther "undefined")))
    /\ Eff.finalWorld (getProjectPath path winccoa w) = w
    /\ Eff.finalWorld (getInstallationPath path winccoa w) = w
    /\ (forall manager e,
          winccoa = Some manager -> getPaths manager = Threw e ->
          getProjectPath path winccoa w = (Threw e, w, [])
          /\ getInstallationPath path winccoa w = (Threw e, w, [])).
Proof.
  intros winccoa w. cbv zeta.
  destruct winccoa as [[[[lastEntry | [| p0 [| p1 rest]]] | e] release] |];
    unfold getProjectPath, getInstallationPath, fromOutcome; eff_run;
    cbn [getPaths];
    (split; [| split; [| split; [| split]]]);
    try reflexivity;
    try (intros manager e' [= <-]; cbn [getPaths]; intros [= <-];
         split; reflexivity);
    try (intros manager e' [= <-]; cbn [getPaths]; discriminate).
  all: pose proof (nth_error_last (p0 :: p1 :: rest) (EntryOther "undefined")
                     ltac:(discriminate)) as Hl.
  all: change (length (p0 :: p1 :: rest) <? 2)%nat with false.
  all: change (2 <=? length (p0 :: p1 :: rest))%nat with true.
  all: cbv iota; try rewrite Hl; unfold normalizeEntry;
    cbn [nth_error hd_error].
  all: try (destruct p0; reflexivity).
  all: destruct (last (p0 :: p1 :: rest) (EntryOther "undefined"));
    reflexivity.
Qed.

End ProjectPaths.

(** C10 at a manager whose [getPaths()] throws: both functions throw
    that error, and print nothing. *)
Lemma project_path_of_a_throwing_manager :
  let e := Js.newError "The manager is not connected." in
  let manager :=
    {| PathResolver.getPaths := Threw e;
       PathResolver.version := Returned "3.21" |} in
  PathResolver.getProjectPath NodePath.posix (Some manager) Sim.world0
  = (Threw e, Sim.world0, [])
  /\ PathResolver.getInstallationPath NodePath.posix (Some manager) Sim.world0
     = (Threw e, Sim.world0, []).
Proof.
  cbv zeta.
  exact (proj2 (proj2 (proj2 (proj2
           (project_and_installation_path_outcomes NodePath.posix
              (Some {| PathResolver.getPaths :=
                         Threw (Js.newError "The manager is not connected.");
                       PathResolver.version := Returned "3.21" |})
              Sim.world0)))) _ _ eq_refl eq_refl).
Defined.

(** ** The repository name of a clone URL *)

Section RepoName.
Import AddOnHandler.

Lemma stripDotGit_unfold (c : ascii) (rest : string) :
  String c rest <> ".git" ->
  Spec.stripDotGit (String c rest) = String c (Spec.stripDotGit rest).
Proof.
  intros Hne. cbn [Spec.stripDotGit].
  destruct (String.eqb_spec (String c rest) ".git");
    [contradiction | reflexivity].
Qed.

Lemma append_empty_r (a : string) : a ++ "" = a.
Proof.
  induction a as [| x a IH]; cbn [append]; [reflexivity | now rewrite IH].
Qed.

Lemma append_snoc_assoc (a : string) (c : ascii) (b : string) :
  (a ++ String c EmptyString) ++ b = a ++ String c b.
Proof.
  induction a as [| x a IH]; cbn [append]; [reflexivity | now rewrite IH].
Qed.

(** The lazy group on a remainder without slashes: it stops right before a
    final [.git], or at the end. *)
Lemma lazyName_slashFree (rest taken : string) :
  Spec.slashFree rest = true ->
  lazyName taken rest = Some (taken ++ Spec.stripDotGit rest).
Proof.
  revert taken. induction rest as [| c r IH]; intros taken Hfree.
  - cbn. now rewrite append_empty_r.
  - cbn [Spec.slashFree] in Hfree. apply andb_true_iff in Hfree.
    destruct Hfree as [Hc Hr]. apply negb_true_iff in Hc.
    cbn [lazyName].
    destruct (String.eqb_spec (String c r) ".git") as [Heq | Hne].
    + rewrite Heq. cbn. now rewrite append_empty_r.
    + cbn [orb String.eqb]. rewrite Hc, IH by assumption.
      rewrite stripDotGit_unfold by assumption.
      now rewrite append_snoc_assoc.
Qed.

(** With a slash in the remainder the match cannot reach the end of the
    input. *)
Lemma lazyName_slash (rest taken : string) :
  Spec.slashFree rest = false -> lazyName taken rest = None.
Proof.
  revert taken. induction rest as [| c r IH]; intros taken Hslash.
  - discriminate.
  - cbn [Spec.slashFree] in Hslash. cbn [lazyName].
    destruct (String.eqb_spec (String c r) ".git") as [Heq | Hne].
    + inversion Heq; subst. vm_compute in Hslash. discriminate.
    + cbn [orb String.eqb].
      destruct (NodePath.isSlash c); [reflexivity |].
      apply IH. exact Hslash.
Qed.

Lemma matchAfterSlash_slash (rest : string) :
  Spec.slashFree rest = false -> matchAfterSlash rest = None.
Proof.
  destruct rest as [| c r]; [discriminate |].
  cbn [Spec.slashFree matchAfterSlash].
  destruct (NodePath.isSlash c); [reflexivity |].
  cbn [negb andb]. apply lazyName_slash.
Qed.

Lemma matchAfterSlash_slashFree (seg : string) :
  Spec.slashFree seg = true ->
  matchAfterSlash seg
  = if seg =? "" then None
    else if seg =? ".git" then Some ".git"
    else Some (Spec.stripDotGit seg).
Proof.
  destruct seg as [| c r]; [reflexivity |].
  intros Hfree. cbn [Spec.slashFree] in Hfree.
  apply andb_true_iff in Hfree. destruct Hfree as [Hc Hr].
  apply negb_true_iff in Hc.
  cbn [matchAfterSlash]. rewrite Hc, lazyName_slashFree by assumption.
  change (String c r =? "") with false. cbv iota.
  destruct (String.eqb_spec (String c r) ".git") as [Heq | Hne].
  - now inversion Heq.
  - now rewrite stripDotGit_unfold.
Qed.

Lemma lastSegment_none (s : string) :
  Spec.lastSegment s = None <-> Spec.slashFree s = true.
Proof.
  induction s as [| c r IH]; cbn [Spec.lastSegment Spec.slashFree].
  - tauto.
  - destruct (Spec.lastSegment r) as [seg |].
    + split; [discriminate |]. intros H. apply andb_true_iff in H.
      destruct H as [_ H]. apply IH in H. discriminate.
    + destruct (NodePath.isSlash c); cbn [negb andb].
      * split; discriminate.
      * split; [intros _; now apply IH | reflexivity].
Qed.

Lemma lastSegment_slashFree (s seg : string) :
  Spec.lastSegment s = Some seg -> Spec.slashFree seg = true.
Proof.
  induction s as [| c r IH]; cbn [Spec.lastSegment]; [discriminate |].
  destruct (Spec.lastSegment r) as [seg' |] eqn:Hr.
  - intros H. inversion H; subst. now apply IH.
  - destruct (NodePath.isSlash c); [| discriminate].
    intros H. inversion H; subst. now apply lastSegment_none.
Qed.

(** The expression matches at the last slash, and only there. *)
Lemma repoNameMatch_lastSegment (url : string) :
  repoNameMatch url
  = match Spec.lastSegment url with
    | Some seg => matchAfterSlash seg
    | None => None
    end.
Proof.
  induction url as [| c r IH]; [reflexivity |].
  cbn [repoNameMatch Spec.lastSegment].
  destruct (Spec.lastSegment r) as [seg |] eqn:Hr.
  - assert (Hslash : Spec.slashFree r = false).
    { destruct (Spec.slashFree r) eqn:Hf; [| reflexivity].
      apply lastSegment_none in Hf. congruence. }
    destruct (NodePath.isSlash c); [| exact IH].
    now rewrite (matchAfterSlash_slash r Hslash).
  - destruct (NodePath.isSlash c); [| exact IH].
    rewrite IH. now destruct (matchAfterSlash r).
Qed.

(** Two numbers print alike only when they are equal. *)
Lemma numberToString_inj (n m : Z) :
  Js.numberToString n = Js.numberToString m -> n = m.
Proof.
  unfold Js.numberToString. intros H.
  assert (Hnil : forall z, Z.to_int z <> Decimal.Pos Decimal.Nil
                           /\ Z.to_int z <> Decimal.Neg Decimal.Nil).
  { intros [| p | p]; cbn [Z.to_int]; split; try discriminate;
      intros Hp; inversion Hp as [Hu];
      exact (DecimalPos.Unsigned.to_uint_nonnil p Hu). }
  apply DecimalZ.to_int_inj.
  pose proof (NilZero.isi (Z.to_int n) (proj1 (Hnil n)) (proj2 (Hnil n))) as Hn.
  pose proof (NilZero.isi (Z.to_int m) (proj1 (Hnil m)) (proj2 (Hnil m))) as Hm.
  rewrite H in Hn. congruence.
Qed.

Context {W : Type} (nodePath : NodePath.Api) (env : Collaborators W)
  (_defaultDirectory : string).

(** C6, as the code has it.  The name is the last path segment of the URL
    with a trailing [.git] removed, except that a segment that is exactly
    [.git] is kept whole; a URL without a slash, or ending in one, gets
    the name [repo-] followed by the current time in milliseconds, so that
    names made at different times differ.  Without a target directory,
    [https://example/org/demo.git] resolves to
    the name [demo] below the default directory. *)
Theorem extractRepoNameFromUrl_last_segment :
  forall (url : string) (w : W),
    extractRepoNameFromUrl env url w
    = match Spec.lastSegment url with
      | Some seg =>
          if seg =? "" then fallbackName env w
          else if seg =? ".git" then ".git"
          else Spec.stripDotGit seg
      | None => fallbackName env w
      end
    /\ fallbackName env w = "repo-" ++ Js.numberToString (date_now env w)
    /\ (forall w' : W,
          fallbackName env w = fallbackName env w' ->
          date_now env w = date_now env w')
    /\ resolveTarget nodePath env _defaultDirectory
         "https://example/org/demo.git" None w
       = {| repoName := "demo";
            fullPath := NodePath.resolve nodePath (process_cwd env w)
                          [_defaultDirectory; "demo"] |}.
Proof.
  intros url w. split; [| split; [reflexivity | split; [| reflexivity]]].
  2: { intros w' H. unfold fallbackName in H. cbn [append] in H.
       inversion H as [Heq]. now apply numberToString_inj. }
  unfold extractRepoNameFromUrl. rewrite repoNameMatch_lastSegment.
  destruct (Spec.lastSegment url) as [seg |] eqn:Hseg; [| reflexivity].
  rewrite (matchAfterSlash_slashFree seg (lastSegment_slashFree _ _ Hseg)).
  destruct (String.eqb_spec seg ""); [reflexivity |].
  destruct (String.eqb_spec seg ".git") as [-> | Hne]; [reflexivity |].
  destruct seg as [| c r]; [congruence |].
  rewrite stripDotGit_unfold by assumption. reflexivity.
Qed.

End RepoName.

(** C6 fails as stated: for a URL whose last segment is [.git] the name
    is neither that segment without its suffix nor the fallback name. *)
Lemma extractRepoNameFromUrl_keeps_bare_dot_git :
  let url := "https://example/org/.git" in
  let got :=
    AddOnHandler.extractRepoNameFromUrl (Sim.env [] []) url Sim.world0 in
  Spec.lastSegment url = Some ".git"
  /\ got = ".git"
  /\ got <> Spec.stripDotGit ".git"
  /\ got <> AddOnHandler.fallbackName (Sim.env [] []) Sim.world0.
Proof.
  cbv zeta. repeat split; try reflexivity; vm_compute; discriminate.
Qed.

(** On a POSIX system with the default directory [/opt/projects] the
    scenario of C6 gives [/opt/projects/demo]. *)
Example resolve_demo_below_default_directory :
  AddOnHandler.resolveTarget NodePath.posix (Sim.env [] []) "/opt/projects"
    "https://example/org/demo.git" None Sim.world0
  = {| AddOnHandler.repoName := "demo";
       AddOnHandler.fullPath := "/opt/projects/demo" |}.
Proof. reflexivity. Qed.

(** ** Where a clone goes *)

Section TargetResolution.
Import AddOnHandler.
Context {W : Type} (nodePath : NodePath.Api) (env : Collaborators W)
  (_defaultDirectory : string).

(** C4, as the code has it.  For a target directory that is not the
    empty string, let [absolute] be the directory itself when it is
    absolute and its resolution against the working directory otherwise.
    If [absolute] is an existing directory that holds [.git], it is the
    destination and its base name the repository name; if it is an
    existing directory without [.git], the repository name comes from the
    URL and the destination is that name below [absolute]; if it does not
    exist or is not a directory, it is the destination and its base name
    the repository name.  The empty string is not looked at: the
    repository name comes from the URL and the destination is that name
    below the default directory, as when no target directory is given. *)
Theorem resolveTarget_decision_tree :
  forall (url hint : string) (w : W),
    let absolute :=
      if NodePath.isAbsolute nodePath hint then hint
      else NodePath.resolve nodePath (process_cwd env w) [hint] in
    let target :=
      resolveTarget nodePath env _defaultDirectory url (Some hint) w in
    (hint <> "" ->
     (fs_existsSync env w absolute = true ->
      fs_isDirectory env w absolute = true ->
      fs_existsSync env w (NodePath.join nodePath [absolute; ".git"]) = true ->
      fullPath target = absolute
      /\ repoName target = NodePath.basename nodePath absolute)
     /\ (fs_existsSync env w absolute = true ->
         fs_isDirectory env w absolute = true ->
         fs_existsSync env w (NodePath.join nodePath [absolute; ".git"])
         = false ->
         repoName target = extractRepoNameFromUrl env url w
         /\ fullPath target
            = NodePath.join nodePath [absolute; repoName target])
     /\ (fs_existsSync env w absolute = false
         \/ fs_isDirectory env w absolute = false ->
         fullPath target = absolute
         /\ repoName target = NodePath.basename nodePath absolute))
    /\ (hint = "" ->
        target = resolveTarget nodePath env _defaultDirectory url None w
        /\ repoName target = extractRepoNameFromUrl env url w
        /\ fullPath target
           = NodePath.resolve nodePath (process_cwd env w)
               [_defaultDirectory; repoName target]).
Proof.
  intros url hint w absolute target. split.
  - intros Hgiven.
    assert (Htruthy : Js.truthy hint = true).
    { unfold Js.truthy.
      destruct (String.eqb_spec hint ""); [contradiction | reflexivity]. }
    subst target absolute. unfold resolveTarget. rewrite Htruthy. cbn [negb].
    destruct (NodePath.isAbsolute nodePath hint);
      (split; [| split];
       [ intros He Hd Hg; rewrite He, Hd, Hg; split; reflexivity
       | intros He Hd Hg; rewrite He, Hd, Hg; split; reflexivity
       | intros [He | Hd]; [rewrite He | rewrite Hd, andb_false_r];
         split; reflexivity ]).
  - intros ->. subst target. repeat split.
Qed.

End TargetResolution.

(** C4 at work: the plain directory of the scenario takes the clone below
    itself. *)
Lemma resolveTarget_decision_tree_witness :
  let target :=
    AddOnHandler.resolveTarget NodePath.posix (Sim.env [] []) "/opt/projects"
      "https://example/org/demo.git" (Some "/existing/plainDir") Sim.world0 in
  "/existing/plainDir" <> ""
  /\ AddOnHandler.repoName target = "demo"
  /\ AddOnHandler.fullPath target = "/existing/plainDir/demo".
Proof.
  cbv zeta.
  assert (Hgiven : "/existing/plainDir" <> "") by discriminate.
  split; [exact Hgiven |].
  destruct (resolveTarget_decision_tree NodePath.posix (Sim.env [] [])
              "/opt/projects" "https://example/org/demo.git"
              "/existing/plainDir" Sim.world0)
    as [Htree _].
  destruct (Htree Hgiven) as [_ [Hplain _]].
  destruct (Hplain eq_refl eq_refl eq_refl) as [Hname Hpath].
  split.
  - rewrite Hname. reflexivity.
  - rewrite Hpath, Hname. reflexivity.
Defined.

(** C4 fails as stated for the empty target directory.  From the
    working directory [/existing/repo], a git repository, the empty
    string resolves to that directory, which the tree makes the
    destination, as it does for the target directory [.]; the code sends
    the clone below the default directory. *)
Lemma resolveTarget_skips_the_empty_hint :
  let w := Bench.inRepository in
  let env := Sim.env [] [] in
  let url := "https://example/org/demo.git" in
  let absolute := NodePath.resolve NodePath.posix (process_cwd env w) [""] in
  let target :=
    AddOnHandler.resolveTarget NodePath.posix env "/opt/projects" url
      (Some "") w in
  let dotted :=
    AddOnHandler.resolveTarget NodePath.posix env "/opt/projects" url
      (Some ".") w in
  NodePath.isAbsolute NodePath.posix "" = false
  /\ absolute = "/existing/repo"
  /\ fs_existsSync env w absolute = true
  /\ fs_isDirectory env w absolute = true
  /\ fs_existsSync env w (NodePath.join NodePath.posix [absolute; ".git"])
     = true
  /\ AddOnHandler.fullPath target = "/opt/projects/demo"
  /\ AddOnHandler.repoName target = "demo"
  /\ AddOnHandler.fullPath target <> absolute
  /\ AddOnHandler.fullPath dotted = "/existing/repo"
  /\ AddOnHandler.repoName dotted = "repo".
Proof.
  cbv zeta. repeat split; try reflexivity. vm_compute. discriminate.
Qed.

(** ** Reading runs piecewise *)

Section TraceLemmas.

Lemma operations_app (t1 t2 : list Event) :
  Trace.operations (t1 ++ t2)
  = (Trace.operations t1 ++ Trace.operations t2)%list.
Proof.
  induction t1 as [| ev t1 IH]; [reflexivity |].
  destruct ev; cbn [Trace.operations app]; now rewrite IH.
Qed.

Lemma ctrlCalls_app (t1 t2 : list Event) :
  Trace.ctrlCalls (t1 ++ t2) = (Trace.ctrlCalls t1 ++ Trace.ctrlCalls t2)%list.
Proof.
  induction t1 as [| ev t1 IH]; [reflexivity |].
  destruct ev; cbn [Trace.ctrlCalls app]; now rewrite IH.
Qed.


Lemma execCalls_app (t1 t2 : list Event) :
  Trace.execCalls (t1 ++ t2) = (Trace.execCalls t1 ++ Trace.execCalls t2)%list.
Proof.
  induction t1 as [| ev t1 IH]; [reflexivity |].
  destruct ev; cbn [Trace.execCalls app]; now rewrite IH.
Qed.

Lemma pageRequests_app (t1 t2 : list Event) :
  Trace.pageRequests (t1 ++ t2)
  = (Trace.pageRequests t1 ++ Trace.pageRequests t2)%list.
Proof.
  induction t1 as [| ev t1 IH]; [reflexivity |].
  destruct ev; cbn [Trace.pageRequests app]; now rewrite IH.
Qed.

Lemma consoleLines_app (t1 t2 : list Event) :
  Trace.consoleLines (t1 ++ t2)
  = (Trace.consoleLines t1 ++ Trace.consoleLines t2)%list.
Proof.
  induction t1 as [| ev t1 IH]; [reflexivity |].
  destruct ev; cbn [Trace.consoleLines app]; now rewrite IH.
Qed.

Lemma allCallsSucceeded_app (t1 t2 : list Event) :
  Trace.allCallsSucceeded (t1 ++ t2)
  = Trace.allCallsSucceeded t1 && Trace.allCallsSucceeded t2.
Proof.
  unfold Trace.allCallsSucceeded. apply forallb_app.
Qed.

End TraceLemmas.

(** ** The probe for the add-on manifest *)

Section Manifest.
Import AddOnHandler.
Context {W : Type} (nodePath : NodePath.Api) (env : Collaborators W)
  (_defaultDirectory : string).

(** The probe never throws, leaves the world alone, calls no collaborator
    that changes it, and answers what [Spec.manifestContent] describes. *)
Lemma readWinCCOAPackageJson_run (repositoryPath : string) (w : W) :
  exists t,
    readWinCCOAPackageJson nodePath env repositoryPath w
    = (Returned (Spec.manifestContent nodePath env repositoryPath w), w, t)
    /\ Trace.operations t = []
    /\ Trace.allCallsSucceeded t = true.
Proof.
  unfold readWinCCOAPackageJson, Spec.manifestContent, reading. eff_run.
  destruct (fs_existsSync env w _); eff_run.
  - destruct (fs_readFileSync env w _) as [text | e]; eff_run.
    + destruct (JSON_parse env text) as [document | e]; eff_run;
        eexists; repeat split; reflexivity.
    + eexists; repeat split; reflexivity.
  - eexists; repeat split; reflexivity.
Qed.

End Manifest.

(** ** Clone or update *)

Section Synchronization.
Import AddOnHandler.
Context {W : Type} (nodePath : NodePath.Api) (env : Collaborators W)
  (_defaultDirectory : string).

(** The [catch] block always throws again, and does nothing else. *)
Lemma cloneFailure_throws (url : string) (hint : option string)
  (e : Js.Error) (w : W) :
  exists e', cloneFailure env url hint e w = (Threw e', w, []).
Proof.
  unfold cloneFailure.
  repeat match goal with
         | |- context [if ?c then _ else _] => destruct c
         end; eff_run; eexists; reflexivity.
Qed.

(** The run of [cloneRepository] when the destination exists. *)
Lemma cloneRepository_existing (url : string) (hint branch : option string)
  (w : W) :
  let target := resolveTarget nodePath env _defaultDirectory url hint w in
  let run :=
    cloneRepository nodePath env _defaultDirectory url hint branch w in
  let pulled := git_pull env (fullPath target) w in
  fs_existsSync env w (fullPath target) = true ->
  Trace.operations (Eff.events run) = [Trace.OpPull (fullPath target)]
  /\ Eff.finalWorld run = snd pulled
  /\ Trace.allCallsSucceeded (Eff.events run)
     = Trace.answeredNormally (fst pulled)
  /\ (forall p, fst pulled = Returned p ->
        Eff.outcome run
        = Returned {| path := fullPath target;
                      fileContent :=
                        Spec.manifestContent nodePath env (fullPath target)
                          (snd pulled) |}
        /\ In (pullReport p) (Trace.consoleLines (Eff.events run)))
  /\ (forall e, fst pulled = Threw e -> exists e', Eff.outcome run = Threw e').
Proof.
  intros target run pulled Hthere. subst run pulled.
  unfold cloneRepository, gitPull, logPull. eff_run.
  fold target. rewrite Hthere.
  repeat clone_step (readWinCCOAPackageJson_run nodePath env)
    cloneFailure_throws;
    rewrite ?app_nil_r; trace_simpl;
    (split; [reflexivity |]); (split; [reflexivity |]);
    (split; [reflexivity |]); split.
  - intros q Hq. inversion Hq; subst. split; [reflexivity |].
    do 3 right. left. reflexivity.
  - intros e He. discriminate.
  - intros q Hq. discriminate.
  - intros e0 _. eexists. reflexivity.
Qed.

(** The run of [cloneRepository] when the destination does not exist. *)
Lemma cloneRepository_fresh (url : string) (hint branch : option string)
  (w : W) :
  let target := resolveTarget nodePath env _defaultDirectory url hint w in
  let run :=
    cloneRepository nodePath env _defaultDirectory url hint branch w in
  let expected := Spec.freshCloneOperations nodePath env url branch w target in
  fs_existsSync env w (fullPath target) = false ->
  (exists k, Trace.operations (Eff.events run) = firstn k expected)
  /\ (Trace.allCallsSucceeded (Eff.events run) = true ->
      Trace.operations (Eff.events run) = expected
      /\ Eff.outcome run
         = Returned {| path := fullPath target;
                       fileContent :=
                         Spec.manifestContent nodePath env (fullPath target)
                           (Eff.finalWorld run) |})
  /\ (forall r, Eff.outcome run = Returned r ->
        Trace.allCallsSucceeded (Eff.events run) = true).
Proof.
  intros target run expected Hfresh. subst run expected.
  unfold Spec.freshCloneOperations, cloneRepository, gitPull, gitClone,
    mkdirRecursive, logPull.
  eff_run. fold target. rewrite Hfresh.
  set (parentDir := NodePath.dirname nodePath (fullPath target)).
  destruct (fs_existsSync env w parentDir); eff_run;
    repeat clone_step (readWinCCOAPackageJson_run nodePath env)
      cloneFailure_throws;
    rewrite ?app_nil_r; trace_simpl;
    (split; [| split];
     [ first [ exists 0%nat; reflexivity | exists 1%nat; reflexivity
             | exists 2%nat; reflexivity | exists 3%nat; reflexivity ]
     | first [ intros H; discriminate | intros _; split; reflexivity ]
     | first [ intros r H; discriminate | intros r _; reflexivity ] ]).
Qed.


(** C8.  The probe for [package.winccoa.json] never throws and leaves the
    world alone.  It answers nothing when the file is absent, the
    re-serialized document when the file is read and parses, and nothing
    when the file is read and does not parse.  A synchronization none of
    whose operations fails returns the destination together with what
    the probe answers for it in the world the synchronization leaves,
    whatever the state of the manifest. *)
Theorem manifest_probe_never_fails :
  forall (url : string) (hint branch : option string)
    (repositoryPath : string) (w : W),
    let manifest :=
      NodePath.join nodePath [repositoryPath; "package.winccoa.json"] in
    let probe := readWinCCOAPackageJson nodePath env repositoryPath w in
    let target := resolveTarget nodePath env _defaultDirectory url hint w in
    let run :=
      cloneRepository nodePath env _defaultDirectory url hint branch w in
    (exists content, Eff.outcome probe = Returned content)
    /\ Eff.finalWorld probe = w
    /\ (fs_existsSync env w manifest = false ->
        Eff.outcome probe = Returned None)
    /\ (forall text document,
          fs_existsSync env w manifest = true ->
          fs_readFileSync env w manifest = Returned text ->
          JSON_parse env text = Returned document ->
          Eff.outcome probe = Returned (Some (JSON_stringify env document 2)))
    /\ (forall text e,
          fs_existsSync env w manifest = true ->
          fs_readFileSync env w manifest = Returned text ->
          JSON_parse env text = Threw e ->
          Eff.outcome probe = Returned None)
    /\ (Trace.allCallsSucceeded (Eff.events run) = true ->
        exists content,
          Eff.outcome run
          = Returned {| path := fullPath target; fileContent := content |}
          /\ Eff.outcome
               (readWinCCOAPackageJson nodePath env (fullPath target)
                  (Eff.finalWorld run))
             = Returned content).
Proof.
  intros url hint branch repositoryPath w manifest probe target run.
  destruct (readWinCCOAPackageJson_run nodePath env repositoryPath w)
    as [t [Hrun _]].
  subst probe. rewrite Hrun. unfold Eff.outcome, Eff.finalWorld. cbn [fst snd].
  split; [eexists; reflexivity |]. split; [reflexivity |].
  unfold Spec.manifestContent. fold manifest.
  split; [| split; [| split]].
  - intros Habsent. now rewrite Habsent.
  - intros text document Hthere Hread Hparse.
    now rewrite Hthere, Hread, Hparse.
  - intros text e Hthere Hread Hparse. now rewrite Hthere, Hread, Hparse.
  - intros Hok.
    exists (Spec.manifestContent nodePath env (fullPath target)
              (snd (fst run))).
    destruct (readWinCCOAPackageJson_run nodePath env (fullPath target)
                (snd (fst run))) as [t' [Hrun' _]].
    rewrite Hrun'. cbn [fst snd]. split; [| reflexivity].
    destruct (fs_existsSync env w (fullPath target)) eqn:Hthere.
    + destruct (cloneRepository_existing url hint branch w Hthere)
        as [_ [Hworld [Hsucc [Hret _]]]].
      fold run target in Hworld, Hsucc, Hret.
      rewrite Hok in Hsucc.
      destruct (fst (git_pull env (fullPath target) w)) as [p | e] eqn:Hp;
        [| discriminate].
      destruct (Hret p eq_refl) as [Hout _].
      unfold Eff.finalWorld in Hworld. unfold Eff.outcome in Hout.
      rewrite Hworld. exact Hout.
    + destruct (cloneRepository_fresh url hint branch w Hthere)
        as [_ [Hall _]].
      destruct (Hall Hok) as [_ Hout]. exact Hout.
Qed.

End Synchronization.

(** ** Listing the repositories of an organization *)

Section Pagination.
Import AddOnHandler.
Context {W : Type} (env : Collaborators W).

Lemma listFailure_throws {A : Type} (org : string) (e : Js.Error) (w : W) :
  exists e', listFailure (A := A) org e w = (Threw e', w, []).
Proof.
  unfold listFailure.
  destruct (statusIs e 404); [| destruct (statusIs e 403)];
    eexists; reflexivity.
Qed.

(** One turn of the loop. *)
Lemma pageLoop_step (fuel : nat) (org type sort direction : string)
  (pageSize limit : Z) (page : Z) (all : list RepoSummary) (w : W) :
  (page <= limit)%Z ->
  let request := {| q_org := org; q_type := type; q_sort := sort;
                    q_direction := direction; q_per_page := pageSize;
                    q_page := page |} in
  let line := Console LogLevel
                ("Fetching page " ++ Js.numberToString page ++ "...") in
  pageLoop env (S fuel) org type sort direction pageSize limit true page all w
  = match octokit_listForOrg env request w with
    | (Returned data, w1) =>
        let '(o, w2, t) :=
          pageLoop env fuel org type sort direction pageSize limit
            (Z.of_nat (length data) =? pageSize)%Z (page + 1)%Z
            (all ++ map summarize data)%list w1 in
        (o, w2, line :: ListForOrg request (Returned data) :: t)
    | (Threw e, w1) => (Threw e, w1, [line; ListForOrg request (Threw e)])
    end.
Proof.
  intros Hle request line. cbn [pageLoop].
  apply Z.leb_le in Hle. rewrite Hle. cbn [andb].
  unfold listForOrg. eff_run. fold request.
  destruct (octokit_listForOrg env request w) as [[data | e] w1]; eff_run.
  - destruct (pageLoop env fuel org type sort direction pageSize limit
                (Z.of_nat (length data) =? pageSize)%Z (page + 1)%Z
                (all ++ map summarize data)%list w1) as [[o w2] t].
    reflexivity.
  - reflexivity.
Qed.

Lemma pageLoop_done (fuel : nat) (org type sort direction : string)
  (pageSize limit : Z) (hasMore : bool) (page : Z) (all : list RepoSummary)
  (w : W) :
  hasMore && (page <=? limit)%Z = false ->
  pageLoop env fuel org type sort direction pageSize limit hasMore page all w
  = (Returned (Some all), w, []).
Proof.
  intros Hcond. destruct fuel; cbn [pageLoop]; rewrite Hcond; reflexivity.
Qed.

(** The loop, started anywhere with enough fuel for the pages left. *)
Lemma pageLoop_run (org type sort direction : string) (pageSize limit : Z) :
  forall (fuel : nat) (hasMore : bool) (page : Z) (all : list RepoSummary)
    (w : W),
    (Z.to_nat (limit - page + 1) <= fuel)%nat ->
    let run := pageLoop env fuel org type sort direction pageSize limit
                 hasMore page all w in
    let requests := Trace.pageRequests (Eff.events run) in
    map (fun x => q_page (fst x)) requests
    = map (fun i => (page + Z.of_nat i)%Z) (seq 0 (length requests))
    /\ Forall (fun x => q_per_page (fst x) = pageSize /\ q_org (fst x) = org)
         requests
    /\ (length requests <= Z.to_nat (limit - page + 1))%nat
    /\ (hasMore = false -> requests = [])
    /\ (forall i request data,
          nth_error requests i = Some (request, Returned data) ->
          Z.of_nat (length data) <> pageSize ->
          S i = length requests)
    /\ (forall i request answer,
          nth_error requests i = Some (request, answer) ->
          (S i < length requests)%nat ->
          exists data,
            answer = Returned data /\ Z.of_nat (length data) = pageSize)
    /\ (forall result,
          Eff.outcome run = Returned result ->
          result = Some (all ++ Spec.pagesOf requests)%list)
    /\ (Trace.allCallsSucceeded (Eff.events run) = true ->
        Eff.outcome run = Returned (Some (all ++ Spec.pagesOf requests)%list)).
Proof.
  induction fuel as [| fuel IH]; intros hasMore page all w Hfuel run requests;
    subst requests run;
    destruct (hasMore && (page <=? limit)%Z) eqn:Hcond;
    try (rewrite (pageLoop_done _ _ _ _ _ _ _ _ _ _ _ Hcond);
         unfold Eff.events, Eff.outcome; cbn [fst snd];
         cbn [Trace.pageRequests Spec.pagesOf flat_map length seq map];
         rewrite app_nil_r;
         repeat split; try reflexivity; try constructor; try lia;
         try (intros [| i] request data H; discriminate H);
         intros result H; now inversion H);
    apply andb_true_iff in Hcond; destruct Hcond as [Hmore Hle];
    apply Z.leb_le in Hle; [lia |].
  subst hasMore. rewrite pageLoop_step by assumption.
  set (request := {| q_org := org; q_type := type; q_sort := sort;
                     q_direction := direction; q_per_page := pageSize;
                     q_page := page |}).
  destruct (octokit_listForOrg env request w) as [[data | e] w1].
  - specialize (IH (Z.of_nat (length data) =? pageSize)%Z (page + 1)%Z
                   (all ++ map summarize data)%list w1 ltac:(lia)).
    cbv zeta in IH.
    destruct (pageLoop env fuel org type sort direction pageSize limit
                (Z.of_nat (length data) =? pageSize)%Z (page + 1)%Z
                (all ++ map summarize data)%list w1)
      as [[o w2] t] eqn:Hrec.
    unfold Eff.events, Eff.outcome in *. cbn [fst snd] in *.
    destruct IH as [Hpages [Hper [Hlen [Hstop [Hshort [Hfull [Hres Hok]]]]]]].
    trace_simpl. set (rest := Trace.pageRequests t) in *.
    cbn [length seq map fst snd Spec.pagesOf flat_map].
    fold (Spec.pagesOf rest).
    split; [| split; [| split; [| split; [| split; [| split; [| split]]]]]].
    + rewrite Hpages, <- seq_shift, map_map.
      f_equal; [subst request; cbn; lia |].
      apply map_ext. intros i. lia.
    + constructor; [split; reflexivity | exact Hper].
    + lia.
    + discriminate.
    + intros [| i] req d Hnth Hne.
      * cbn in Hnth. inversion Hnth; subst.
        rewrite Hstop; [reflexivity |]. now apply Z.eqb_neq.
      * cbn in Hnth. f_equal. eapply Hshort; eassumption.
    + intros [| i] req ans Hnth Hlt.
      * cbn in Hnth. inversion Hnth; subst. exists data.
        split; [reflexivity |].
        destruct (Z.eqb_spec (Z.of_nat (length data)) pageSize) as [Heq | Hne];
          [exact Heq |].
        rewrite Hstop in Hlt by reflexivity. cbn in Hlt. lia.
      * cbn in Hnth. apply (Hfull i req ans Hnth). cbn in Hlt. lia.
    + intros result Hr. rewrite (Hres result Hr).
      now rewrite <- app_assoc.
    + intros Hall. rewrite (Hok Hall). now rewrite <- app_assoc.
  - unfold Eff.events, Eff.outcome. cbn [fst snd]. trace_simpl.
    cbn [length seq map fst snd Spec.pagesOf flat_map].
    split; [| split; [| split; [| split; [| split; [| split; [| split]]]]]].
    + f_equal. subst request; cbn; lia.
    + constructor; [split; reflexivity | constructor].
    + lia.
    + discriminate.
    + intros [| [| i]] req d Hnth; cbn in Hnth; discriminate.
    + intros i req ans _ Hlt. cbn in Hlt. lia.
    + intros result Hr. discriminate.
    + intros Hall. discriminate.
Qed.

(** The first request of the loop is the one the source builds for the
    page it is started at. *)
Lemma pageLoop_first (org type sort direction : string) (pageSize limit : Z)
  (fuel : nat) (page : Z) (all : list RepoSummary) (w : W) :
  let run := pageLoop env fuel org type sort direction pageSize limit
               true page all w in
  forall request answer rest,
    Trace.pageRequests (Eff.events run) = (request, answer) :: rest ->
    request = {| q_org := org; q_type := type; q_sort := sort;
                 q_direction := direction; q_per_page := pageSize;
                 q_page := page |}.
Proof.
  cbv zeta. intros request answer rest.
  destruct (Z.leb_spec page limit) as [Hle | Hgt].
  2:{ rewrite pageLoop_done by (cbn [andb]; apply Z.leb_gt; lia).
      unfold Eff.events. cbn. discriminate. }
  destruct fuel as [| fuel].
  - cbn [pageLoop]. apply Z.leb_le in Hle. rewrite Hle. cbn [andb].
    unfold Eff.events. cbn. discriminate.
  - rewrite pageLoop_step by assumption.
    destruct (octokit_listForOrg env _ w) as [[data | e] w1].
    + destruct (pageLoop env fuel org type sort direction pageSize limit
                  _ (page + 1)%Z _ w1) as [[o w2] t].
      unfold Eff.events. cbn [snd]. trace_simpl.
      intros H. now inversion H.
    + unfold Eff.events. cbn [snd]. trace_simpl.
      intros H. now inversion H.
Qed.

(** The loop goes on: it asks for the page it is started at when the
    limit allows, and a page answered in full before the limit is
    followed by a request for the next. *)
Lemma pageLoop_progress (org type sort direction : string)
  (pageSize limit : Z) :
  forall (fuel : nat) (page : Z) (all : list RepoSummary) (w : W),
    (Z.to_nat (limit - page + 1) <= fuel)%nat ->
    let run := pageLoop env fuel org type sort direction pageSize limit
                 true page all w in
    let requests := Trace.pageRequests (Eff.events run) in
    ((page <= limit)%Z -> (1 <= length requests)%nat)
    /\ (forall i request data,
          nth_error requests i = Some (request, Returned data) ->
          Z.of_nat (length data) = pageSize ->
          (page + Z.of_nat i < limit)%Z ->
          (S i < length requests)%nat).
Proof.
  induction fuel as [| fuel IH]; intros page all w Hfuel run requests;
    subst requests run.
  - rewrite pageLoop_done
      by (cbn [andb]; apply Z.leb_gt; lia).
    unfold Eff.events. cbn [snd Trace.pageRequests length]. split.
    + intros Hle. lia.
    + intros [| i] request data Hnth; discriminate Hnth.
  - destruct (Z.leb_spec page limit) as [Hle | Hgt].
    2:{ rewrite pageLoop_done by (cbn [andb]; apply Z.leb_gt; lia).
        unfold Eff.events. cbn [snd Trace.pageRequests length]. split.
        - intros Hle. lia.
        - intros [| i] request data Hnth; discriminate Hnth. }
    rewrite pageLoop_step by assumption.
    set (request := {| q_org := org; q_type := type; q_sort := sort;
                       q_direction := direction; q_per_page := pageSize;
                       q_page := page |}).
    destruct (octokit_listForOrg env request w) as [[data | e] w1].
    + pose proof (IH (page + 1)%Z (all ++ map summarize data)%list w1
                    ltac:(lia)) as Hnext.
      cbv zeta in Hnext.
      destruct (Z.eqb_spec (Z.of_nat (length data)) pageSize)
        as [Hfull | Hshort].
      * destruct (pageLoop env fuel org type sort direction pageSize limit
                    true (page + 1)%Z (all ++ map summarize data)%list w1)
          as [[o w2] t] eqn:Hrec.
        unfold Eff.events in *. cbn [fst snd] in *. trace_simpl.
        destruct Hnext as [Hfirst Hlater].
        cbn [length]. split; [lia |].
        intros [| i] req d Hnth Hd Hlt.
        -- assert (1 <= length (Trace.pageRequests t))%nat
             by (apply Hfirst; lia).
           lia.
        -- cbn [nth_error] in Hnth.
           assert (S i < length (Trace.pageRequests t))%nat
             by (apply (Hlater i req d Hnth Hd); lia).
           lia.
      * rewrite (pageLoop_done fuel org type sort direction pageSize limit
                   false (page + 1)%Z) by reflexivity.
        unfold Eff.events. cbn [fst snd]. trace_simpl.
        cbn [length]. split; [lia |].
        intros [| [| i]] req d Hnth Hd Hlt; cbn in Hnth;
          try discriminate Hnth.
        inversion Hnth; subst. contradiction.
    + unfold Eff.events. cbn [fst snd]. trace_simpl. cbn [length].
      split; [lia |].
      intros [| [| i]] req d Hnth Hd Hlt; cbn in Hnth; discriminate Hnth.
Qed.

(** C7.  Pages are requested one after the other, from page 1 on, each
    with the page size.  No more requests are made than [maxPages] (none
    when it is not positive).  A page that is answered with fewer entries
    than the page size is the last one requested, and a request is followed
    by another only when it was answered with exactly as many entries as
    the page size.  The loop comes to an end within the fuel given; what is
    returned is the pages in the order they were fetched, and it is
    returned whenever no request fails.  Without options the page size is
    100 and the limit 10.  The requests are made: page 1 is asked for
    whenever [maxPages] is at least 1, and a page answered with exactly as
    many entries as the page size is followed by a request for the next
    as long as fewer than [maxPages] requests were made. *)
Theorem listOrganizationRepositories_pagination :
  forall (org : string) (options : ListOptions) (w : W),
    let pageSize := orDefault (perPage options) 100%Z in
    let limit := orDefault (maxPages options) 10%Z in
    let run := listOrganizationRepositories env org options w in
    let requests := Trace.pageRequests (Eff.events run) in
    map (fun x => q_page (fst x)) requests
    = map Z.of_nat (seq 1 (length requests))
    /\ Forall (fun x => q_per_page (fst x) = pageSize /\ q_org (fst x) = org)
         requests
    /\ (Z.of_nat (length requests) <= Z.max 0 limit)%Z
    /\ (forall i request data,
          nth_error requests i = Some (request, Returned data) ->
          (Z.of_nat (length data) < pageSize)%Z ->
          S i = length requests)
    /\ (forall i request answer,
          nth_error requests i = Some (request, answer) ->
          (S i < length requests)%nat ->
          exists data,
            answer = Returned data /\ Z.of_nat (length data) = pageSize)
    /\ (forall result,
          Eff.outcome run = Returned result ->
          result = Some (Spec.pagesOf requests))
    /\ (Trace.allCallsSucceeded (Eff.events run) = true ->
        Eff.outcome run = Returned (Some (Spec.pagesOf requests)))
    /\ orDefault (perPage noOptions) 100%Z = 100%Z
    /\ orDefault (maxPages noOptions) 10%Z = 10%Z
    /\ ((1 <= limit)%Z ->
        exists answer rest,
          requests
          = ({| q_org := org; q_type := orDefault (type options) "all";
                q_sort := orDefault (sort options) "updated";
                q_direction := orDefault (direction options) "desc";
                q_per_page := pageSize; q_page := 1 |}, answer) :: rest)
    /\ (forall i request data,
          nth_error requests i = Some (request, Returned data) ->
          Z.of_nat (length data) = pageSize ->
          (Z.of_nat (S i) < limit)%Z ->
          (S i < length requests)%nat).
Proof.
  intros org options w pageSize limit run requests.
  pose proof (pageLoop_progress org (orDefault (type options) "all")
                (orDefault (sort options) "updated")
                (orDefault (direction options) "desc") pageSize limit
                (Z.to_nat limit) 1%Z [] w ltac:(lia)) as Hprogress.
  cbv zeta in Hprogress.
  pose proof (pageLoop_first org (orDefault (type options) "all")
                (orDefault (sort options) "updated")
                (orDefault (direction options) "desc") pageSize limit
                (Z.to_nat limit) 1%Z [] w) as Hhead.
  cbv zeta in Hhead.
  pose proof (pageLoop_run org (orDefault (type options) "all")
                (orDefault (sort options) "updated")
                (orDefault (direction options) "desc") pageSize limit
                (Z.to_nat limit) true 1%Z [] w ltac:(lia)) as Hloop.
  cbv zeta in Hloop.
  assert (Hshape :
    exists o w1 t t',
      pageLoop env (Z.to_nat limit) org (orDefault (type options) "all")
        (orDefault (sort options) "updated")
        (orDefault (direction options) "desc") pageSize limit true 1%Z [] w
      = (o, w1, t)
      /\ Trace.pageRequests t' = Trace.pageRequests t
      /\ Trace.allCallsSucceeded t' = Trace.allCallsSucceeded t
      /\ ((exists e, o = Threw e /\ exists e', run = (Threw e', w1, t'))
          \/ (o = Returned None /\ run = (Returned None, w1, t'))
          \/ (exists allRepos,
                o = Returned (Some allRepos)
                /\ run = (Returned (Some allRepos), w1, t')))).
  { subst run. unfold listOrganizationRepositories. fold pageSize limit.
    eff_run.
    destruct (pageLoop env (Z.to_nat limit) org
                (orDefault (type options) "all")
                (orDefault (sort options) "updated")
                (orDefault (direction options) "desc") pageSize limit true
                1%Z [] w) as [[[[allRepos |] | e] w1] t]; eff_run.
    - do 4 eexists. split; [reflexivity |].
      split; [| split; [| right; right; eexists; split; reflexivity]].
      + rewrite app_nil_r. cbn [app]. trace_simpl.
        rewrite pageRequests_app. trace_simpl. now rewrite app_nil_r.
      + rewrite app_nil_r. cbn [app]. trace_simpl.
        rewrite allCallsSucceeded_app. trace_simpl. now rewrite andb_true_r.
    - do 4 eexists. split; [reflexivity |].
      split; [| split; [| right; left; split; reflexivity]].
      + rewrite !app_nil_r. cbn [app]. trace_simpl. reflexivity.
      + rewrite !app_nil_r. cbn [app]. trace_simpl. reflexivity.
    - destruct (listFailure_throws (A := option (list RepoSummary)) org e w1)
        as [e' He'].
      rewrite He'. eff_run.
      do 4 eexists. split; [reflexivity |].
      split; [| split; [| left; eexists; split;
                          [reflexivity | eexists; reflexivity]]].
      + rewrite !app_nil_r. cbn [app]. trace_simpl. reflexivity.
      + rewrite !app_nil_r. cbn [app]. trace_simpl. reflexivity. }
  destruct Hshape as [o [w1 [t [t' [Hrun [Hreq [Hsucc Hcases]]]]]]].
  rewrite Hrun in Hloop, Hprogress, Hhead.
  unfold Eff.events, Eff.outcome in Hloop, Hprogress, Hhead.
  cbn [fst snd] in Hloop, Hprogress, Hhead.
  rewrite <- Hreq, <- Hsucc in Hloop. rewrite <- Hreq in Hprogress, Hhead.
  destruct Hloop as [Hpages [Hper [Hlen [_ [Hshort [Hfull [Hres Hok]]]]]]].
  cbn [app] in Hres, Hok.
  assert (Hseq : forall n,
             map (fun i => (1 + Z.of_nat i)%Z) (seq 0 n)
             = map Z.of_nat (seq 1 n)).
  { intros n. rewrite <- seq_shift, map_map. apply map_ext. intros i. lia. }
  assert (Hevents : Eff.events run = t').
  { destruct Hcases as [[e [_ [e' ->]]] | [[_ ->] | [allRepos [_ ->]]]];
      reflexivity. }
  subst requests. rewrite Hevents.
  split; [now rewrite Hpages, Hseq |]. split; [exact Hper |].
  split; [lia |]. split.
  { intros i request data Hnth Hlt. apply (Hshort i request data Hnth). lia. }
  split; [exact Hfull |].
  split; [| split; [| split; [reflexivity | split; [reflexivity | split]]]].
  - intros result Hr.
    destruct Hcases as [[e [_ [e' Hc]]] | [[Ho Hc] | [allRepos [Ho Hc]]]];
      rewrite Hc in Hr; unfold Eff.outcome in Hr; cbn [fst] in Hr.
    + discriminate.
    + specialize (Hres None (f_equal _ Ho)). discriminate.
    + inversion Hr; subst. apply Hres. reflexivity.
  - intros Hall. specialize (Hok Hall).
    destruct Hcases as [[e [Ho _]] | [[Ho _] | [allRepos [Ho Hc]]]];
      try (rewrite Ho in Hok; discriminate).
    rewrite Hc. unfold Eff.outcome. cbn [fst]. rewrite Ho in Hok. exact Hok.
  - intros Hone.
    destruct (Trace.pageRequests t') as [| [request answer] rest] eqn:Hlist.
    + destruct Hprogress as [Hfirst _]. specialize (Hfirst Hone).
      cbn in Hfirst. lia.
    + exists answer, rest.
      now rewrite (Hhead request answer rest eq_refl).
  - intros i request data Hnth Hfilled Hbelow.
    destruct Hprogress as [_ Hlater].
    apply (Hlater i request data Hnth Hfilled). lia.
Qed.

End Pagination.

(** ** Dependency bootstrap and manager attachment *)

Section Registration.
Import AddOnHandler AddonConfig.
Context {W : Type} (nodePath : NodePath.Api) (env : Collaborators W).

(** Induction on directory trees reaching the subtrees of a listing. *)
Lemma DirTree_nested_ind (P : DirTree -> Prop) :
  P Missing ->
  (forall e, P (Unreadable e)) ->
  (forall entries,
      Forall (fun x => P (snd x)) entries -> P (Listing entries)) ->
  forall tree, P tree.
Proof.
  intros Hmissing Hunreadable Hlisting.
  fix IH 1. intros [| e | entries].
  - exact Hmissing.
  - apply Hunreadable.
  - apply Hlisting. induction entries as [| [d sub] rest IHrest].
    + constructor.
    + constructor; [apply IH | exact IHrest].
Qed.

Lemma quiet_bind {A B : Type} (m : Eff.M W A) (k : A -> Eff.M W B) (w : W) :
  Spec.quiet w (m w) ->
  (forall a, Spec.quiet w (k a w)) ->
  Spec.quiet w (Eff.bind m k w).
Proof.
  unfold Spec.quiet, Eff.bind, Eff.events, Eff.finalWorld.
  destruct (m w) as [[[a | e] w1] t1]; cbn [fst snd].
  - intros [Hc [He Hw]] Hk. subst w1. specialize (Hk a).
    destruct (k a w) as [[r w2] t2]. cbn [fst snd] in *.
    rewrite ctrlCalls_app, execCalls_app.
    destruct Hk as [Hc2 [He2 Hw2]]. now rewrite Hc, He, Hc2, He2.
  - intros H _. exact H.
Qed.

Lemma walkEntries_quiet (walk : string -> DirTree -> list string
                                -> Eff.M W (list string))
  (dir : string) (entries : list (Dirent * DirTree)) :
  Forall (fun x => forall d found w, Spec.quiet w (walk d (snd x) found w))
    entries ->
  forall acc w,
    Spec.quiet w (NodeInstaller.walkEntries nodePath walk dir entries acc w).
Proof.
  induction 1 as [| entry rest Hentry _ IH]; intros acc w;
    cbn [NodeInstaller.walkEntries].
  - repeat split.
  - destruct (NodeInstaller.isWalkedDirectory (fst entry)); [| apply IH].
    apply quiet_bind; [apply Hentry | intros a; apply IH].
Qed.

(** The directory walk prints and does nothing else. *)
Lemma walkPackageDirs_quiet (tree : DirTree) :
  forall (dir : string) (found : list string) (w : W),
    Spec.quiet w (NodeInstaller.walkPackageDirs nodePath dir tree found w).
Proof.
  induction tree as [| e | entries IH] using DirTree_nested_ind;
    intros dir found w; cbn [NodeInstaller.walkPackageDirs].
  - repeat split.
  - repeat split.
  - apply quiet_bind.
    + destruct (existsb NodeInstaller.isPackageJson entries); repeat split.
    + intros a. apply walkEntries_quiet. exact IH.
Qed.

Lemma findPackageDirs_quiet (dir : string) (w : W) :
  Spec.quiet w (NodeInstaller.findPackageDirs nodePath env dir w).
Proof.
  unfold NodeInstaller.findPackageDirs.
  apply quiet_bind; [repeat split |]. intros tree.
  apply quiet_bind; [apply walkPackageDirs_quiet |]. intros found.
  repeat split.
Qed.



(** No command of the bootstrap is a control-script call. *)
Lemma runCommand_no_ctrl (cmd : string) (args : list string) (dir : string)
  (w : W) :
  Trace.ctrlCalls (Eff.events (NodeInstaller.runCommand env cmd args dir w))
  = [].
Proof.
  unfold NodeInstaller.runCommand, CommandExecutor.execute. eff_run.
  destruct (child_exec env (NodeInstaller.commandLine cmd args) (Some dir) w)
    as [[cb | e] w1]; eff_run; [| reflexivity].
  destruct (Js.isZero _); reflexivity.
Qed.

Lemma ctrlCalls_bind {A B : Type} (m : Eff.M W A) (k : A -> Eff.M W B) (w : W) :
  Trace.ctrlCalls (Eff.events (m w)) = [] ->
  (forall a w1, Trace.ctrlCalls (Eff.events (k a w1)) = []) ->
  Trace.ctrlCalls (Eff.events (Eff.bind m k w)) = [].
Proof.
  unfold Eff.bind, Eff.events.
  destruct (m w) as [[[a | e] w1] t1]; cbn [fst snd].
  - intros Hm Hk. specialize (Hk a w1).
    destruct (k a w1) as [[r w2] t2]. cbn [snd] in *.
    now rewrite ctrlCalls_app, Hm, Hk.
  - intros Hm _. exact Hm.
Qed.

Lemma installAndBuildIn_no_ctrl (dir : string) (w : W) :
  Trace.ctrlCalls (Eff.events (NodeInstaller.installAndBuildIn env dir w)) = [].
Proof.
  unfold NodeInstaller.installAndBuildIn.
  apply ctrlCalls_bind; [reflexivity |]. intros _ w1.
  apply ctrlCalls_bind; [apply runCommand_no_ctrl |]. intros _ w2.
  apply runCommand_no_ctrl.
Qed.

Lemma installAndBuild_no_ctrl (projDir : string) (w : W) :
  Trace.ctrlCalls
    (Eff.events (NodeInstaller.installAndBuild nodePath env projDir w))
  = [].
Proof.
  unfold NodeInstaller.installAndBuild.
  apply ctrlCalls_bind; [apply findPackageDirs_quiet |].
  intros dirs w1. revert w1.
  induction dirs as [| d rest IH]; intros w1; cbn [Eff.forEach];
    [reflexivity |].
  apply ctrlCalls_bind; [apply installAndBuildIn_no_ctrl |].
  intros _ w2. apply IH.
Qed.








(** Attaching managers runs no command. *)
Lemma attachAll_no_exec (managers : list ManagerConfig) (w : W) :
  Trace.execCalls (Eff.events (Eff.forEach managers (attachManager env) w))
  = [].
Proof.
  revert w. induction managers as [| m rest IH]; intros w;
    cbn [Eff.forEach]; [reflexivity |].
  unfold attachManager at 1, ctrlScriptStart. eff_run.
  destruct (ctrl_start env "addManager" (addManagerArgs m) w) as [[v | e] w1];
    eff_run; [| reflexivity].
  specialize (IH w1). unfold Eff.events in IH.
  destruct (Eff.forEach rest (attachManager env) w1) as [[r w2] t2].
  cbn [snd] in IH. rewrite app_nil_r. cbn [app]. trace_simpl. exact IH.
Qed.








End Registration.

(** ** The properties at work on the stub collaborators *)






(** C7 at work: with pages of two entries the remote answers two full
    pages and a short one; three requests are made and the fourth page is
    never asked for.  The first request is made because the limit is at
    least 1, the second because the first page came in full. *)
Lemma listOrganizationRepositories_pagination_witness :
  let env := Sim.env [] [] in
  let pagesOfTwo :=
    {| AddOnHandler.type := None; AddOnHandler.sort := None;
       AddOnHandler.direction := None; AddOnHandler.perPage := Some 2%Z;
       AddOnHandler.maxPages := None |} in
  let run :=
    AddOnHandler.listOrganizationRepositories env "winccoa" pagesOfTwo
      Sim.world0 in
  Trace.allCallsSucceeded (Eff.events run) = true
  /\ map (fun x => q_page (fst x)) (Trace.pageRequests (Eff.events run))
     = [1%Z; 2%Z; 3%Z]
  /\ Eff.outcome run
     = Returned (Some (map AddOnHandler.summarize
                         (map Sim.repoNamed ["a"; "b"; "c"; "d"; "e"])))
  /\ (exists answer rest,
        Trace.pageRequests (Eff.events run)
        = ({| q_org := "winccoa"; q_type := "all"; q_sort := "updated";
              q_direction := "desc"; q_per_page := 2; q_page := 1 |}, answer)
            :: rest)
  /\ (1 < length (Trace.pageRequests (Eff.events run)))%nat.
Proof.
  cbv zeta.
  set (options := {| AddOnHandler.type := None; AddOnHandler.sort := None;
                     AddOnHandler.direction := None;
                     AddOnHandler.perPage := Some 2%Z;
                     AddOnHandler.maxPages := None |}).
  assert (Hok : Trace.allCallsSucceeded
                  (Eff.events
                     (AddOnHandler.listOrganizationRepositories (Sim.env [] [])
                        "winccoa" options Sim.world0)) = true)
    by (vm_compute; reflexivity).
  destruct (listOrganizationRepositories_pagination (Sim.env [] []) "winccoa"
              options Sim.world0)
    as [Hpages [_ [_ [_ [_ [_ [Hret [_ [_ [Hfirst Hnext]]]]]]]]]].
  split; [exact Hok |]. split; [| split; [| split]].
  - rewrite Hpages. vm_compute. reflexivity.
  - rewrite (Hret Hok). vm_compute. reflexivity.
  - apply Hfirst. vm_compute. discriminate.
  - apply (Hnext 0%nat
             {| q_org := "winccoa"; q_type := "all"; q_sort := "updated";
                q_direction := "desc"; q_per_page := 2; q_page := 1 |}
             [Sim.repoNamed "a"; Sim.repoNamed "b"]);
      [vm_compute; reflexivity | reflexivity | vm_compute; reflexivity].
Defined.

(** C8 at work: a fresh clone whose manifest does not parse is returned
    all the same, with no manifest content. *)
Lemma manifest_probe_never_fails_witness :
  let env := Sim.env [] [] in
  let run :=
    AddOnHandler.cloneRepository NodePath.posix env "/opt/projects"
      "https://example/org/demo.git" None None Sim.world0 in
  Trace.allCallsSucceeded (Eff.events run) = true
  /\ fs_readFileSync env (Eff.finalWorld run)
       "/opt/projects/demo/package.winccoa.json" = Returned "{ not json"
  /\ Eff.outcome run
     = Returned {| AddOnHandler.path := "/opt/projects/demo";
                   AddOnHandler.fileContent := None |}.
Proof.
  cbv zeta.
  assert (Hok : Trace.allCallsSucceeded
                  (Eff.events
                     (AddOnHandler.cloneRepository NodePath.posix
                        (Sim.env [] [])
                        "/opt/projects" "https://example/org/demo.git" None None
                        Sim.world0)) = true)
    by (vm_compute; reflexivity).
  split; [exact Hok |]. split; [vm_compute; reflexivity |].
  destruct (manifest_probe_never_fails NodePath.posix (Sim.env [] [])
              "/opt/projects" "https://example/org/demo.git" None None
              "/opt/projects/demo" Sim.world0)
    as [_ [_ [_ [_ [_ Hsync]]]]].
  destruct (Hsync Hok) as [content [Hout Hprobe]].
  rewrite Hout. vm_compute in Hprobe. inversion Hprobe. vm_compute. reflexivity.
Defined.

(** C9 at work: a command that fails with exit code 1 in the stub world. *)
Lemma execute_resolves_when_exec_calls_back_witness :
  let env := Sim.env ["/broken"] [] in
  exists result,
    CommandExecutor.execute env "npm install" (Some "/broken") Sim.world0
    = (Returned result, Sim.world0,
       [Exec "npm install" (Some "/broken")
          (Returned (Sim.failed "npm install"))])
    /\ exitCode result = Js.CodeNumber 1
    /\ message result = "Command failed: npm install".
Proof.
  cbv zeta.
  destruct (proj1 (execute_resolves_when_exec_calls_back
                     (Sim.env ["/broken"] []) "npm install" (Some "/broken")
                     Sim.world0)
              (Sim.failed "npm install") eq_refl)
    as [result [Hrun [_ [_ Herr]]]].
  exists result. split; [exact Hrun |].
  destruct (Herr _ eq_refl) as [Hmsg Hcode].
  split; [exact Hcode | exact Hmsg].
Defined.

(** C3 at work: the import command ends with the exit code 55, and the
    import answers [true] and prints the warning. *)
Lemma import_decides_in_three_tiers_witness :
  let env := Sim.envOf (fun _ _ w => (Returned Bench.warned, w)) (Sim.ctrl []) in
  let result := CommandExecutor.resultOf "ascii" None Bench.warned in
  Js.truthy (Js.trim "ascii") = true
  /\ exitCode result = Js.CodeNumber 55
  /\ AsciiManager.import env (Eff.ret "ascii") "a.dpl" true Sim.world0
     = (Returned true, Sim.world0,
        [Exec "ascii" None (Returned Bench.warned);
         Console WarnLevel
           ("[AsciiManager.import] Import completed with warnings."
              ++ AsciiManager.newline ++ AsciiManager.logDetails result)]).
Proof.
  cbv zeta.
  assert (Htrim : Js.truthy (Js.trim "ascii") = true) by reflexivity.
  assert (Hcode : exitCode (CommandExecutor.resultOf "ascii" None Bench.warned)
                  = Js.CodeNumber 55) by reflexivity.
  split; [exact Htrim |]. split; [exact Hcode |].
  exact (proj1 (proj2 (proj2 (proj2 (proj2 (proj2 (proj2
           (import_decides_in_three_tiers
              (Sim.envOf (fun _ _ w => (Returned Bench.warned, w))
                 (Sim.ctrl []))
              (Eff.ret "ascii") "a.dpl" true Sim.world0 Sim.world0 Sim.world0
              [] "ascii" Bench.warned eq_refl Htrim eq_refl)))))))
           Hcode).
Defined.

(** * Further properties *)

(** ** The search for package directories *)

Section PackageSearch.

Context {W : Type} (nodePath : NodePath.Api) (env : Collaborators W).

Lemma walkEntries_outcome (dir : string) (entries : list (Dirent * DirTree)) :
  Forall (fun x => forall d found (w : W),
              Reach.walkOutcome nodePath d (snd x) found w
                (NodeInstaller.walkPackageDirs nodePath d (snd x) found w))
    entries ->
  forall (acc : list string) (w : W),
    Reach.entriesOutcome nodePath dir entries acc w
      (NodeInstaller.walkEntries nodePath
         (NodeInstaller.walkPackageDirs nodePath) dir entries acc w).
Proof.
  induction 1 as [| entry rest Hentry _ IH]; intros acc w.
  - cbn. split; [reflexivity |]. split.
    + exists []. split; [now rewrite app_nil_r |].
      intros d. split; [intros [] | intros [entry [[] _]]].
    + intros entry e [[] _].
  - cbn [NodeInstaller.walkEntries].
    destruct (NodeInstaller.isWalkedDirectory (fst entry)) eqn:Hwalked.
    + unfold Eff.bind.
      specialize (Hentry (NodePath.join nodePath [dir; name (fst entry)])
                    acc w).
      destruct (NodeInstaller.walkPackageDirs nodePath
                  (NodePath.join nodePath [dir; name (fst entry)]) (snd entry)
                  acc w) as [[[acc1 | e] w1] t1].
      * destruct Hentry as [-> [[extra1 [-> Hextra1]] Hreadable1]].
        specialize (IH (acc ++ extra1)%list w).
        destruct (NodeInstaller.walkEntries nodePath
                    (NodeInstaller.walkPackageDirs nodePath) dir rest
                    (acc ++ extra1)%list w) as [[[result | e] w2] t2].
        -- destruct IH as [-> [[extra2 [-> Hextra2]] Hreadable2]].
           split; [reflexivity |]. split.
           ++ exists (extra1 ++ extra2)%list.
              split; [now rewrite app_assoc |].
              intros d. rewrite in_app_iff, Hextra1, Hextra2. split.
              ** intros [Hd | [x [Hin [Hw Hd]]]].
                 --- exists entry. repeat split; auto. now left.
                 --- exists x. repeat split; auto. now right.
              ** intros [x [[Hx | Hx] [Hw Hd]]].
                 --- subst x. now left.
                 --- right. exists x. repeat split; auto.
           ++ intros x e [[Hx | Hx] [Hw Hbad]].
              ** subst x. exact (Hreadable1 e Hbad).
              ** apply (Hreadable2 x e). repeat split; auto.
        -- destruct IH as [x [Hin [Hw Hbad]]].
           exists x. repeat split; auto. now right.
      * exists entry. repeat split; auto. now left.
    + specialize (IH acc w).
      destruct (NodeInstaller.walkEntries nodePath
                  (NodeInstaller.walkPackageDirs nodePath) dir rest acc w)
        as [[[result | e] w2] t2].
      * destruct IH as [-> [[extra [-> Hextra]] Hreadable]].
        split; [reflexivity |]. split.
        -- exists extra. split; [reflexivity |].
           intros d. rewrite Hextra. split.
           ++ intros [x [Hin [Hw Hd]]]. exists x. repeat split; auto.
              now right.
           ++ intros [x [[Hx | Hx] [Hw Hd]]].
              ** subst x. congruence.
              ** exists x. repeat split; auto.
        -- intros x e [[Hx | Hx] [Hw Hbad]].
           ++ subst x. congruence.
           ++ apply (Hreadable x e). repeat split; auto.
      * destruct IH as [x [Hin [Hw Hbad]]].
        exists x. repeat split; auto. now right.
Qed.

Lemma walkPackageDirs_outcome (tree : DirTree) :
  forall (dir : string) (found : list string) (w : W),
    Reach.walkOutcome nodePath dir tree found w
      (NodeInstaller.walkPackageDirs nodePath dir tree found w).
Proof.
  induction tree as [| e | entries IH] using DirTree_nested_ind;
    intros dir found w.
  - cbn. split; [reflexivity |]. split.
    + exists []. split; [now rewrite app_nil_r |].
      intros d. split; [intros [] | intros Hd; inversion Hd].
    + intros e He. inversion He.
  - cbn. constructor.
  - cbn [NodeInstaller.walkPackageDirs].
    pose proof (walkEntries_outcome dir entries IH) as Hloop.
    destruct (existsb NodeInstaller.isPackageJson entries) eqn:Hhere;
      eff_run.
    + specialize (Hloop (found ++ [dir])%list w).
      destruct (NodeInstaller.walkEntries nodePath
                  (NodeInstaller.walkPackageDirs nodePath) dir entries
                  (found ++ [dir])%list w) as [[[result | e] w1] t1].
      * destruct Hloop as [-> [[extra [-> Hextra]] Hreadable]].
        split; [reflexivity |]. split.
        -- exists (dir :: extra). split; [now rewrite <- app_assoc |].
           intros d. cbn [In]. rewrite Hextra. split.
           ++ intros [<- | [x [Hin [Hw Hd]]]].
              ** now constructor.
              ** now apply Reach.package_below with (entry := x).
           ++ intros Hd. inversion Hd; subst.
              ** now left.
              ** right. eexists. repeat split; eauto.
        -- intros e He. inversion He; subst.
           eapply Hreadable. repeat split; eauto.
      * destruct Hloop as [x [Hin [Hw Hbad]]].
        now apply Reach.unreadable_below with (entry := x).
    + specialize (Hloop found w).
      destruct (NodeInstaller.walkEntries nodePath
                  (NodeInstaller.walkPackageDirs nodePath) dir entries found w)
        as [[[result | e] w1] t1].
      * destruct Hloop as [-> [[extra [-> Hextra]] Hreadable]].
        split; [reflexivity |]. split.
        -- exists extra. split; [reflexivity |].
           intros d. rewrite Hextra. split.
           ++ intros [x [Hin [Hw Hd]]].
              now apply Reach.package_below with (entry := x).
           ++ intros Hd. inversion Hd; subst.
              ** congruence.
              ** eexists. repeat split; eauto.
        -- intros e He. inversion He; subst.
           eapply Hreadable. repeat split; eauto.
      * destruct Hloop as [x [Hin [Hw Hbad]]].
        now apply Reach.unreadable_below with (entry := x).
Qed.

(** X1 (NodeInstaller.findPackageDirs): when the search returns, the
    directories it returns are exactly those of the tree below [dir]
    that hold a [package.json] file and are reached from [dir] through
    directories other than [node_modules]; the world is as it was. *)
Theorem findPackageDirs_finds_the_reachable_packages :
  forall (dir : string) (w w1 : W) (result : list string) (t : list Event),
    NodeInstaller.findPackageDirs nodePath env dir w = (Returned result, w1, t) ->
    w1 = w
    /\ forall d,
        In d result
        <-> Reach.PackageAt nodePath dir (fs_readdirTree env w dir) d.
Proof.
  intros dir w w1 result t Hrun.
  unfold NodeInstaller.findPackageDirs in Hrun. eff_run_in Hrun.
  pose proof (walkPackageDirs_outcome (fs_readdirTree env w dir) dir [] w)
    as Hwalk.
  destruct (NodeInstaller.walkPackageDirs nodePath dir
              (fs_readdirTree env w dir) [] w) as [[[found | e] w2] t2];
    [| discriminate].
  destruct Hwalk as [Hworld [[extra [Hfound Hextra]] _]].
  inversion Hrun; subst. split; [reflexivity |].
  intros d.
  match goal with
  | |- context [fs_readdirTree env ?x dir] =>
      destruct (fs_readdirTree env x dir) as [| e | entries]
  end.
  - split; [intros [] | intros Hd; inversion Hd].
  - apply Hextra.
  - apply Hextra.
Qed.

(** X2 (NodeInstaller.findPackageDirs): the search rejects exactly when
    a directory that cannot be read is reached; the error is that of
    reading such a directory. *)
Theorem findPackageDirs_rejects_iff_unreadable :
  forall (dir : string) (w : W),
    let tree := fs_readdirTree env w dir in
    let run := NodeInstaller.findPackageDirs nodePath env dir w in
    (forall e, Eff.outcome run = Threw e -> Reach.UnreadableAt tree e)
    /\ ((exists e, Reach.UnreadableAt tree e)
        <-> exists e, Eff.outcome run = Threw e).
Proof.
  intros dir w tree run. subst run.
  unfold NodeInstaller.findPackageDirs. eff_run. fold tree.
  pose proof (walkPackageDirs_outcome tree dir [] w) as Hwalk.
  destruct (NodeInstaller.walkPackageDirs nodePath dir tree [] w)
    as [[[found | e] w2] t2]; cbn [fst snd].
  - destruct Hwalk as [_ [_ Hreadable]]. split.
    + intros e He. discriminate.
    + split.
      * intros [e He]. destruct (Hreadable e He).
      * intros [e He]. discriminate.
  - split.
    + intros e' He'. inversion He'; subst. exact Hwalk.
    + split; intros _; eauto.
Qed.

(** X3 (NodeInstaller.installAndBuild): a project whose [javascript]
    directory is missing, or holds no package that the search reaches,
    is built without running any command; the bootstrap then returns,
    unless the search met a directory it could not read. *)
Theorem installAndBuild_runs_nothing_without_packages :
  forall (projDir : string) (w : W),
    let dir := projDir ++ "/javascript" in
    let tree := fs_readdirTree env w dir in
    (forall d, ~ Reach.PackageAt nodePath dir tree d) ->
    let run := NodeInstaller.installAndBuild nodePath env projDir w in
    Trace.execCalls (Eff.events run) = []
    /\ Eff.finalWorld run = w
    /\ (Eff.outcome run = Returned tt
        \/ exists e, Eff.outcome run = Threw e /\ Reach.UnreadableAt tree e).
Proof.
  intros projDir w dir tree Hnone run. subst run tree dir.
  pose proof (findPackageDirs_quiet nodePath env (projDir ++ "/javascript") w)
    as [_ [Hexec Hworld]].
  unfold NodeInstaller.installAndBuild.
  unfold NodeInstaller.findPackageDirs in *.
  eff_run. eff_run_in Hexec. eff_run_in Hworld.
  remember (fs_readdirTree env w (projDir ++ "/javascript")) as tree
    eqn:Htree.
  pose proof (walkPackageDirs_outcome tree (projDir ++ "/javascript") [] w)
    as Hwalk.
  destruct (NodeInstaller.walkPackageDirs nodePath (projDir ++ "/javascript")
              tree [] w) as [[[found | e] w1] t1].
  - destruct Hwalk as [_ [[extra [Hfound Hextra]] _]].
    assert (Hempty : extra = []).
    { destruct extra as [| d extra]; [reflexivity |].
      destruct (Hnone d). apply Hextra. now left. }
    subst extra. cbn [app] in Hfound. subst found.
    assert (Hdirs : match tree with
                    | Missing => []
                    | _ => @nil string
                    end = []) by (destruct tree; reflexivity).
    rewrite Hdirs in *. cbn [Eff.forEach]. eff_run.
    rewrite !app_nil_r in *. repeat split; auto.
  - repeat split; auto.
    right. exists e. split; [reflexivity | exact Hwalk].
Qed.

End PackageSearch.

(** X1 at work: the two packages of the simulated project, and not their
    [node_modules]. *)
Lemma findPackageDirs_finds_the_reachable_packages_witness :
  let env := Sim.env [] [] in
  let dir := "/proj/addon/javascript" in
  Eff.outcome (NodeInstaller.findPackageDirs NodePath.posix env dir Sim.world0)
  = Returned ["/proj/addon/javascript/one"; "/proj/addon/javascript/two"]
  /\ Reach.PackageAt NodePath.posix dir (fs_readdirTree env Sim.world0 dir)
       "/proj/addon/javascript/two".
Proof.
  cbv zeta.
  set (env := Sim.env [] []).
  assert (Hfind :
    NodeInstaller.findPackageDirs NodePath.posix env "/proj/addon/javascript"
      Sim.world0
    = (Returned ["/proj/addon/javascript/one"; "/proj/addon/javascript/two"],
       Sim.world0,
       Eff.events (NodeInstaller.findPackageDirs NodePath.posix env
                     "/proj/addon/javascript" Sim.world0)))
    by (vm_compute; reflexivity).
  split; [now rewrite Hfind |].
  apply (proj2 (findPackageDirs_finds_the_reachable_packages NodePath.posix
                  env "/proj/addon/javascript" Sim.world0 Sim.world0 _ _
                  Hfind)).
  right. left. reflexivity.
Defined.

(** X2 at work: [node_modules] is not read, [src] is, and its error is
    the one the search rejects with. *)
Lemma findPackageDirs_rejects_iff_unreadable_witness :
  let env := Sim.env [] [] in
  let run :=
    NodeInstaller.findPackageDirs NodePath.posix env "/locked/javascript"
      Bench.lockedWorld in
  Eff.outcome run = Threw (Bench.denied "/locked/javascript/src")
  /\ Reach.UnreadableAt Bench.lockedTree
       (Bench.denied "/locked/javascript/src").
Proof.
  cbv zeta.
  assert (Hrun :
    Eff.outcome
      (NodeInstaller.findPackageDirs NodePath.posix (Sim.env [] [])
         "/locked/javascript" Bench.lockedWorld)
    = Threw (Bench.denied "/locked/javascript/src"))
    by (vm_compute; reflexivity).
  split; [exact Hrun |].
  exact (proj1 (findPackageDirs_rejects_iff_unreadable NodePath.posix
                  (Sim.env [] []) "/locked/javascript" Bench.lockedWorld)
           _ Hrun).
Defined.

(** X3 at work: a project directory without a [javascript] directory. *)
Lemma installAndBuild_runs_nothing_without_packages_witness :
  let env := Sim.env [] [] in
  let run :=
    NodeInstaller.installAndBuild NodePath.posix env "/existing/repo"
      Sim.world0 in
  fs_readdirTree env Sim.world0 ("/existing/repo" ++ "/javascript") = Missing
  /\ Trace.execCalls (Eff.events run) = []
  /\ Eff.finalWorld run = Sim.world0.
Proof.
  cbv zeta.
  set (env := Sim.env [] []).
  assert (Hmissing :
    fs_readdirTree env Sim.world0 ("/existing/repo" ++ "/javascript") = Missing)
    by reflexivity.
  split; [exact Hmissing |].
  assert (Hnone :
    forall d,
      ~ Reach.PackageAt NodePath.posix ("/existing/repo" ++ "/javascript")
          (fs_readdirTree env Sim.world0 ("/existing/repo" ++ "/javascript"))
          d).
  { intros d Hd. rewrite Hmissing in Hd. inversion Hd. }
  destruct (installAndBuild_runs_nothing_without_packages NodePath.posix env
              "/existing/repo" Sim.world0 Hnone) as [Hexec [Hworld _]].
  split; [exact Hexec | exact Hworld].
Defined.

(** ** Commands and imports *)

Section Commands.

Context {W : Type} (env : Collaborators W).

(** X4 (NodeInstaller.runCommand with CommandExecutor.execute): a
    command is done exactly when [exec] calls back without an error
    object, or with one whose code is the number 0 or that has no code.
    With any other code (another number, the name of a system error,
    null for a process that a signal ended) the error thrown names the
    command, the code and what was written to the error stream.  When
    [exec] throws at once, that error leaves [runCommand].  One call of
    [exec] is made, with the command line and the directory given. *)
Theorem runCommand_returns_iff_exit_code_zero :
  forall (cmd : string) (args : list string) (dir : string) (w : W),
    let line := NodeInstaller.commandLine cmd args in
    let answer := fst (child_exec env line (Some dir) w) in
    let run := NodeInstaller.runCommand env cmd args dir w in
    (Eff.outcome run = Returned tt
     <-> exists cb,
           answer = Returned cb
           /\ forall err,
                cbErr cb = Some err ->
                exCode err = Js.CodeNumber 0 \/ exCode err = Js.CodeMissing)
    /\ (forall cb err,
          answer = Returned cb ->
          cbErr cb = Some err ->
          exCode err <> Js.CodeNumber 0 ->
          exCode err <> Js.CodeMissing ->
          Eff.outcome run
          = Threw
              (Js.newError
                 (cmd ++ " " ++ Js.join " " args ++ " failed with code "
                    ++ Js.codeToString (exCode err) ++ AsciiManager.newline
                    ++ Js.orElse (cbStderr cb) "")))
    /\ (forall e, answer = Threw e -> Eff.outcome run = Threw e)
    /\ Trace.execCalls (Eff.events run) = [(line, Some dir)].
Proof.
  intros cmd args dir w line answer run. subst run answer.
  unfold NodeInstaller.runCommand, CommandExecutor.execute. eff_run.
  fold line.
  destruct (child_exec env line (Some dir) w) as [[cb | e] w1]; cbn [fst];
    eff_run.
  2:{ split; [| split; [| split; [| reflexivity]]].
      - split; [discriminate | intros [cb [H _]]; discriminate].
      - intros cb err H. discriminate.
      - intros e' [= <-]. reflexivity. }
  unfold CommandExecutor.resultOf. cbn [exitCode stderr].
  destruct (cbErr cb) as [err |] eqn:Herr.
  - destruct (exCode err) as [code | name | |] eqn:Hex; cbn [Js.isZero negb].
    + destruct (Z.eqb_spec code 0) as [Hcode | Hcode]; cbn [negb]; eff_run;
        (split; [| split; [| split; [| reflexivity]]]);
        try (intros e' H; discriminate).
      * split; [| reflexivity]. intros _. exists cb. split; [reflexivity |].
        intros err' H. rewrite Herr in H. injection H as <-.
        left. now rewrite Hex, Hcode.
      * intros cb' err' [= <-] H1 Hne _. rewrite Herr in H1.
        injection H1 as <-. rewrite Hex in Hne. congruence.
      * split; [discriminate |]. intros [cb' [[= <-] Hzero]].
        destruct (Hzero err Herr) as [H | H]; rewrite Hex in H; congruence.
      * intros cb' err' [= <-] H1 _ _. rewrite Herr in H1.
        injection H1 as <-. now rewrite Hex.
    + eff_run. split; [| split; [| split; [| reflexivity]]];
        try (intros e' H; discriminate).
      * split; [discriminate |]. intros [cb' [[= <-] Hzero]].
        destruct (Hzero err Herr) as [H | H]; rewrite Hex in H; discriminate.
      * intros cb' err' [= <-] H1 _ _. rewrite Herr in H1.
        injection H1 as <-. now rewrite Hex.
    + eff_run. split; [| split; [| split; [| reflexivity]]];
        try (intros e' H; discriminate).
      * split; [discriminate |]. intros [cb' [[= <-] Hzero]].
        destruct (Hzero err Herr) as [H | H]; rewrite Hex in H; discriminate.
      * intros cb' err' [= <-] H1 _ _. rewrite Herr in H1.
        injection H1 as <-. now rewrite Hex.
    + cbn [Z.eqb negb]. eff_run.
      split; [| split; [| split; [| reflexivity]]];
        try (intros e' H; discriminate).
      * split; [| reflexivity]. intros _. exists cb. split; [reflexivity |].
        intros err' H. rewrite Herr in H. injection H as <-.
        right. exact Hex.
      * intros cb' err' [= <-] H1 _ Hne. rewrite Herr in H1.
        injection H1 as <-. congruence.
  - cbn [Js.isZero Z.eqb negb]. eff_run.
    split; [| split; [| split; [| reflexivity]]];
      try (intros e' H; discriminate).
    + split; [| reflexivity]. intros _. exists cb. split; [reflexivity |].
      intros err' H. rewrite Herr in H. discriminate.
    + intros cb' err' [= <-] H1. rewrite Herr in H1. discriminate.
Qed.

(** X5 (AsciiManager.import): an import never rejects, whatever the
    preparation of its command does.  When the preparation throws, or
    gives a blank command, the answer is [false] and no command is run
    beyond those of the preparation. *)
Theorem import_never_rejects :
  forall (prepare : Eff.M W string) (fileName : string) (logWarnings : bool)
    (w : W),
    let run := AsciiManager.import env prepare fileName logWarnings w in
    (exists imported, Eff.outcome run = Returned imported)
    /\ (forall e w1 t1,
          prepare w = (Threw e, w1, t1) ->
          Eff.outcome run = Returned false
          /\ Eff.finalWorld run = w1
          /\ Trace.execCalls (Eff.events run) = Trace.execCalls t1)
    /\ (forall cmd w1 t1,
          prepare w = (Returned cmd, w1, t1) ->
          Js.truthy (Js.trim cmd) = false ->
          Eff.outcome run = Returned false
          /\ Eff.finalWorld run = w1
          /\ Trace.execCalls (Eff.events run) = Trace.execCalls t1).
Proof.
  intros prepare fileName logWarnings w run. subst run.
  unfold AsciiManager.import, CommandExecutor.execute. eff_run.
  destruct (prepare w) as [[[cmd | e] w1] t1]; eff_run.
  - destruct (Js.truthy (Js.trim cmd)) eqn:Hblank; eff_run.
    + destruct (child_exec env cmd None w1) as [[cb | e] w2]; eff_run.
      * set (code := Js.toNumber (Number_ofString env)
                       (exitCode (CommandExecutor.resultOf cmd None cb))).
        split; [| split; [discriminate |]].
        -- destruct (Js.includesNumber AsciiManager.SUCCESS_EXIT_CODES code);
             [eexists; reflexivity |].
           destruct (Js.includesNumber AsciiManager.WARNING_EXIT_CODES code);
             [| eexists; reflexivity].
           destruct logWarnings; eexists; reflexivity.
        -- intros cmd' w1' t1' Heq Hb. inversion Heq; subst. congruence.
      * split; [eexists; reflexivity |]. split; [discriminate |].
        intros cmd' w1' t1' Heq Hb. inversion Heq; subst. congruence.
    + split; [eexists; reflexivity |]. split; [discriminate |].
      intros cmd' w1' t1' Heq _. inversion Heq; subst.
      split; [reflexivity |]. split; [reflexivity |].
      rewrite execCalls_app. cbn. now rewrite app_nil_r.
  - split; [eexists; reflexivity |]. split; [| discriminate].
    intros e' w1' t1' Heq. inversion Heq; subst.
    split; [reflexivity |]. split; [reflexivity |].
    rewrite execCalls_app. cbn. now rewrite app_nil_r.
Qed.

(** X6 (AsciiManager.import): what an import prints depends on the tier
    of the exit code, read as a number, only: nothing for a success
    code; for a warning code one warning when warnings are logged and
    nothing otherwise; one error for every other code.  When [exec]
    throws at once, the one line printed names the file and the error.
    The command prepared is the one command handed to [exec], without a
    working directory. *)
Theorem import_prints_by_tier :
  forall (prepare : Eff.M W string) (fileName : string) (logWarnings : bool)
    (w w1 : W) (t1 : list Event) (cmd : string),
    prepare w = (Returned cmd, w1, t1) ->
    Js.truthy (Js.trim cmd) = true ->
    let run := AsciiManager.import env prepare fileName logWarnings w in
    let printed :=
      match fst (child_exec env cmd None w1) with
      | Returned cb =>
          let result := CommandExecutor.resultOf cmd None cb in
          match Spec.classify
                  (Js.toNumber (Number_ofString env) (exitCode result))
                  AsciiManager.SUCCESS_EXIT_CODES
                  AsciiManager.WARNING_EXIT_CODES with
          | Spec.Success => []
          | Spec.Warning =>
              if logWarnings then
                ["[AsciiManager.import] Import completed with warnings."
                   ++ AsciiManager.newline ++ AsciiManager.logDetails result]
              else []
          | Spec.Error =>
              ["[AsciiManager.import] Import failed."
                 ++ AsciiManager.newline ++ AsciiManager.logDetails result]
          end
      | Threw e =>
          ["[AsciiManager.import] Exception during import of "
             ++ AsciiManager.dquote ++ fileName ++ AsciiManager.dquote
             ++ ": " ++ Js.message e]
      end in
    Trace.execCalls (Eff.events run)
    = (Trace.execCalls t1 ++ [(cmd, None)])%list
    /\ Trace.consoleLines (Eff.events run)
       = (Trace.consoleLines t1 ++ printed)%list.
Proof.
  intros prepare fileName logWarnings w w1 t1 cmd Hprep Htrim run printed.
  subst printed run.
  unfold AsciiManager.import, Spec.classify, CommandExecutor.execute.
  eff_run. rewrite Hprep. eff_run. rewrite Htrim. eff_run.
  destruct (child_exec env cmd None w1) as [[cb | e] w2]; eff_run.
  2:{ rewrite !execCalls_app, !consoleLines_app. cbn.
      rewrite !app_nil_r. split; reflexivity. }
  set (result := CommandExecutor.resultOf cmd None cb).
  set (code := Js.toNumber (Number_ofString env) (exitCode result)).
  destruct (Js.includesNumber AsciiManager.SUCCESS_EXIT_CODES code).
  { rewrite execCalls_app, consoleLines_app. split; reflexivity. }
  destruct (Js.includesNumber AsciiManager.WARNING_EXIT_CODES code).
  { destruct logWarnings; eff_run;
      rewrite execCalls_app, consoleLines_app; split; reflexivity. }
  eff_run. rewrite execCalls_app, consoleLines_app. split; reflexivity.
Qed.

End Commands.

(** X4 at work: a command whose process a signal ended. *)
Lemma runCommand_returns_iff_exit_code_zero_witness :
  let env :=
    Sim.envOf (fun cmd _ w => (Returned (Sim.killed cmd), w)) (Sim.ctrl []) in
  let run := NodeInstaller.runCommand env "npm" ["install"] "/proj" Sim.world0 in
  fst (child_exec env "npm install" (Some "/proj") Sim.world0)
  = Returned (Sim.killed "npm install")
  /\ Eff.outcome run
     = Threw (Js.newError
                ("npm install failed with code null" ++ AsciiManager.newline)).
Proof.
  cbv zeta.
  set (env := Sim.envOf (fun cmd _ w => (Returned (Sim.killed cmd), w))
                (Sim.ctrl [])).
  assert (Hanswer :
    fst (child_exec env "npm install" (Some "/proj") Sim.world0)
    = Returned (Sim.killed "npm install")) by reflexivity.
  split; [exact Hanswer |].
  exact (proj1 (proj2 (runCommand_returns_iff_exit_code_zero env "npm"
                         ["install"] "/proj" Sim.world0))
           _ _ Hanswer eq_refl ltac:(discriminate) ltac:(discriminate)).
Defined.

(** X6 at work: an import that ends with the warning code 55 prints its
    one warning when asked to, and is an import done. *)
Lemma import_prints_by_tier_witness :
  let env := Sim.envOf (fun _ _ w => (Returned Bench.warned, w)) (Sim.ctrl []) in
  let run :=
    AsciiManager.import env (Eff.ret "ascii -in list.dpl") "list.dpl" true
      Sim.world0 in
  Js.truthy (Js.trim "ascii -in list.dpl") = true
  /\ Eff.outcome run = Returned true
  /\ length (Trace.consoleLines (Eff.events run)) = 1%nat
  /\ Trace.execCalls (Eff.events run) = [("ascii -in list.dpl", None)].
Proof.
  cbv zeta.
  set (env := Sim.envOf (fun _ _ w => (Returned Bench.warned, w)) (Sim.ctrl [])).
  assert (Htrim : Js.truthy (Js.trim "ascii -in list.dpl") = true)
    by reflexivity.
  pose proof (import_prints_by_tier env (Eff.ret "ascii -in list.dpl")
                "list.dpl" true Sim.world0 Sim.world0 []
                "ascii -in list.dpl" eq_refl Htrim) as [Hexec Hlines].
  split; [exact Htrim |]. split; [reflexivity |].
  split; [rewrite Hlines; reflexivity | exact Hexec].
Defined.

(** ** Cloning *)

Section CloneErrors.

Context {W : Type} (nodePath : NodePath.Api) (env : Collaborators W)
  (_defaultDirectory : string).

(** What a [try] block rejects with comes out of its handler. *)
Lemma tryCatch_threw {A : Type} (m : Eff.M W A) (handler : Js.Error -> Eff.M W A)
  (w : W) (e : Js.Error) :
  Eff.outcome (Eff.tryCatch m handler w) = Threw e ->
  exists e0 w1 t1,
    m w = (Threw e0, w1, t1) /\ Eff.outcome (handler e0 w1) = Threw e.
Proof.
  unfold Eff.tryCatch, Eff.outcome.
  destruct (m w) as [[[a | e0] w1] t1]; cbn [fst]; [discriminate |].
  intros Hthrew. exists e0, w1, t1. split; [reflexivity |].
  destruct (handler e0 w1) as [[r w2] t2]. exact Hthrew.
Qed.

Lemma cloneFailure_message (url : string) (hint : option string)
  (cause e : Js.Error) (w : W) :
  Eff.outcome (AddOnHandler.cloneFailure env url hint cause w) = Threw e ->
  Reach.cloneErrorMessage url (Js.message e) /\ Js.status e = None.
Proof.
  unfold AddOnHandler.cloneFailure, Reach.cloneErrorMessage.
  repeat match goal with
         | |- context [if ?c then _ else _] => destruct c
         end; eff_run; intros Heq; inversion Heq; subst; cbn;
    (split; [| reflexivity]); eauto 6.
Qed.

(** X7 (AddOnHandler.cloneRepository): every error a clone rejects with
    is one the function made itself: its message has one of the four
    forms of the [catch] block, and it carries no status. *)
Theorem cloneRepository_rejects_with_its_own_errors :
  forall (url : string) (hint branch : option string) (w : W) (e : Js.Error),
    Eff.outcome
      (AddOnHandler.cloneRepository nodePath env _defaultDirectory url hint
         branch w) = Threw e ->
    Reach.cloneErrorMessage url (Js.message e) /\ Js.status e = None.
Proof.
  intros url hint branch w e Hthrew.
  unfold AddOnHandler.cloneRepository in Hthrew.
  apply tryCatch_threw in Hthrew.
  destruct Hthrew as [cause [w1 [t1 [_ Hhandler]]]].
  exact (cloneFailure_message url hint cause e w1 Hhandler).
Qed.

(** X8 (AddOnHandler.cloneRepository): an empty target directory is an
    absent one, and an empty branch is an absent one: the runs are the
    same, event by event. *)
Theorem cloneRepository_empty_arguments_are_absent :
  forall (url : string) (hint branch : option string) (w : W),
    AddOnHandler.cloneRepository nodePath env _defaultDirectory url (Some "")
      branch w
    = AddOnHandler.cloneRepository nodePath env _defaultDirectory url None
        branch w
    /\ AddOnHandler.cloneRepository nodePath env _defaultDirectory url hint
         (Some "") w
       = AddOnHandler.cloneRepository nodePath env _defaultDirectory url hint
           None w.
Proof.
  intros url hint branch w. split; reflexivity.
Qed.

Lemma digits_slashFree (d : Decimal.uint) :
  Spec.slashFree (NilEmpty.string_of_uint d) = true.
Proof.
  induction d; cbn; auto.
Qed.

Lemma numberToString_slashFree (n : Z) :
  Spec.slashFree (Js.numberToString n) = true.
Proof.
  unfold Js.numberToString, NilZero.string_of_int, NilZero.string_of_uint.
  destruct (Z.to_int n) as [d | d]; destruct d;
    try reflexivity; cbn -[NilEmpty.string_of_uint];
    apply digits_slashFree.
Qed.

Lemma stripDotGit_slashFree (seg : string) :
  Spec.slashFree seg = true -> Spec.slashFree (Spec.stripDotGit seg) = true.
Proof.
  induction seg as [| c rest IH]; [reflexivity |].
  intros Hfree.
  destruct (String.eqb_spec (String c rest) ".git") as [Hgit | Hgit].
  - rewrite Hgit. reflexivity.
  - rewrite (stripDotGit_unfold c rest Hgit).
    cbn [Spec.slashFree] in *. apply andb_true_iff in Hfree.
    destruct Hfree as [Hc Hrest]. rewrite Hc. cbn. now apply IH.
Qed.

(** X9 (AddOnHandler.extractRepoNameFromUrl): the name is never empty
    and holds no slash, so that it names one directory. *)
Theorem extractRepoNameFromUrl_is_one_segment :
  forall (url : string) (w : W),
    AddOnHandler.extractRepoNameFromUrl env url w <> ""
    /\ Spec.slashFree (AddOnHandler.extractRepoNameFromUrl env url w) = true.
Proof.
  intros url w.
  assert (Hfallback :
    AddOnHandler.fallbackName env w <> ""
    /\ Spec.slashFree (AddOnHandler.fallbackName env w) = true).
  { unfold AddOnHandler.fallbackName. split; [discriminate |].
    cbn. apply numberToString_slashFree. }
  unfold AddOnHandler.extractRepoNameFromUrl.
  rewrite repoNameMatch_lastSegment.
  destruct (Spec.lastSegment url) as [seg |] eqn:Hlast; [| exact Hfallback].
  pose proof (lastSegment_slashFree url seg Hlast) as Hfree.
  rewrite (matchAfterSlash_slashFree seg Hfree).
  destruct (String.eqb_spec seg "") as [Hempty | Hempty]; [exact Hfallback |].
  destruct (String.eqb_spec seg ".git") as [Hgit | Hgit].
  - cbn. split; [discriminate | reflexivity].
  - destruct seg as [| c rest]; [congruence |].
    rewrite (stripDotGit_unfold c rest Hgit).
    unfold Js.truthy. cbn [String.eqb negb].
    split; [discriminate |].
    rewrite <- (stripDotGit_unfold c rest Hgit).
    now apply stripDotGit_slashFree.
Qed.

End CloneErrors.

(** X7 at work: git refuses to clone onto a directory that exists, and
    the clone rejects with the second of the four forms. *)
Lemma cloneRepository_rejects_with_its_own_errors_witness :
  let run :=
    AddOnHandler.cloneRepository NodePath.posix (Sim.env [] []) "/opt/projects"
      "https://example/org/demo.git" (Some "/existing/plainDir/..") None
      Sim.world0 in
  Eff.outcome run
  = Threw (Js.newError "Directory '/existing/plainDir/..' already exists")
  /\ Reach.cloneErrorMessage "https://example/org/demo.git"
       "Directory '/existing/plainDir/..' already exists".
Proof.
  cbv zeta.
  assert (Hrun :
    Eff.outcome
      (AddOnHandler.cloneRepository NodePath.posix (Sim.env [] [])
         "/opt/projects" "https://example/org/demo.git"
         (Some "/existing/plainDir/..") None Sim.world0)
    = Threw (Js.newError "Directory '/existing/plainDir/..' already exists"))
    by (vm_compute; reflexivity).
  split; [exact Hrun |].
  exact (proj1 (cloneRepository_rejects_with_its_own_errors NodePath.posix
                  (Sim.env [] []) "/opt/projects"
                  "https://example/org/demo.git"
                  (Some "/existing/plainDir/..") None Sim.world0 _ Hrun)).
Defined.

(** ** Listing repositories *)

Section Listing.

Context {W : Type} (env : Collaborators W).

(** The requests of the loop: each carries the options of the call, and
    the loop rejects exactly when a request does, with that error. *)
Lemma pageLoop_requests (org type sort direction : string)
  (pageSize limit : Z) :
  forall (fuel : nat) (hasMore : bool) (page : Z)
    (all : list AddOnHandler.RepoSummary) (w : W),
    let run := AddOnHandler.pageLoop env fuel org type sort direction pageSize
                 limit hasMore page all w in
    let requests := Trace.pageRequests (Eff.events run) in
    Forall (fun x => q_type (fst x) = type /\ q_sort (fst x) = sort
                     /\ q_direction (fst x) = direction) requests
    /\ (forall e, Eff.outcome run = Threw e ->
          exists request, In (request, Threw e) requests)
    /\ (forall request e,
          In (request, Threw e) requests -> Eff.outcome run = Threw e).
Proof.
  induction fuel as [| fuel IH]; intros hasMore page all w.
  - cbn [AddOnHandler.pageLoop].
    destruct (hasMore && (page <=? limit)%Z); cbn;
      (split; [constructor |]); (split; [discriminate | intros ? ? []]).
  - destruct (hasMore && (page <=? limit)%Z) eqn:Hcond.
    + apply andb_true_iff in Hcond. destruct Hcond as [-> Hpage].
      apply Z.leb_le in Hpage.
      rewrite (pageLoop_step env fuel org type sort direction pageSize limit
                 page all w Hpage).
      cbv zeta.
      set (request := {| q_org := org; q_type := type; q_sort := sort;
                         q_direction := direction; q_per_page := pageSize;
                         q_page := page |}).
      destruct (octokit_listForOrg env request w) as [[data | e] w1].
      * specialize (IH (Z.of_nat (length data) =? pageSize)%Z (page + 1)%Z
                      (all ++ map AddOnHandler.summarize data)%list w1).
        cbv zeta in IH.
        destruct (AddOnHandler.pageLoop env fuel org type sort direction
                    pageSize limit (Z.of_nat (length data) =? pageSize)%Z
                    (page + 1)%Z
                    (all ++ map AddOnHandler.summarize data)%list w1)
          as [[o w2] t].
        unfold Eff.events, Eff.outcome in *. cbn [fst snd] in *.
        trace_simpl.
        destruct IH as [Hoptions [Hthrew Hin]].
        split; [constructor; [now cbn | exact Hoptions] |]. split.
        -- intros e He. destruct (Hthrew e He) as [q Hq].
           exists q. now right.
        -- intros q e [Hq | Hq]; [discriminate | now apply (Hin q)].
      * unfold Eff.events, Eff.outcome. cbn [fst snd]. trace_simpl.
        split; [constructor; [now cbn | constructor] |]. split.
        -- intros e' He'. inversion He'; subst. exists request. now left.
        -- intros q e' [Hq | []]. now inversion Hq.
    + rewrite (pageLoop_done env (S fuel) org type sort direction pageSize
                 limit hasMore page all w Hcond).
      cbn. split; [constructor |]. split; [discriminate | intros ? ? []].
Qed.

(** A call is its loop, with the error of the loop replaced. *)
Lemma listOrganizationRepositories_loop (org : string)
  (options : AddOnHandler.ListOptions) (w : W) :
  let pageSize := AddOnHandler.orDefault (AddOnHandler.perPage options) 100%Z in
  let limit := AddOnHandler.orDefault (AddOnHandler.maxPages options) 10%Z in
  let loop :=
    AddOnHandler.pageLoop env (Z.to_nat limit) org
      (AddOnHandler.orDefault (AddOnHandler.type options) "all")
      (AddOnHandler.orDefault (AddOnHandler.sort options) "updated")
      (AddOnHandler.orDefault (AddOnHandler.direction options) "desc")
      pageSize limit true 1%Z [] w in
  let run := AddOnHandler.listOrganizationRepositories env org options w in
  Trace.pageRequests (Eff.events run) = Trace.pageRequests (Eff.events loop)
  /\ Eff.finalWorld run = Eff.finalWorld loop
  /\ Eff.outcome run
     = match Eff.outcome loop with
       | Returned result => Returned result
       | Threw e => Threw (Js.newError (Reach.listErrorMessage org e))
       end.
Proof.
  intros pageSize limit loop run. subst run loop.
  unfold AddOnHandler.listOrganizationRepositories. fold pageSize limit.
  eff_run.
  destruct (AddOnHandler.pageLoop env (Z.to_nat limit) org
              (AddOnHandler.orDefault (AddOnHandler.type options) "all")
              (AddOnHandler.orDefault (AddOnHandler.sort options) "updated")
              (AddOnHandler.orDefault (AddOnHandler.direction options) "desc")
              pageSize limit true 1%Z [] w) as [[[[allRepos |] | e] w1] t];
    eff_run.
  - rewrite app_nil_r. cbn [app]. trace_simpl.
    rewrite pageRequests_app. trace_simpl. rewrite app_nil_r.
    repeat split.
  - rewrite !app_nil_r. cbn [app]. trace_simpl. repeat split.
  - unfold AddOnHandler.listFailure, Reach.listErrorMessage.
    destruct (AddOnHandler.statusIs e 404);
      [| destruct (AddOnHandler.statusIs e 403)];
      eff_run; rewrite !app_nil_r; cbn [app]; trace_simpl; repeat split.
Qed.

(** X10 (AddOnHandler.listOrganizationRepositories): a call rejects
    exactly when one of its page requests was refused; nothing of the
    pages already fetched is returned, and the message is chosen by the
    status of the refusal: 404, 403, or any other. *)
Theorem listOrganizationRepositories_rejects_with_the_refusal :
  forall (org : string) (options : AddOnHandler.ListOptions) (w : W),
    let run := AddOnHandler.listOrganizationRepositories env org options w in
    let requests := Trace.pageRequests (Eff.events run) in
    (forall request refusal,
        In (request, Threw refusal) requests ->
        Eff.outcome run
        = Threw (Js.newError (Reach.listErrorMessage org refusal)))
    /\ (forall e,
          Eff.outcome run = Threw e ->
          exists request refusal,
            In (request, Threw refusal) requests
            /\ e = Js.newError (Reach.listErrorMessage org refusal)).
Proof.
  intros org options w run requests. subst requests run.
  destruct (listOrganizationRepositories_loop org options w)
    as [Hrequests [_ Houtcome]].
  rewrite Hrequests, Houtcome.
  match goal with
  | |- context [Eff.outcome ?l] =>
      match l with
      | AddOnHandler.pageLoop env ?f ?o ?ty ?so ?di ?ps ?li ?h ?p ?a ?w0 =>
          destruct (pageLoop_requests o ty so di ps li f h p a w0)
            as [_ [Hthrew Hin]];
          set (loop := l) in *
      end
  end.
  split.
  - intros request refusal Hreq. now rewrite (Hin request refusal Hreq).
  - intros e He. destruct (Eff.outcome loop) as [r | refusal] eqn:Hloop;
      [discriminate |].
    destruct (Hthrew refusal eq_refl) as [request Hreq].
    exists request, refusal. split; [exact Hreq | congruence].
Qed.

(** X11 (AddOnHandler.listOrganizationRepositories): every page request
    of a call carries the repository type, the sort key and the
    direction of the options, or [all], [updated] and [desc] where the
    options leave them out. *)
Theorem listOrganizationRepositories_requests_carry_the_options :
  forall (org : string) (options : AddOnHandler.ListOptions) (w : W),
    let run := AddOnHandler.listOrganizationRepositories env org options w in
    Forall (fun x =>
              q_type (fst x)
              = AddOnHandler.orDefault (AddOnHandler.type options) "all"
              /\ q_sort (fst x)
                 = AddOnHandler.orDefault (AddOnHandler.sort options) "updated"
              /\ q_direction (fst x)
                 = AddOnHandler.orDefault (AddOnHandler.direction options)
                     "desc")
      (Trace.pageRequests (Eff.events run)).
Proof.
  intros org options w run. subst run.
  destruct (listOrganizationRepositories_loop org options w)
    as [Hrequests _].
  rewrite Hrequests. apply pageLoop_requests.
Qed.

Lemma pagesOf_length (pageSize : Z)
  (requests : list (ListRequest * Outcome (list RawRepo))) :
  (forall request data,
      In (request, Returned data) requests ->
      (Z.of_nat (length data) <= pageSize)%Z) ->
  (Z.of_nat (length (Spec.pagesOf requests))
   <= Z.of_nat (length requests) * Z.max 0 pageSize)%Z.
Proof.
  induction requests as [| [request answer] rest IH]; intros Hsize.
  - cbn. lia.
  - unfold Spec.pagesOf in *. cbn [flat_map snd].
    rewrite length_app. cbn [length].
    assert (Hrest : (Z.of_nat (length (flat_map
                       (fun request0 =>
                          match snd request0 with
                          | Returned data => map AddOnHandler.summarize data
                          | Threw _ => []
                          end) rest))
                     <= Z.of_nat (length rest) * Z.max 0 pageSize)%Z).
    { apply IH. intros q data Hin. apply (Hsize q data). now right. }
    destruct answer as [data | e].
    + rewrite length_map.
      pose proof (Hsize request data (or_introl eq_refl)). lia.
    + cbn [length]. lia.
Qed.

(** X12 (AddOnHandler.listOrganizationRepositories): when no page the
    remote answers holds more repositories than were asked for, a call
    returns at most [maxPages] times [perPage] repositories. *)
Theorem listOrganizationRepositories_returns_a_bounded_list :
  forall (org : string) (options : AddOnHandler.ListOptions) (w : W)
    (repos : list AddOnHandler.RepoSummary),
    let pageSize := AddOnHandler.orDefault (AddOnHandler.perPage options) 100%Z in
    let limit := AddOnHandler.orDefault (AddOnHandler.maxPages options) 10%Z in
    let run := AddOnHandler.listOrganizationRepositories env org options w in
    (forall request data,
        In (request, Returned data) (Trace.pageRequests (Eff.events run)) ->
        (Z.of_nat (length data) <= pageSize)%Z) ->
    Eff.outcome run = Returned (Some repos) ->
    (Z.of_nat (length repos) <= Z.max 0 limit * Z.max 0 pageSize)%Z.
Proof.
  intros org options w repos pageSize limit run Hsize Hrun. subst run.
  destruct (listOrganizationRepositories_loop org options w)
    as [Hrequests [_ Houtcome]].
  fold pageSize limit in Hrequests, Houtcome.
  rewrite Hrequests in Hsize. rewrite Houtcome in Hrun.
  pose proof (pageLoop_run env org
                (AddOnHandler.orDefault (AddOnHandler.type options) "all")
                (AddOnHandler.orDefault (AddOnHandler.sort options) "updated")
                (AddOnHandler.orDefault (AddOnHandler.direction options) "desc")
                pageSize limit (Z.to_nat limit) true 1%Z [] w ltac:(lia))
    as Hloop.
  cbv zeta in Hloop.
  destruct Hloop as [_ [_ [Hcount [_ [_ [_ [Hresult _]]]]]]].
  match type of Hrun with
  | context [Eff.outcome ?l] => set (loop := l) in *
  end.
  destruct (Eff.outcome loop) as [result | e] eqn:Hloop; [| discriminate].
  inversion Hrun; subst result.
  specialize (Hresult (Some repos) eq_refl). cbn [app] in Hresult.
  inversion Hresult; subst repos.
  pose proof (pagesOf_length pageSize _ Hsize) as Hlen.
  assert (Hpages : (Z.of_nat (length (Trace.pageRequests (Eff.events loop)))
                    <= Z.max 0 limit)%Z) by lia.
  nia.
Qed.

(** X13 (AddOnHandler.listOrganizationRepositories): with a page limit
    of zero or less no request is sent, and the call returns an empty
    list. *)
Theorem listOrganizationRepositories_without_pages :
  forall (org : string) (options : AddOnHandler.ListOptions) (w : W),
    (AddOnHandler.orDefault (AddOnHandler.maxPages options) 10 <= 0)%Z ->
    let run := AddOnHandler.listOrganizationRepositories env org options w in
    Trace.pageRequests (Eff.events run) = []
    /\ Eff.outcome run = Returned (Some [])
    /\ Eff.finalWorld run = w.
Proof.
  intros org options w Hlimit run. subst run.
  destruct (listOrganizationRepositories_loop org options w)
    as [Hrequests [Hworld Houtcome]].
  rewrite Hrequests, Hworld, Houtcome.
  rewrite pageLoop_done.
  - repeat split.
  - cbn [andb]. apply Z.leb_gt. lia.
Qed.

End Listing.

(** X10 at work: the second page is refused with status 403, and the
    first page is lost with it. *)
Lemma listOrganizationRepositories_rejects_with_the_refusal_witness :
  let env := Bench.withRemote Bench.forbiddenAfterOnePage in
  let pagesOfTwo :=
    {| AddOnHandler.type := None; AddOnHandler.sort := None;
       AddOnHandler.direction := None; AddOnHandler.perPage := Some 2%Z;
       AddOnHandler.maxPages := None |} in
  let run :=
    AddOnHandler.listOrganizationRepositories env "winccoa" pagesOfTwo
      Sim.world0 in
  map (fun x => q_page (fst x)) (Trace.pageRequests (Eff.events run))
  = [1%Z; 2%Z]
  /\ Eff.outcome run
     = Threw (Js.newError
                "Access denied to organization 'winccoa'. You may need authentication or proper permissions.").
Proof.
  cbv zeta.
  set (env := Bench.withRemote Bench.forbiddenAfterOnePage).
  set (pagesOfTwo :=
         {| AddOnHandler.type := None; AddOnHandler.sort := None;
            AddOnHandler.direction := None; AddOnHandler.perPage := Some 2%Z;
            AddOnHandler.maxPages := None |}).
  split; [vm_compute; reflexivity |].
  refine (proj1 (listOrganizationRepositories_rejects_with_the_refusal env
                   "winccoa" pagesOfTwo Sim.world0)
            {| q_org := "winccoa"; q_type := "all"; q_sort := "updated";
               q_direction := "desc"; q_per_page := 2; q_page := 2 |}
            (Bench.httpError 403) _).
  vm_compute. right. left. reflexivity.
Defined.

(** X12 at work: five repositories in pages of two, fewer than ten pages
    of two. *)
Lemma listOrganizationRepositories_returns_a_bounded_list_witness :
  let env := Sim.env [] [] in
  let pagesOfTwo :=
    {| AddOnHandler.type := None; AddOnHandler.sort := None;
       AddOnHandler.direction := None; AddOnHandler.perPage := Some 2%Z;
       AddOnHandler.maxPages := None |} in
  let repos := map AddOnHandler.summarize
                 (map Sim.repoNamed ["a"; "b"; "c"; "d"; "e"]) in
  Eff.outcome
    (AddOnHandler.listOrganizationRepositories env "winccoa" pagesOfTwo
       Sim.world0) = Returned (Some repos)
  /\ (Z.of_nat (length repos) <= Z.max 0 10 * Z.max 0 2)%Z.
Proof.
  cbv zeta.
  set (env := Sim.env [] []).
  set (pagesOfTwo :=
         {| AddOnHandler.type := None; AddOnHandler.sort := None;
            AddOnHandler.direction := None; AddOnHandler.perPage := Some 2%Z;
            AddOnHandler.maxPages := None |}).
  assert (Hrun :
    Eff.outcome
      (AddOnHandler.listOrganizationRepositories env "winccoa" pagesOfTwo
         Sim.world0)
    = Returned (Some (map AddOnHandler.summarize
                        (map Sim.repoNamed ["a"; "b"; "c"; "d"; "e"]))))
    by (vm_compute; reflexivity).
  split; [exact Hrun |].
  apply (listOrganizationRepositories_returns_a_bounded_list env "winccoa"
           pagesOfTwo Sim.world0 _); [| exact Hrun].
  intros request data Hin. vm_compute in Hin.
  destruct Hin as [Hin | [Hin | [Hin | []]]]; inversion Hin; subst;
    vm_compute; discriminate.
Defined.

(** X13 at work: a page limit of zero. *)
Lemma listOrganizationRepositories_without_pages_witness :
  let noPages :=
    {| AddOnHandler.type := None; AddOnHandler.sort := None;
       AddOnHandler.direction := None; AddOnHandler.perPage := None;
       AddOnHandler.maxPages := Some 0%Z |} in
  (AddOnHandler.orDefault (AddOnHandler.maxPages noPages) 10 <= 0)%Z
  /\ Eff.outcome
       (AddOnHandler.listOrganizationRepositories (Sim.env [] []) "winccoa"
          noPages Sim.world0) = Returned (Some []).
Proof.
  cbv zeta.
  assert (Hlimit :
    (AddOnHandler.orDefault
       (AddOnHandler.maxPages
          {| AddOnHandler.type := None; AddOnHandler.sort := None;
             AddOnHandler.direction := None; AddOnHandler.perPage := None;
             AddOnHandler.maxPages := Some 0%Z |}) 10 <= 0)%Z)
    by (cbn; lia).
  split; [exact Hlimit |].
  exact (proj1 (proj2 (listOrganizationRepositories_without_pages
                         (Sim.env [] []) "winccoa" _ Sim.world0 Hlimit))).
Defined.

(** ** The phases of a registration *)

Section Phases.

Context {W : Type} (nodePath : NodePath.Api) (env : Collaborators W).

(** X14 (AddOnHandler.registerSubProject): a registration runs in three
    phases that never interleave: the call of [registerSubProj] comes
    first, then the commands of the bootstrap, among which there is no
    control-script call, then the attachments, among which there is no
    command.  When the call of [registerSubProj] throws, nothing
    follows it. *)
Theorem registerSubProject_runs_in_phases :
  forall (projDir : string) (config : AddonConfig.AddonConfig) (w : W),
    let run := AddOnHandler.registerSubProject nodePath env projDir config w in
    exists answer bootstrap attaching,
      Eff.events run
      = CtrlStart "registerSubProj" [projDir] answer
          :: (bootstrap ++ attaching)%list
      /\ answer = fst (ctrl_start env "registerSubProj" [projDir] w)
      /\ Trace.ctrlCalls bootstrap = []
      /\ Trace.execCalls attaching = []
      /\ (Trace.answeredNormally answer = false ->
          bootstrap = [] /\ attaching = [] /\ Eff.outcome run = answer).
Proof.
  intros projDir config w run. subst run.
  unfold AddOnHandler.registerSubProject, AddOnHandler.ctrlScriptStart.
  eff_run.
  destruct (ctrl_start env "registerSubProj" [projDir] w) as [[ret | e] w1];
    eff_run.
  - pose proof (installAndBuild_no_ctrl nodePath env projDir w1) as Hquiet.
    destruct (NodeInstaller.installAndBuild nodePath env projDir w1)
      as [[[[] | e] w2] t2]; unfold Eff.events in Hquiet; cbn [snd] in Hquiet.
    + pose proof (attachAll_no_exec env
                    (AddOnHandler.orDefault (AddonConfig.Managers config) [])
                    w2) as Hattach.
      destruct (Eff.forEach
                  (AddOnHandler.orDefault (AddonConfig.Managers config) [])
                  (AddOnHandler.attachManager env) w2) as [[[[] | e] w3] t3];
        unfold Eff.events in Hattach; cbn [snd] in Hattach;
        exists (Returned ret), t2, t3; rewrite ?app_nil_r; cbn [app];
        repeat split; auto; discriminate.
    + exists (Returned ret), t2, []. rewrite ?app_nil_r. cbn [app].
      repeat split; auto; discriminate.
  - exists (Threw e), [], []. repeat split.
Qed.

End Phases.

(** ** The paths of components and files *)

Section Paths.

Context {W : Type} (path : NodePath.Api) (rt : Runtime W).

Lemma endsWith_append (s suffix : string) :
  JsText.endsWith (s ++ suffix) suffix = true.
Proof.
  induction s as [| c s IH]; cbn [append JsText.endsWith].
  - destruct suffix; cbn [JsText.endsWith]; now rewrite String.eqb_refl.
  - rewrite IH. apply orb_true_r.
Qed.

(** The run of [getComponentPath]: it returns, runs no command and
    starts one script at most. *)
Lemma getComponentPath_run (winccoa : option ComponentPaths.Manager)
  (componentId : Z) (w : W) :
  exists result w1 t,
    ComponentPaths.getComponentPath path rt winccoa componentId w
    = (Returned result, w1, t)
    /\ Trace.execCalls t = []
    /\ (length (Trace.ctrlCalls t) <= 1)%nat
    /\ (winccoa = None -> result = "" /\ w1 = w /\ Trace.ctrlCalls t = [])
    /\ (process_platform rt = "win32" -> result <> "" ->
        JsText.endsWith result ".exe" = true).
Proof.
  unfold ComponentPaths.getComponentPath, ComponentPaths.scriptStart.
  destruct winccoa as [manager |]; eff_run.
  - destruct (script_main rt ComponentPaths.componentPathScript
                [Js.numberToString componentId] w) as [[answer | e] w1];
      eff_run.
    + destruct (Js.truthy (NodePath.normalize path answer)) eqn:Hfilled;
        eff_run.
      * destruct (process_platform rt =? "win32") eqn:Hplatform; cbn [andb].
        -- destruct (JsText.endsWith (NodePath.normalize path answer) ".exe")
             eqn:Hsuffix; eff_run; do 3 eexists;
             (split; [reflexivity |]); cbn;
             (split; [reflexivity |]); (split; [lia |]);
             (split; [discriminate |]); intros _ _.
           ++ exact Hsuffix.
           ++ apply endsWith_append.
        -- do 3 eexists. split; [reflexivity |]. cbn.
           split; [reflexivity |]. split; [lia |]. split; [discriminate |].
           intros Hwin. rewrite Hwin in Hplatform. discriminate.
      * do 3 eexists. split; [reflexivity |]. cbn.
        split; [reflexivity |]. split; [lia |]. split; [discriminate |].
        intros _ Hne. now destruct Hne.
    + do 3 eexists. split; [reflexivity |]. cbn.
      split; [reflexivity |]. split; [lia |]. split; [discriminate |].
      intros _ Hne. now destruct Hne.
  - do 3 eexists. split; [reflexivity |]. cbn.
    split; [reflexivity |]. split; [lia |]. split; [auto |].
    intros _ Hne. now destruct Hne.
Qed.

(** X15 (PathResolver.getComponentPath): the function never rejects;
    without a manager instance it answers the empty string and starts no
    script; on Windows every path it answers ends in [.exe], whether the
    script gave the suffix or not. *)
Theorem getComponentPath_never_rejects :
  forall (winccoa : option ComponentPaths.Manager) (componentId : Z) (w : W),
    let run := ComponentPaths.getComponentPath path rt winccoa componentId w in
    exists result,
      Eff.outcome run = Returned result
      /\ (winccoa = None ->
          result = "" /\ Eff.finalWorld run = w
          /\ Trace.ctrlCalls (Eff.events run) = [])
      /\ (process_platform rt = "win32" -> result <> "" ->
          JsText.endsWith result ".exe" = true).
Proof.
  intros winccoa componentId w run. subst run.
  destruct (getComponentPath_run winccoa componentId w)
    as [result [w1 [t [Hrun [_ [_ [Hnone Hexe]]]]]]].
  rewrite Hrun. exists result. split; [reflexivity |]. split; [| exact Hexe].
  intros Habsent. destruct (Hnone Habsent) as [-> [-> Hquiet]].
  repeat split. exact Hquiet.
Qed.

Lemma last_map {A B : Type} (f : A -> B) (l : list A) (d : A) :
  last (map f l) (f d) = f (last l d).
Proof.
  induction l as [| a [| b r] IH]; [reflexivity | reflexivity |].
  exact IH.
Qed.

(** The run of [getFilePath]. *)
Lemma getFilePath_run (winccoa : option ComponentPaths.Manager)
  (fileName : string) (useDbdFiles : bool) (w : W) :
  exists result w1 t,
    ComponentPaths.getFilePath path rt winccoa fileName useDbdFiles w
    = (Returned result, w1, t)
    /\ Trace.execCalls t = []
    /\ (winccoa = None \/ Js.truthy (Js.trim fileName) = false
        \/ useDbdFiles = true ->
        w1 = w /\ Trace.ctrlCalls t = [])
    /\ (winccoa = None \/ Js.truthy (Js.trim fileName) = false ->
        result = "")
    /\ (forall manager,
          winccoa = Some manager ->
          Js.truthy (Js.trim fileName) = true ->
          useDbdFiles = true ->
          result
          = match PathResolver.getPaths manager with
            | Returned oaPaths =>
                match
                  match oaPaths with
                  | PathResolver.PathsArray items =>
                      Returned (nth_error items (length items - 1))
                  | PathResolver.NotAnArray lastEntry => lastEntry
                  end,
                  PathResolver.version manager
                with
                | Returned (Some (PathResolver.EntryString dir)),
                  Returned release =>
                    NodePath.normalize path
                      (NodePath.join path
                         [dir; "dbdfiles"; "version_" ++ release; fileName])
                | _, _ => ""
                end
            | Threw _ => ""
            end).
Proof.
  unfold ComponentPaths.getFilePath, ComponentPaths.scriptStart,
    PathResolver.fromOutcome.
  destruct winccoa as [manager |]; eff_run.
  - destruct (Js.truthy (Js.trim fileName)) eqn:Hname; eff_run.
    + destruct useDbdFiles; eff_run.
      * destruct (PathResolver.getPaths manager) as [oaPaths | e] eqn:Hpaths;
          eff_run.
        -- destruct oaPaths as [lastEntry | items]; eff_run.
           ++ destruct lastEntry as [[[dir | received] |] | e]; eff_run;
                destruct (PathResolver.version manager) as [release | e']
                  eqn:Hversion; eff_run;
                do 3 eexists; (split; [reflexivity |]); cbn;
                (split; [reflexivity |]); (split; [auto |]);
                (split; [intros [H | H]; discriminate |]);
                intros m [= <-] _ _; rewrite Hpaths; cbv beta iota;
                rewrite ?Hversion; reflexivity.
           ++ destruct (nth_error items (length items - 1))
                as [[dir | received] |] eqn:Hentry; eff_run;
                destruct (PathResolver.version manager) as [release | e']
                  eqn:Hversion; eff_run;
                do 3 eexists; (split; [reflexivity |]); cbn;
                (split; [reflexivity |]); (split; [auto |]);
                (split; [intros [H | H]; discriminate |]);
                intros m [= <-] _ _; rewrite Hpaths; cbv beta iota;
                rewrite ?Hentry, ?Hversion; reflexivity.
        -- do 3 eexists. split; [reflexivity |]. cbn.
           split; [reflexivity |]. split; [auto |].
           split; [intros [H | H]; discriminate |].
           intros m [= <-] _ _. now rewrite Hpaths.
      * destruct (script_main rt ComponentPaths.filePathScript [fileName] w)
          as [[answer | e] w1]; eff_run;
          do 3 eexists; (split; [reflexivity |]); cbn;
          (split; [reflexivity |]);
          (split; [intros [H | [H | H]]; discriminate |]);
          (split; [intros [H | H]; discriminate |]);
          intros m _ _ Hdbd; discriminate.
    + do 3 eexists. split; [reflexivity |]. cbn.
      split; [reflexivity |]. split; [auto |]. split; [auto |].
      intros m _ H. discriminate.
  - do 3 eexists. split; [reflexivity |]. cbn.
    split; [reflexivity |]. split; [auto |]. split; [auto |].
    intros m H. discriminate.
Qed.

(** X16 (PathResolver.getFilePath): the function never rejects; without
    a manager instance, or with a file name that is empty once its white
    space is trimmed (the white space of [String.prototype.trim], the
    no-break space included), it answers the empty string; with
    [useDbdFiles] it starts no script and, for a manager that has paths
    and a version, answers the file below [dbdfiles/version_<version>]
    in the last of the paths, or the empty string when the manager has
    no path.  When [getPaths()] or [getVersionInfo()] throws, or the last
    of the paths is no string, it answers the empty string as well. *)
Theorem getFilePath_never_rejects :
  forall (winccoa : option ComponentPaths.Manager) (fileName : string)
    (useDbdFiles : bool) (w : W),
    let run :=
      ComponentPaths.getFilePath path rt winccoa fileName useDbdFiles w in
    exists result,
      Eff.outcome run = Returned result
      /\ (winccoa = None \/ Js.truthy (Js.trim fileName) = false ->
          result = "")
      /\ (useDbdFiles = true ->
          Eff.finalWorld run = w /\ Trace.ctrlCalls (Eff.events run) = [])
      /\ (forall manager release paths,
            winccoa = Some manager ->
            Js.truthy (Js.trim fileName) = true ->
            useDbdFiles = true ->
            PathResolver.version manager = Returned release ->
            PathResolver.getPaths manager
            = Returned
                (PathResolver.PathsArray
                   (map PathResolver.EntryString paths)) ->
            result
            = match paths with
              | [] => ""
              | first :: rest =>
                  NodePath.normalize path
                    (NodePath.join path
                       [last (first :: rest) ""; "dbdfiles";
                        "version_" ++ release; fileName])
              end)
      /\ (forall manager,
            winccoa = Some manager ->
            useDbdFiles = true ->
            (exists e, PathResolver.getPaths manager = Threw e)
            \/ (exists e, PathResolver.version manager = Threw e) ->
            result = "")
      /\ (forall manager items received,
            winccoa = Some manager ->
            useDbdFiles = true ->
            PathResolver.getPaths manager
            = Returned (PathResolver.PathsArray items) ->
            nth_error items (length items - 1)
            = Some (PathResolver.EntryOther received) ->
            result = "").
Proof.
  intros winccoa fileName useDbdFiles w run. subst run.
  destruct (getFilePath_run winccoa fileName useDbdFiles w)
    as [result [w1 [t [Hrun [_ [Hquiet [Hblank Hdbd]]]]]]].
  rewrite Hrun. exists result. split; [reflexivity |].
  split; [exact Hblank |]. split; [| split; [| split]].
  - intros Huse. apply Hquiet. auto.
  - intros manager release paths Hm Hname Huse Hversion Hpaths.
    rewrite (Hdbd manager Hm Hname Huse), Hpaths, Hversion.
    destruct paths as [| first rest]; [reflexivity |].
    change (map PathResolver.EntryString (first :: rest))
      with (PathResolver.EntryString first
              :: map PathResolver.EntryString rest).
    rewrite (nth_error_last
               (PathResolver.EntryString first
                  :: map PathResolver.EntryString rest)
               (PathResolver.EntryString "")) by discriminate.
    change (PathResolver.EntryString first
              :: map PathResolver.EntryString rest)
      with (map PathResolver.EntryString (first :: rest)).
    now rewrite last_map.
  - intros manager Hm Huse Hthrows.
    destruct (Js.truthy (Js.trim fileName)) eqn:Hname;
      [| apply Hblank; now right].
    rewrite (Hdbd manager Hm eq_refl Huse).
    destruct Hthrows as [[e He] | [e He]]; rewrite He; [reflexivity |].
    destruct (PathResolver.getPaths manager) as [oaPaths | e'];
      [| reflexivity].
    destruct (match oaPaths with
              | PathResolver.PathsArray items =>
                  Returned (nth_error items (length items - 1))
              | PathResolver.NotAnArray lastEntry => lastEntry
              end) as [[[dir | received] |] | e']; reflexivity.
  - intros manager items received Hm Huse Hpaths Hlast.
    destruct (Js.truthy (Js.trim fileName)) eqn:Hname;
      [| apply Hblank; now right].
    rewrite (Hdbd manager Hm eq_refl Huse), Hpaths, Hlast. reflexivity.
Qed.

End Paths.

(** X15 at work: on Windows the suffix is added to what the script
    answers. *)
Lemma getComponentPath_never_rejects_witness :
  let run :=
    ComponentPaths.getComponentPath NodePath.posix
      (Bench.runtime "win32" Bench.answers) (Some Bench.manager)
      ComponentPaths.ASCII_COMPONENT Bench.world in
  Eff.outcome run = Returned "/opt/winccoa/bin/WCCOAascii.exe"
  /\ JsText.endsWith "/opt/winccoa/bin/WCCOAascii.exe" ".exe" = true.
Proof.
  cbv zeta.
  destruct (getComponentPath_never_rejects NodePath.posix
              (Bench.runtime "win32" Bench.answers) (Some Bench.manager)
              ComponentPaths.ASCII_COMPONENT Bench.world)
    as [result [Hrun [_ Hexe]]].
  assert (Hresult : result = "/opt/winccoa/bin/WCCOAascii.exe").
  { vm_compute in Hrun. now inversion Hrun. }
  subst result. split; [exact Hrun |].
  apply Hexe; [reflexivity | discriminate].
Defined.

(** X16 at work: the list below the installation, the last of the paths
    of the manager; and a file name that is a no-break space. *)
Lemma getFilePath_never_rejects_witness :
  let run :=
    ComponentPaths.getFilePath NodePath.posix (Bench.runtime "linux" [])
      (Some Bench.manager) "list.dpl" true Sim.world0 in
  let blank :=
    ComponentPaths.getFilePath NodePath.posix (Bench.runtime "linux" [])
      (Some Bench.manager) Bench.noBreakSpace true Sim.world0 in
  Eff.outcome run = Returned "/opt/winccoa/dbdfiles/version_3.21/list.dpl"
  /\ Trace.ctrlCalls (Eff.events run) = []
  /\ Js.truthy (Js.trim Bench.noBreakSpace) = false
  /\ Eff.outcome blank = Returned "".
Proof.
  cbv zeta.
  destruct (getFilePath_never_rejects NodePath.posix
              (Bench.runtime "linux" []) (Some Bench.manager) "list.dpl" true
              Sim.world0) as [result [Hrun [_ [Hquiet [Hdbd _]]]]].
  destruct (getFilePath_never_rejects NodePath.posix
              (Bench.runtime "linux" []) (Some Bench.manager)
              Bench.noBreakSpace true Sim.world0)
    as [nothing [Hblank [Hempty _]]].
  assert (Htrim : Js.truthy (Js.trim Bench.noBreakSpace) = false)
    by reflexivity.
  split; [| split; [exact (proj2 (Hquiet eq_refl)) | split; [exact Htrim |]]].
  - rewrite Hrun. f_equal.
    exact (Hdbd Bench.manager "3.21" ["/proj/addon"; "/opt/winccoa"]
             eq_refl eq_refl eq_refl eq_refl eq_refl).
  - rewrite Hblank. f_equal. apply Hempty. now right.
Defined.

(** ** The import command *)

Section ProjectName.

Lemma separatorFree_string_of_list (l : list ascii) :
  Reach.separatorFree (string_of_list_ascii l) = forallb Reach.plain l.
Proof.
  induction l as [| c l IH]; [reflexivity |].
  cbn [string_of_list_ascii Reach.separatorFree forallb]. now rewrite IH.
Qed.

Lemma splitChars_plain (cs : list ascii) :
  forall cur,
    forallb (fun c => negb (Ascii.eqb c JsText.backslash)) cs = true ->
    forallb Reach.plain cur = true ->
    Forall (fun seg => forallb Reach.plain seg = true) (NodePath.splitChars cur cs).
Proof.
  induction cs as [| c cs IH]; intros cur Hclean Hcur.
  - cbn. constructor; [| constructor].
    apply forallb_forall. intros x Hx. apply in_rev in Hx.
    now apply (proj1 (forallb_forall _ _) Hcur).
  - cbn [NodePath.splitChars forallb] in *.
    apply andb_true_iff in Hclean. destruct Hclean as [Hc Hclean].
    destruct (NodePath.isSlash c) eqn:Hslash.
    + constructor.
      * apply forallb_forall. intros x Hx. apply in_rev in Hx.
        now apply (proj1 (forallb_forall _ _) Hcur).
      * now apply IH.
    + apply IH; [exact Hclean |].
      cbn [forallb]. unfold Reach.plain at 1. now rewrite Hslash, Hc, Hcur.
Qed.

Lemma replaceBackslashes_clean (s : string) :
  forallb (fun c => negb (Ascii.eqb c JsText.backslash))
    (list_ascii_of_string (JsText.replaceBackslashes s)) = true.
Proof.
  induction s as [| c s IH]; [reflexivity |].
  cbn [JsText.replaceBackslashes list_ascii_of_string forallb].
  rewrite IH, andb_true_r.
  destruct (Ascii.eqb c JsText.backslash) eqn:Hc; [reflexivity |].
  now rewrite Hc.
Qed.

Lemma last_Forall {A : Type} (P : A -> Prop) (l : list A) (d : A) :
  Forall P l -> P d -> P (last l d).
Proof.
  induction 1 as [| x l Hx Hl IH]; intros Hd; [exact Hd |].
  cbn [last]. destruct l; [exact Hx | now apply IH].
Qed.

Lemma projectNameOf_separatorFree (projectPath : string) :
  Reach.separatorFree (AsciiImport.projectNameOf projectPath) = true.
Proof.
  unfold AsciiImport.projectNameOf, JsText.popOrEmpty, NodePath.segments.
  apply last_Forall; [| reflexivity].
  apply Forall_forall. intros seg Hseg.
  apply filter_In in Hseg. destruct Hseg as [Hseg _].
  apply in_map_iff in Hseg. destruct Hseg as [chars [<- Hchars]].
  rewrite separatorFree_string_of_list.
  pose proof (splitChars_plain
                (list_ascii_of_string
                   (JsText.replaceBackslashes (Js.trim projectPath)))
                [] (replaceBackslashes_clean _) eq_refl) as Hall.
  now apply (proj1 (Forall_forall _ _) Hall).
Qed.

Lemma list_ascii_of_string_app (a b : string) :
  list_ascii_of_string (a ++ b)
  = (list_ascii_of_string a ++ list_ascii_of_string b)%list.
Proof.
  induction a as [| c a IH]; [reflexivity |].
  cbn [append list_ascii_of_string app]. now rewrite IH.
Qed.

Lemma splitChars_app_slash (x r : list ascii) :
  forall cur,
    NodePath.splitChars cur (x ++ NodePath.slash :: r)
    = (NodePath.splitChars cur x ++ NodePath.splitChars [] r)%list.
Proof.
  induction x as [| c x IH]; intros cur.
  - reflexivity.
  - cbn [app NodePath.splitChars].
    destruct (NodePath.isSlash c); [| apply IH].
    cbn [app]. now rewrite IH.
Qed.

Lemma splitChars_one (l : list ascii) :
  forall cur,
    forallb (fun c => negb (NodePath.isSlash c)) l = true ->
    NodePath.splitChars cur l = [(rev cur ++ l)%list].
Proof.
  induction l as [| c l IH]; intros cur Hplain.
  - cbn. now rewrite app_nil_r.
  - cbn [forallb] in Hplain. apply andb_true_iff in Hplain.
    destruct Hplain as [Hc Hl]. cbn [NodePath.splitChars].
    apply negb_true_iff in Hc. rewrite Hc, (IH _ Hl).
    cbn [rev]. now rewrite <- app_assoc.
Qed.

Lemma splitChars_slashes (l : list ascii) :
  forallb NodePath.isSlash l = true ->
  Forall (fun seg => seg = []) (NodePath.splitChars [] l).
Proof.
  induction l as [| c l IH]; intros Hl.
  - repeat constructor.
  - cbn [forallb] in Hl. apply andb_true_iff in Hl. destruct Hl as [Hc Hl].
    cbn [NodePath.splitChars]. rewrite Hc. constructor; [reflexivity |].
    now apply IH.
Qed.

Lemma filter_empty_segments (l : list (list ascii)) :
  Forall (fun seg => seg = []) l ->
  filter Js.truthy (map string_of_list_ascii l) = [].
Proof.
  induction 1 as [| seg l -> _ IH]; [reflexivity |]. exact IH.
Qed.

Lemma replaceBackslashes_chars (s : string) :
  list_ascii_of_string (JsText.replaceBackslashes s)
  = map (fun c => if Ascii.eqb c JsText.backslash then NodePath.slash else c)
      (list_ascii_of_string s).
Proof.
  induction s as [| c s IH]; [reflexivity |].
  cbn [JsText.replaceBackslashes list_ascii_of_string map]. now rewrite IH.
Qed.

Lemma separatorFree_chars (s : string) :
  Reach.separatorFree s = forallb Reach.plain (list_ascii_of_string s).
Proof.
  induction s as [| c s IH]; [reflexivity |].
  cbn [Reach.separatorFree list_ascii_of_string forallb]. now rewrite IH.
Qed.

(** The name cut out of a path whose trimmed text ends in a segment that
    is not empty, followed by separators only, is that segment. *)
Lemma projectNameOf_last_segment (projectPath before seg after : string) :
  Js.trim projectPath = before ++ seg ++ after ->
  Reach.endsAtSeparator before = true ->
  seg <> "" ->
  Reach.separatorFree seg = true ->
  Reach.separatorsOnly after = true ->
  AsciiImport.projectNameOf projectPath = seg.
Proof.
  intros Htrim Hbefore Hfilled Hseg Hafter.
  unfold AsciiImport.projectNameOf, JsText.popOrEmpty, NodePath.segments.
  rewrite Htrim, replaceBackslashes_chars, !list_ascii_of_string_app, !map_app.
  set (swap := fun c => if Ascii.eqb c JsText.backslash then NodePath.slash
                        else c).
  assert (Hsame : map swap (list_ascii_of_string seg)
                  = list_ascii_of_string seg
                  /\ forallb (fun c => negb (NodePath.isSlash c))
                       (list_ascii_of_string seg) = true).
  { rewrite separatorFree_chars in Hseg.
    induction (list_ascii_of_string seg) as [| c l IH]; [split; reflexivity |].
    cbn [forallb] in Hseg. apply andb_true_iff in Hseg.
    destruct Hseg as [Hc Hl]. destruct (IH Hl) as [IH1 IH2].
    unfold Reach.plain in Hc. apply andb_true_iff in Hc.
    destruct Hc as [Hslash Hback]. apply negb_true_iff in Hback.
    cbn [map forallb]. unfold swap at 1. rewrite Hback, IH1, Hslash, IH2.
    split; reflexivity. }
  destruct Hsame as [Hsame Hnoslash]. rewrite Hsame.
  assert (Hslashes : forallb NodePath.isSlash
                       (map swap (list_ascii_of_string after)) = true).
  { unfold Reach.separatorsOnly in Hafter.
    induction (list_ascii_of_string after) as [| c l IH]; [reflexivity |].
    cbn [forallb] in Hafter. apply andb_true_iff in Hafter.
    destruct Hafter as [Hc Hl]. cbn [map forallb]. rewrite (IH Hl).
    unfold Reach.plain in Hc. unfold swap.
    destruct (Ascii.eqb c JsText.backslash); [reflexivity |].
    destruct (NodePath.isSlash c); [reflexivity | discriminate]. }
  assert (Htail :
    exists empties,
      Forall (fun s => s = []) empties
      /\ NodePath.splitChars []
           (list_ascii_of_string seg ++ map swap (list_ascii_of_string after))
         = list_ascii_of_string seg :: empties).
  { destruct (map swap (list_ascii_of_string after)) as [| c l].
    - exists []. split; [constructor |].
      rewrite app_nil_r. now rewrite splitChars_one.
    - cbn [forallb] in Hslashes. apply andb_true_iff in Hslashes.
      destruct Hslashes as [Hc Hl].
      unfold NodePath.isSlash in Hc. apply Ascii.eqb_eq in Hc. subst c.
      exists (NodePath.splitChars [] l).
      split; [now apply splitChars_slashes |].
      rewrite splitChars_app_slash. now rewrite splitChars_one. }
  destruct Htail as [empties [Hempties Htail]].
  assert (Hwhole :
    exists front,
      NodePath.splitChars []
        (map swap (list_ascii_of_string before)
           ++ list_ascii_of_string seg
           ++ map swap (list_ascii_of_string after))
      = (front ++ list_ascii_of_string seg :: empties)%list).
  { unfold Reach.endsAtSeparator in Hbefore.
    destruct (rev (list_ascii_of_string before)) as [| c l] eqn:Hrev.
    - apply (f_equal (@rev ascii)) in Hrev. rewrite rev_involutive in Hrev.
      rewrite Hrev. exists []. exact Htail.
    - apply (f_equal (@rev ascii)) in Hrev. rewrite rev_involutive in Hrev.
      cbn [rev] in Hrev. rewrite Hrev, map_app. cbn [map].
      assert (Hc : swap c = NodePath.slash).
      { unfold swap. unfold Reach.plain in Hbefore.
        destruct (Ascii.eqb c JsText.backslash); [reflexivity |].
        destruct (NodePath.isSlash c) eqn:Hs; [| discriminate].
        unfold NodePath.isSlash in Hs. now apply Ascii.eqb_eq in Hs. }
      rewrite Hc, <- app_assoc. cbn [app].
      rewrite splitChars_app_slash, Htail. eexists. reflexivity. }
  destruct Hwhole as [front Hwhole]. rewrite Hwhole.
  rewrite map_app, filter_app. cbn [map filter].
  rewrite string_of_list_ascii_of_string.
  assert (Htruthy : Js.truthy seg = true).
  { unfold Js.truthy. destruct (String.eqb_spec seg "");
      [contradiction | reflexivity]. }
  rewrite Htruthy, (filter_empty_segments empties Hempties).
  apply last_last.
Qed.

Context {W : Type} (path : NodePath.Api) (env : Collaborators W)
  (rt : Runtime W).

(** The run of [getProjectName]: it returns, and only prints. *)
Lemma getProjectName_run (winccoa : option ComponentPaths.Manager) (w : W) :
  exists name t,
    AsciiImport.getProjectName path winccoa w = (Returned name, w, t)
    /\ Trace.execCalls t = []
    /\ Trace.ctrlCalls t = []
    /\ Reach.separatorFree name = true
    /\ (forall manager,
          winccoa = Some manager ->
          name
          = match PathResolver.getPaths manager with
            | Returned
                (PathResolver.PathsArray
                   (PathResolver.EntryString first :: _ :: _)) =>
                AsciiImport.projectNameOf (NodePath.normalize path first)
            | _ => ""
            end)
    /\ (winccoa = None -> name = "").
Proof.
  unfold AsciiImport.getProjectName, PathResolver.getProjectPath,
    PathResolver.fromOutcome.
  destruct winccoa as [manager |]; eff_run.
  - destruct (PathResolver.getPaths manager)
      as [[lastEntry | [| [first | received] [| second rest]]] | e]
      eqn:Hpaths;
      cbn [length Nat.ltb Nat.leb nth_error PathResolver.normalizeEntry];
      eff_run;
      do 2 eexists; (split; [reflexivity |]); trace_simpl;
      (split; [reflexivity |]); (split; [reflexivity |]);
      (split; [first [reflexivity | apply projectNameOf_separatorFree] |]);
      (split; [| discriminate]);
      intros m [= <-]; rewrite Hpaths; reflexivity.
  - do 2 eexists. split; [reflexivity |]. trace_simpl.
    repeat split; discriminate.
Qed.

(** X17 (AsciiManager.getProjectName): the function never rejects and
    changes nothing; the name it answers holds neither a slash nor a
    backslash.  For a manager with at least two paths, the first of them
    a string, the name is cut out of the normalized first path, trimmed
    of its white space (the white space of [String.prototype.trim], the
    no-break space included): when that text ends in a segment that is
    not empty, followed by slashes and backslashes only, the name is
    that segment.  The name is the empty string when the manager is
    missing, when [getPaths()] throws, does not answer an array or
    answers fewer than two paths, and when the first path is no
    string. *)
Theorem getProjectName_is_one_segment :
  forall (winccoa : option ComponentPaths.Manager) (w : W),
    let run := AsciiImport.getProjectName path winccoa w in
    exists name,
      Eff.outcome run = Returned name
      /\ Eff.finalWorld run = w
      /\ Reach.separatorFree name = true
      /\ (forall manager,
            winccoa = Some manager ->
            name
            = match PathResolver.getPaths manager with
              | Returned
                  (PathResolver.PathsArray
                     (PathResolver.EntryString first :: _ :: _)) =>
                  AsciiImport.projectNameOf (NodePath.normalize path first)
              | _ => ""
              end)
      /\ (winccoa = None -> name = "")
      /\ (forall manager first second rest before seg after,
            winccoa = Some manager ->
            PathResolver.getPaths manager
            = Returned
                (PathResolver.PathsArray
                   (PathResolver.EntryString first :: second :: rest)) ->
            Js.trim (NodePath.normalize path first) = before ++ seg ++ after ->
            Reach.endsAtSeparator before = true ->
            seg <> "" ->
            Reach.separatorFree seg = true ->
            Reach.separatorsOnly after = true ->
            name = seg).
Proof.
  intros winccoa w run. subst run.
  destruct (getProjectName_run winccoa w)
    as [name [t [Hrun [_ [_ [Hfree [Hname Hnone]]]]]]].
  rewrite Hrun. exists name.
  split; [reflexivity |]. split; [reflexivity |]. split; [exact Hfree |].
  split; [exact Hname |]. split; [exact Hnone |].
  intros manager first second rest before seg after Hm Hpaths Htrim Hbefore
    Hfilled Hseg Hafter.
  rewrite (Hname manager Hm), Hpaths.
  now apply (projectNameOf_last_segment _ before seg after).
Qed.

Lemma exists_run (filePath : string) (w : W) :
  exists present, File.exists_ rt filePath w = (Returned present, w, []).
Proof.
  unfold File.exists_, AddOnHandler.reading. eff_run.
  destruct (fs_access rt w filePath) as [[] | e]; eff_run; eexists;
    reflexivity.
Qed.

Lemma append_associative (a b c : string) : (a ++ b) ++ c = a ++ b ++ c.
Proof.
  induction a as [| x a IH]; [reflexivity |].
  cbn [append]. now rewrite IH.
Qed.

Lemma importArgs_joined (a f n : string) (confirm noVerbose : bool) :
  Js.join " "
    (filter Js.truthy (AsciiImport.importArgs a f n confirm noVerbose))
  = Reach.importCommand a f n confirm noVerbose.
Proof.
  unfold AsciiImport.importArgs, Reach.importCommand, AsciiImport.quoted,
    Js.join.
  destruct confirm, noVerbose; reflexivity.
Qed.

Lemma truthy_filled (s : string) : Js.truthy s = true -> s <> "".
Proof.
  unfold Js.truthy. intros Hs ->. discriminate.
Qed.

(** The run of [prepareImportCommand]: it returns, runs no command, and
    what it returns is empty or a command line of the one form. *)
Lemma prepareImportCommand_run (winccoa : option ComponentPaths.Manager)
  (fileName : string) (confirm useDbdFiles noVerbose : bool) (w : W) :
  exists command w1 t,
    AsciiImport.prepareImportCommand path rt winccoa fileName confirm
      useDbdFiles noVerbose w = (Returned command, w1, t)
    /\ Trace.execCalls t = []
    /\ (command = ""
        \/ exists a f n,
             a <> "" /\ f <> "" /\ n <> ""
             /\ command = Reach.importCommand a f n confirm noVerbose)
    /\ (winccoa = None \/ Js.truthy (Js.trim fileName) = false ->
        command = "" /\ w1 = w /\ Trace.ctrlCalls t = []).
Proof.
  unfold AsciiImport.prepareImportCommand.
  destruct winccoa as [manager |]; eff_run.
  - destruct (Js.truthy (Js.trim fileName)) eqn:Hname; eff_run.
    + destruct (getComponentPath_run path rt (Some manager)
                  ComponentPaths.ASCII_COMPONENT w)
        as [a [w1 [t1 [Hrun1 [Hexec1 _]]]]].
      rewrite Hrun1.
      destruct (getFilePath_run path rt (Some manager) fileName useDbdFiles w1)
        as [f [w2 [t2 [Hrun2 [Hexec2 _]]]]].
      rewrite Hrun2.
      destruct (getProjectName_run (Some manager) w2)
        as [n [t3 [Hrun3 [Hexec3 _]]]].
      rewrite Hrun3.
      destruct (Js.truthy (Js.trim a)) eqn:Ha;
        [destruct (Js.truthy (Js.trim f)) eqn:Hf;
         [destruct (Js.truthy (Js.trim n)) eqn:Hn |] |];
        cbn [negb orb]; eff_run.
      * destruct (exists_run (Js.trim f) w2) as [present Hrun4].
        rewrite Hrun4. destruct present; eff_run.
        -- do 3 eexists. split; [reflexivity |].
           rewrite !app_nil_r, !execCalls_app, Hexec1, Hexec2, Hexec3.
           split; [reflexivity |]. split.
           ++ right. exists (Js.trim a), (Js.trim f), (Js.trim n).
              repeat split; try (now apply truthy_filled).
              apply importArgs_joined.
           ++ intros [H | H]; discriminate.
        -- do 3 eexists. split; [reflexivity |].
           rewrite !app_nil_r, !execCalls_app, Hexec1, Hexec2, Hexec3.
           trace_simpl.
           split; [reflexivity |]. split; [now left |].
           intros [H | H]; discriminate.
      * do 3 eexists. split; [reflexivity |].
        rewrite !app_nil_r, !execCalls_app, Hexec1, Hexec2, Hexec3.
        trace_simpl.
        split; [reflexivity |]. split; [now left |].
        intros [H | H]; discriminate.
      * do 3 eexists. split; [reflexivity |].
        rewrite !app_nil_r, !execCalls_app, Hexec1, Hexec2, Hexec3.
        trace_simpl.
        split; [reflexivity |]. split; [now left |].
        intros [H | H]; discriminate.
      * do 3 eexists. split; [reflexivity |].
        rewrite !app_nil_r, !execCalls_app, Hexec1, Hexec2, Hexec3.
        trace_simpl.
        split; [reflexivity |]. split; [now left |].
        intros [H | H]; discriminate.
    + do 3 eexists. split; [reflexivity |]. trace_simpl.
      split; [reflexivity |]. split; [now left |]. intros _. repeat split.
  - do 3 eexists. split; [reflexivity |]. trace_simpl.
    split; [reflexivity |]. split; [now left |]. intros _. repeat split.
Qed.

(** X18 (AsciiManager.prepareImportCommand): the preparation never
    rejects and runs no command; what it answers is the empty string or
    a command line of one form: the quoted path of the ASCII manager,
    [-in] and the quoted file, [-noVerbose] when asked for, [-PROJ] and
    the quoted project name, then [-yes] or [-no].  Without a manager
    instance, or with a blank file name, it answers the empty string
    without starting a script. *)
Theorem prepareImportCommand_gives_one_form :
  forall (winccoa : option ComponentPaths.Manager) (fileName : string)
    (confirm useDbdFiles noVerbose : bool) (w : W),
    let run :=
      AsciiImport.prepareImportCommand path rt winccoa fileName confirm
        useDbdFiles noVerbose w in
    exists command,
      Eff.outcome run = Returned command
      /\ Trace.execCalls (Eff.events run) = []
      /\ (command = ""
          \/ exists a f n,
               a <> "" /\ f <> "" /\ n <> ""
               /\ command = Reach.importCommand a f n confirm noVerbose)
      /\ (winccoa = None \/ Js.truthy (Js.trim fileName) = false ->
          command = "" /\ Eff.finalWorld run = w
          /\ Trace.ctrlCalls (Eff.events run) = []).
Proof.
  intros winccoa fileName confirm useDbdFiles noVerbose w run. subst run.
  destruct (prepareImportCommand_run winccoa fileName confirm useDbdFiles
              noVerbose w) as [command [w1 [t [Hrun [Hexec [Hform Hblank]]]]]].
  rewrite Hrun. exists command. repeat split; try assumption.
  - now apply Hblank.
  - now apply Hblank.
  - now apply Hblank.
Qed.

End ProjectName.

(** X17 at work: a project path written the Windows way, with a
    separator and a no-break space at its end. *)
Lemma getProjectName_is_one_segment_witness :
  let first :=
    "C:" ++ String JsText.backslash "proj" ++ String JsText.backslash "demo"
      ++ String JsText.backslash Bench.noBreakSpace in
  let manager :=
    {| PathResolver.getPaths :=
         Returned
           (PathResolver.PathsArray
              [PathResolver.EntryString first;
               PathResolver.EntryString "/opt/winccoa"]);
       PathResolver.version := Returned "3.21" |} in
  Js.trim (NodePath.normalize NodePath.posix first)
  = ("C:" ++ String JsText.backslash "proj" ++ String JsText.backslash "")
      ++ "demo" ++ String JsText.backslash ""
  /\ Eff.outcome
       (AsciiImport.getProjectName (W := Sim.World) NodePath.posix
          (Some manager) Sim.world0) = Returned "demo".
Proof.
  cbv zeta.
  set (first := "C:" ++ String JsText.backslash "proj"
                  ++ String JsText.backslash "demo"
                  ++ String JsText.backslash Bench.noBreakSpace).
  set (manager :=
         {| PathResolver.getPaths :=
              Returned
                (PathResolver.PathsArray
                   [PathResolver.EntryString first;
                    PathResolver.EntryString "/opt/winccoa"]);
            PathResolver.version := Returned "3.21" |}).
  assert (Htrim :
    Js.trim (NodePath.normalize NodePath.posix first)
    = ("C:" ++ String JsText.backslash "proj" ++ String JsText.backslash "")
        ++ "demo" ++ String JsText.backslash "") by reflexivity.
  split; [exact Htrim |].
  destruct (getProjectName_is_one_segment (W := Sim.World) NodePath.posix
              (Some manager) Sim.world0)
    as [name [Hrun [_ [_ [_ [_ Hsegment]]]]]].
  rewrite Hrun. f_equal.
  apply (Hsegment manager first (PathResolver.EntryString "/opt/winccoa") []
           ("C:" ++ String JsText.backslash "proj"
              ++ String JsText.backslash "")
           "demo" (String JsText.backslash "") eq_refl eq_refl Htrim);
    [reflexivity | discriminate | reflexivity | reflexivity].
Defined.

Section Imports.

Context {W : Type} (path : NodePath.Api) (env : Collaborators W)
  (rt : Runtime W).

(** The run of an import with the preparation of the source. *)
Lemma import_run (winccoa : option ComponentPaths.Manager) (fileName : string)
  (confirm useDbdFiles logWarnings noVerbose : bool) (w : W) :
  exists imported w1 t,
    AsciiImport.import path env rt winccoa fileName confirm useDbdFiles
      logWarnings noVerbose w = (Returned imported, w1, t)
    /\ ((Trace.execCalls t = [] /\ imported = false)
        \/ exists a f n,
             a <> "" /\ f <> "" /\ n <> ""
             /\ Trace.execCalls t
                = [(Reach.importCommand a f n confirm noVerbose, None)])
    /\ (winccoa = None \/ Js.truthy (Js.trim fileName) = false ->
        imported = false /\ w1 = w
        /\ Trace.execCalls t = [] /\ Trace.ctrlCalls t = []).
Proof.
  unfold AsciiImport.import, AsciiManager.import, CommandExecutor.execute.
  eff_run.
  destruct (prepareImportCommand_run path rt winccoa fileName confirm
              useDbdFiles noVerbose w)
    as [command [w1 [t1 [Hrun [Hexec [Hform Hblank]]]]]].
  rewrite Hrun. eff_run.
  destruct (Js.truthy (Js.trim command)) eqn:Hfilled; eff_run.
  - destruct Hform as [-> | [a [f [n [Ha [Hf [Hn ->]]]]]]]; [discriminate |].
    set (command := Reach.importCommand a f n confirm noVerbose) in *.
    assert (Hnot : winccoa = None \/ Js.truthy (Js.trim fileName) = false ->
                   False).
    { intros Hno. destruct (Hblank Hno) as [Hempty _].
      subst command. rewrite Hempty in Hfilled. discriminate. }
    destruct (child_exec env command None w1) as [[cb | e] w2]; eff_run.
    + set (result := CommandExecutor.resultOf command None cb).
      set (code := Js.toNumber (Number_ofString env) (exitCode result)).
      destruct (Js.includesNumber AsciiManager.SUCCESS_EXIT_CODES code);
        [| destruct (Js.includesNumber AsciiManager.WARNING_EXIT_CODES code);
           [destruct logWarnings |]];
        eff_run; do 3 eexists; (split; [reflexivity |]);
        rewrite !execCalls_app, Hexec; trace_simpl;
        (split; [right; exists a, f, n; repeat split; assumption |]);
        intros Hno; destruct (Hnot Hno).
    + do 3 eexists. split; [reflexivity |].
      rewrite !execCalls_app, Hexec. trace_simpl.
      split; [right; exists a, f, n; repeat split; assumption |].
      intros Hno. destruct (Hnot Hno).
  - do 3 eexists. split; [reflexivity |].
    rewrite !execCalls_app, !ctrlCalls_app, Hexec. trace_simpl.
    split; [left; split; reflexivity |].
    intros Hno. destruct (Hblank Hno) as [_ [-> ->]]. repeat split.
Qed.

(** X19 (AsciiManager.import with prepareImportCommand): an import never
    rejects and runs one command at most, without a working directory
    and of the form its preparation gives; an import that ran no command
    answers [false].  Without a manager instance, or with a blank file
    name, it answers [false], runs no command and starts no script. *)
Theorem import_runs_the_import_command_only :
  forall (winccoa : option ComponentPaths.Manager) (fileName : string)
    (confirm useDbdFiles logWarnings noVerbose : bool) (w : W),
    let run :=
      AsciiImport.import path env rt winccoa fileName confirm useDbdFiles
        logWarnings noVerbose w in
    (exists imported, Eff.outcome run = Returned imported)
    /\ ((Trace.execCalls (Eff.events run) = []
         /\ Eff.outcome run = Returned false)
        \/ exists a f n,
             a <> "" /\ f <> "" /\ n <> ""
             /\ Trace.execCalls (Eff.events run)
                = [(Reach.importCommand a f n confirm noVerbose, None)])
    /\ (winccoa = None \/ Js.truthy (Js.trim fileName) = false ->
        Eff.outcome run = Returned false
        /\ Eff.finalWorld run = w
        /\ Trace.execCalls (Eff.events run) = []
        /\ Trace.ctrlCalls (Eff.events run) = []).
Proof.
  intros winccoa fileName confirm useDbdFiles logWarnings noVerbose w run.
  subst run.
  destruct (import_run winccoa fileName confirm useDbdFiles logWarnings
              noVerbose w) as [imported [w1 [t [Hrun [Hexec Hblank]]]]].
  rewrite Hrun. unfold Eff.outcome, Eff.events, Eff.finalWorld.
  cbn [fst snd].
  split; [eexists; reflexivity |]. split.
  - destruct Hexec as [[Hnone ->] | Hone]; [left; split; auto | now right].
  - intros Hno. destruct (Hblank Hno) as [-> [-> [Hexec' Hctrl]]].
    repeat split; assumption.
Qed.

Lemma importCommand_unconfirmed (a f n : string) :
  JsText.endsWith (Reach.importCommand a f n false false) " -no" = true.
Proof.
  unfold Reach.importCommand.
  rewrite <- !append_associative. apply endsWith_append.
Qed.

(** X20 (AddOnHandler.importAsciiFiles): the import of a list of files
    never rejects, whatever happens to the single files; it runs one
    command per file at most, each an import command line with neither
    [-noVerbose] nor [-yes]: every command ends in [-no]. *)
Theorem importAsciiFiles_never_confirms :
  forall (winccoa : ComponentPaths.Manager) (files : list string) (w : W),
    let run := Repository.importAsciiFiles path env rt winccoa files w in
    Eff.outcome run = Returned tt
    /\ Forall (fun c =>
                 snd c = None
                 /\ JsText.endsWith (fst c) " -no" = true
                 /\ exists a f n,
                     fst c = Reach.importCommand a f n false false)
         (Trace.execCalls (Eff.events run))
    /\ (length (Trace.execCalls (Eff.events run)) <= length files)%nat.
Proof.
  intros winccoa files. unfold Repository.importAsciiFiles.
  induction files as [| file files IH]; intros w.
  - cbn. repeat split; [constructor | lia].
  - cbn [Eff.forEach]. eff_run.
    destruct (import_run (Some winccoa) file false false false false w)
      as [imported [w1 [t [Hrun [Hexec _]]]]].
    rewrite Hrun.
    specialize (IH w1). cbv zeta in IH.
    assert (Hone :
      Forall (fun c =>
                snd c = None
                /\ JsText.endsWith (fst c) " -no" = true
                /\ exists a f n,
                    fst c = Reach.importCommand a f n false false)
        (Trace.execCalls t)
      /\ (length (Trace.execCalls t) <= 1)%nat).
    { destruct Hexec as [[-> _] | [a [f [n [_ [_ [_ ->]]]]]]].
      - split; [constructor | cbn; lia].
      - split; [| cbn; lia]. constructor; [| constructor].
        cbn [fst snd]. split; [reflexivity |].
        split; [apply importCommand_unconfirmed |]. now exists a, f, n. }
    destruct Hone as [Hform Hcount].
    destruct imported; eff_run;
      destruct (Eff.forEach files _ w1) as [[o w2] t2];
      unfold Eff.outcome, Eff.events in *; cbn [fst snd] in *;
      destruct IH as [-> [Hrest Hlen]];
      rewrite ?app_nil_r, !execCalls_app; trace_simpl;
      rewrite ?app_nil_r, ?length_app;
      (split; [reflexivity |]);
      (split; [apply Forall_app; split; assumption | cbn [length]; lia]).
Qed.

End Imports.

(** X19 at work: a blank file name. *)
Lemma import_runs_the_import_command_only_witness :
  let run :=
    AsciiImport.import NodePath.posix (Sim.env [] [])
      (Bench.runtime "linux" []) (Some Bench.manager) "   " true false false
      false Sim.world0 in
  Js.truthy (Js.trim "   ") = false
  /\ Eff.outcome run = Returned false
  /\ Trace.execCalls (Eff.events run) = [].
Proof.
  cbv zeta.
  assert (Hblank : Js.truthy (Js.trim "   ") = false) by reflexivity.
  split; [exact Hblank |].
  destruct (proj2 (proj2 (import_runs_the_import_command_only NodePath.posix
                            (Sim.env [] []) (Bench.runtime "linux" [])
                            (Some Bench.manager) "   " true false false false
                            Sim.world0)) (or_intror Hblank))
    as [Hout [_ [Hexec _]]].
  split; [exact Hout | exact Hexec].
Defined.

(** X18 at work: the command line of a confirmed, quiet import. *)
Lemma prepareImportCommand_gives_one_form_witness :
  let run :=
    AsciiImport.prepareImportCommand NodePath.posix
      (Bench.runtime "linux" Bench.answers) (Some Bench.manager) "list.dpl"
      true false true Bench.world in
  Eff.outcome run
  = Returned
      (Reach.importCommand "/opt/winccoa/bin/WCCOAascii"
         "/proj/addon/dplist/list.dpl" "addon" true true)
  /\ Trace.execCalls (Eff.events run) = [].
Proof.
  cbv zeta.
  destruct (prepareImportCommand_gives_one_form NodePath.posix
              (Bench.runtime "linux" Bench.answers) (Some Bench.manager)
              "list.dpl" true false true Bench.world)
    as [command [Hrun [Hexec _]]].
  split; [vm_compute; reflexivity | exact Hexec].
Defined.

(** X20 at work: of two files, the list that is in place is imported
    with [-no], and the blank name is passed over. *)
Lemma importAsciiFiles_never_confirms_witness :
  let run :=
    Repository.importAsciiFiles NodePath.posix (Sim.env [] [])
      (Bench.runtime "linux" Bench.answers) Bench.manager ["list.dpl"; " "]
      Bench.world in
  Eff.outcome run = Returned tt
  /\ Trace.execCalls (Eff.events run)
     = [(Reach.importCommand "/opt/winccoa/bin/WCCOAascii"
           "/proj/addon/dplist/list.dpl" "addon" false false, None)].
Proof.
  cbv zeta.
  split; [| vm_compute; reflexivity].
  exact (proj1 (importAsciiFiles_never_confirms NodePath.posix (Sim.env [] [])
                  (Bench.runtime "linux" Bench.answers) Bench.manager
                  ["list.dpl"; " "] Bench.world)).
Defined.

(** ** Pulling *)

Section Pulling.

Context {W : Type} (nodePath : NodePath.Api) (env : Collaborators W)
  (rt : Runtime W).

Lemma missing_mentions_repository (dir : string) :
  Js.includes ("Repository directory does not exist: " ++ dir)
    "not a git repository"
  = Js.includes dir "not a git repository".
Proof.
  reflexivity.
Qed.

Lemma pullFailure_run (dir : string) (cause : Js.Error) (w : W) :
  exists e t,
    Repository.pullFailure dir cause w = (Threw e, w, t)
    /\ Trace.operations t = []
    /\ Js.status e = None
    /\ Reach.pullErrorMessage dir (Js.message cause) (Js.message e).
Proof.
  unfold Repository.pullFailure, Reach.pullErrorMessage. eff_run.
  destruct (Js.includes (Js.message cause) "not a git repository");
    [| destruct (Js.includes (Js.message cause) "does not exist");
       [| destruct (Js.includes (Js.message cause) "Permission denied"
                    || Js.includes (Js.message cause) "authentication");
          [| destruct (Js.includes (Js.message cause) "merge conflict")]]];
    eff_run; do 2 eexists; (split; [reflexivity |]);
    (split; [reflexivity |]); (split; [reflexivity |]);
    cbn [Js.message Js.newError]; auto 6.
Qed.

(** X21 (AddOnHandler.pullRepository): a directory that does not exist,
    or that holds no [.git], is rejected before git is asked for
    anything, and the world is as it was.  The message names the
    directory; for a missing directory whose own path reads
    [not a git repository] the message is that of a directory that is
    no repository. *)
Theorem pullRepository_checks_before_pulling :
  forall (dir : string) (w : W),
    let run := Repository.pullRepository nodePath env rt dir w in
    (fs_existsSync env w dir = false ->
     Eff.outcome run
     = Threw
         (Js.newError
            (if Js.includes dir "not a git repository"
             then "Directory is not a git repository: " ++ dir
             else "Repository directory does not exist: " ++ dir))
     /\ Trace.operations (Eff.events run) = []
     /\ Eff.finalWorld run = w)
    /\ (fs_existsSync env w dir = true ->
        fs_existsSync env w (NodePath.join nodePath [dir; ".git"]) = false ->
        Eff.outcome run
        = Threw (Js.newError ("Directory is not a git repository: " ++ dir))
        /\ Trace.operations (Eff.events run) = []
        /\ Eff.finalWorld run = w).
Proof.
  intros dir w run. subst run.
  unfold Repository.pullRepository. eff_run. split.
  - intros Hmissing. rewrite Hmissing. eff_run.
    unfold Repository.pullFailure. eff_run.
    cbn [Js.message Js.newError].
    rewrite missing_mentions_repository.
    destruct (Js.includes dir "not a git repository"); eff_run.
    + repeat split.
    + repeat split.
  - intros Hthere Hplain. rewrite Hthere. eff_run. rewrite Hplain. eff_run.
    unfold Repository.pullFailure. eff_run. repeat split.
Qed.

Lemma numberOr_zero (n : Z) : JsText.numberOr n 0 = n.
Proof.
  unfold JsText.numberOr. destruct (Z.eqb_spec n 0); congruence.
Qed.

(** X22 (AddOnHandler.pullRepository): in a directory that holds a
    [.git], one pull is made, and when git answers, the report carries
    the directory, the three counts and the files of the answer as they
    are, and the time read after the pull; the summary of the pull is
    printed. *)
Theorem pullRepository_reports_the_pull :
  forall (dir : string) (w w1 : W) (pulled : PullResult),
    fs_existsSync env w dir = true ->
    fs_existsSync env w (NodePath.join nodePath [dir; ".git"]) = true ->
    git_pull env dir w = (Returned pulled, w1) ->
    let run := Repository.pullRepository nodePath env rt dir w in
    Eff.outcome run
    = Returned
        {| Pulled.success := true;
           Pulled.message := "Repository updated successfully";
           Pulled.directory := dir;
           Pulled.changes := changes (summary pulled);
           Pulled.insertions := insertions (summary pulled);
           Pulled.deletions := deletions (summary pulled);
           Pulled.files := files pulled;
           Pulled.updatedAt := date_toISOString rt w1 |}
    /\ Trace.operations (Eff.events run) = [Trace.OpPull dir]
    /\ Eff.finalWorld run = w1
    /\ In (AddOnHandler.pullReport pulled)
         (Trace.consoleLines (Eff.events run)).
Proof.
  intros dir w w1 pulled Hthere Hrepo Hpull run. subst run.
  unfold Repository.pullRepository, AddOnHandler.gitPull, AddOnHandler.logPull.
  eff_run. rewrite Hthere. eff_run. rewrite Hrepo. eff_run.
  rewrite Hpull. eff_run. rewrite !numberOr_zero.
  repeat split. trace_simpl. right. now left.
Qed.

(** X23 (AddOnHandler.pullRepository): git is asked to pull once at
    most, and every error the function rejects with is one it made
    itself: it carries no status, and its message is one of five,
    naming the directory or quoting the message of what went wrong. *)
Theorem pullRepository_rejects_with_its_own_errors :
  forall (dir : string) (w : W),
    let run := Repository.pullRepository nodePath env rt dir w in
    (length (Trace.operations (Eff.events run)) <= 1)%nat
    /\ forall e,
        Eff.outcome run = Threw e ->
        Js.status e = None
        /\ exists cause, Reach.pullErrorMessage dir cause (Js.message e).
Proof.
  intros dir w run. subst run.
  unfold Repository.pullRepository, AddOnHandler.gitPull, AddOnHandler.logPull.
  eff_run.
  destruct (fs_existsSync env w dir); eff_run.
  - destruct (fs_existsSync env w (NodePath.join nodePath [dir; ".git"]));
      eff_run.
    + destruct (git_pull env dir w) as [[pulled | cause] w1]; eff_run.
      * split; [trace_simpl; cbn; lia | discriminate].
      * destruct (pullFailure_run dir cause w1)
          as [e [t [Hrun [Hops [Hstatus Hform]]]]].
        rewrite Hrun. eff_run. trace_simpl. rewrite Hops.
        split; [cbn; lia |].
        intros e' He'. inversion He'; subst e'. eauto.
    + match goal with
      | |- context [Repository.pullFailure dir ?c w] =>
          destruct (pullFailure_run dir c w)
            as [e [t [Hrun [Hops [Hstatus Hform]]]]]
      end.
      rewrite Hrun. eff_run. trace_simpl. rewrite Hops.
      split; [cbn; lia |].
      intros e' He'. inversion He'; subst e'. eauto.
  - match goal with
    | |- context [Repository.pullFailure dir ?c w] =>
        destruct (pullFailure_run dir c w)
          as [e [t [Hrun [Hops [Hstatus Hform]]]]]
    end.
    rewrite Hrun. eff_run. trace_simpl. rewrite Hops.
    split; [cbn; lia |].
    intros e' He'. inversion He'; subst e'. eauto.
Qed.

End Pulling.

(** X21 at work: a plain directory of the simulated world. *)
Lemma pullRepository_checks_before_pulling_witness :
  let env := Sim.env [] [] in
  let run :=
    Repository.pullRepository NodePath.posix env (Bench.runtime "linux" [])
      "/existing/plainDir" Sim.world0 in
  fs_existsSync env Sim.world0 "/existing/plainDir" = true
  /\ fs_existsSync env Sim.world0
       (NodePath.join NodePath.posix ["/existing/plainDir"; ".git"]) = false
  /\ Eff.outcome run
     = Threw (Js.newError
                "Directory is not a git repository: /existing/plainDir")
  /\ Trace.operations (Eff.events run) = [].
Proof.
  cbv zeta.
  set (env := Sim.env [] []).
  assert (Hthere : fs_existsSync env Sim.world0 "/existing/plainDir" = true)
    by reflexivity.
  assert (Hplain :
    fs_existsSync env Sim.world0
      (NodePath.join NodePath.posix ["/existing/plainDir"; ".git"]) = false)
    by reflexivity.
  destruct (proj2 (pullRepository_checks_before_pulling NodePath.posix env
                     (Bench.runtime "linux" []) "/existing/plainDir"
                     Sim.world0) Hthere Hplain) as [Hout [Hops _]].
  repeat split; assumption.
Defined.

(** X22 at work: the repository of the simulated world is up to date. *)
Lemma pullRepository_reports_the_pull_witness :
  let env := Sim.env [] [] in
  let run :=
    Repository.pullRepository NodePath.posix env (Bench.runtime "linux" [])
      "/existing/repo" Sim.world0 in
  git_pull env "/existing/repo" Sim.world0 = (Returned Sim.upToDate, Sim.world0)
  /\ Trace.operations (Eff.events run) = [Trace.OpPull "/existing/repo"]
  /\ In "Repository is already up to date"
       (Trace.consoleLines (Eff.events run)).
Proof.
  cbv zeta.
  set (env := Sim.env [] []).
  assert (Hpull : git_pull env "/existing/repo" Sim.world0
                  = (Returned Sim.upToDate, Sim.world0)) by reflexivity.
  destruct (pullRepository_reports_the_pull NodePath.posix env
              (Bench.runtime "linux" []) "/existing/repo" Sim.world0
              Sim.world0 Sim.upToDate eq_refl eq_refl Hpull)
    as [_ [Hops [_ Hline]]].
  repeat split; assumption.
Defined.

(** X23 at work: a directory that is missing. *)
Lemma pullRepository_rejects_with_its_own_errors_witness :
  let run :=
    Repository.pullRepository NodePath.posix (Sim.env [] [])
      (Bench.runtime "linux" []) "/nowhere" Sim.world0 in
  Eff.outcome run
  = Threw (Js.newError "Repository directory does not exist: /nowhere")
  /\ exists cause,
      Reach.pullErrorMessage "/nowhere" cause
        "Repository directory does not exist: /nowhere".
Proof.
  cbv zeta.
  assert (Hrun :
    Eff.outcome
      (Repository.pullRepository NodePath.posix (Sim.env [] [])
         (Bench.runtime "linux" []) "/nowhere" Sim.world0)
    = Threw (Js.newError "Repository directory does not exist: /nowhere"))
    by (vm_compute; reflexivity).
  split; [exact Hrun |].
  exact (proj2 (proj2 (pullRepository_rejects_with_its_own_errors
                         NodePath.posix (Sim.env [] [])
                         (Bench.runtime "linux" []) "/nowhere" Sim.world0)
                  _ Hrun)).
Defined.

(** ** The service *)

Section Service.

Context {W : Type} (nodePath : NodePath.Api) (env : Collaborators W)
  (rt : Runtime W) (_defaultDirectory : string).
Variable inspect : CtrlValue -> string.
Variable stringifyRepos : list AddOnHandler.RepoSummary -> string.

(** A registration with the configuration of the service: one
    control-script call, and no manager. *)
Lemma registerSubProject_bare (projDir : string) (w : W) :
  let run :=
    AddOnHandler.registerSubProject nodePath env projDir
      MarketplaceService.config w in
  Trace.ctrlCalls (Eff.events run) = [("registerSubProj", [projDir])].
Proof.
  cbv zeta.
  unfold AddOnHandler.registerSubProject, AddOnHandler.ctrlScriptStart.
  eff_run.
  destruct (ctrl_start env "registerSubProj" [projDir] w) as [[ret | e] w1];
    eff_run; [| reflexivity].
  pose proof (installAndBuild_no_ctrl nodePath env projDir w1) as Hquiet.
  destruct (NodeInstaller.installAndBuild nodePath env projDir w1)
    as [[[[] | e] w2] t2]; unfold Eff.events in Hquiet; cbn [snd] in Hquiet;
    cbn [MarketplaceService.config AddonConfig.Managers AddOnHandler.orDefault
         Eff.forEach]; eff_run;
    rewrite ?app_nil_r; cbn [app]; trace_simpl; now rewrite Hquiet.
Qed.

Lemma registerOne_calls (projDir : string) (w : W) :
  Trace.ctrlCalls
    (Eff.events (MarketplaceService.registerOne nodePath env inspect projDir w))
  = [("registerSubProj", [projDir])].
Proof.
  unfold MarketplaceService.registerOne. eff_run.
  pose proof (registerSubProject_bare projDir w) as Hone. cbv zeta in Hone.
  destruct (AddOnHandler.registerSubProject nodePath env projDir
              MarketplaceService.config w) as [[[ret | e] w1] t1];
    unfold Eff.events in Hone; cbn [snd] in Hone; cbn [app]; trace_simpl;
    rewrite ?ctrlCalls_app, Hone; reflexivity.
Qed.

Lemma registrations_run (paths : list string) :
  forall w : W,
    let loop :=
      Eff.forEach paths (MarketplaceService.registerOne nodePath env inspect)
        w in
    (exists k,
        Trace.ctrlCalls (Eff.events loop)
        = firstn k (map (fun p => ("registerSubProj", [p])) paths))
    /\ (Eff.outcome loop = Returned tt ->
        Trace.ctrlCalls (Eff.events loop)
        = map (fun p => ("registerSubProj", [p])) paths).
Proof.
  induction paths as [| p paths IH]; intros w; cbv zeta.
  - cbn. split; [exists 0%nat |]; reflexivity.
  - cbn [Eff.forEach]. unfold Eff.bind.
    pose proof (registerOne_calls p w) as Hone.
    destruct (MarketplaceService.registerOne nodePath env inspect p w)
      as [[[[] | e] w1] t1]; unfold Eff.events in Hone; cbn [snd] in Hone.
    + specialize (IH w1). cbv zeta in IH.
      destruct (Eff.forEach paths
                  (MarketplaceService.registerOne nodePath env inspect) w1)
        as [[o w2] t2].
      unfold Eff.events, Eff.outcome in *. cbn [fst snd] in *.
      destruct IH as [[k Hk] Hall].
      rewrite !ctrlCalls_app, Hone. cbn [app map]. split.
      * exists (S k). cbn [firstn]. now rewrite Hk.
      * intros Ho. now rewrite (Hall Ho).
    + unfold Eff.events, Eff.outcome. cbn [fst snd].
      rewrite Hone. split; [exists 1%nat; reflexivity | discriminate].
Qed.

(** X24 (MarketplaceService.registerSubProjects): the paths of a request
    are registered in order, up to the first registration that rejects;
    no manager is ever attached; and when the service answers, it
    answers [true] after registering every path. *)
Theorem registerSubProjects_registers_in_order :
  forall (paths : list string) (w : W),
    let run :=
      MarketplaceService.registerSubProjects nodePath env inspect paths w in
    let calls := map (fun p => ("registerSubProj", [p])) paths in
    (exists k, Trace.ctrlCalls (Eff.events run) = firstn k calls)
    /\ Trace.attachments (Eff.events run) = []
    /\ (forall answer,
          Eff.outcome run = Returned answer ->
          answer = MarketplaceService.VBool true
          /\ Trace.ctrlCalls (Eff.events run) = calls).
Proof.
  intros paths w run calls. subst run calls.
  unfold MarketplaceService.registerSubProjects.
  pose proof (registrations_run paths w) as Hloop. cbv zeta in Hloop.
  unfold Eff.bind, Eff.ret.
  destruct (Eff.forEach paths
              (MarketplaceService.registerOne nodePath env inspect) w)
    as [[[[] | e] w1] t1]; unfold Eff.events, Eff.outcome in *;
    cbn [fst snd] in *;
    destruct Hloop as [[k Hk] Hall]; eff_run; rewrite ?app_nil_r.
  - split; [now exists k |]. split.
    + unfold Trace.attachments. rewrite Hk.
      clear. revert k. induction paths as [| p paths IH]; intros [| k];
        try reflexivity. cbn. apply IH.
    + intros answer Ha. inversion Ha; subst. split; [reflexivity |].
      now apply Hall.
  - split; [now exists k |]. split; [| discriminate].
    unfold Trace.attachments. rewrite Hk.
    clear. revert k. induction paths as [| p paths IH]; intros [| k];
      try reflexivity. cbn. apply IH.
Qed.

Lemma unregisterOne_run (projDir : string) (w : W) :
  let run := MarketplaceService.unregisterOne env inspect projDir w in
  Trace.ctrlCalls (Eff.events run) = [("unregisterSubProj", [projDir])]
  /\ Trace.execCalls (Eff.events run) = [].
Proof.
  cbv zeta.
  unfold MarketplaceService.unregisterOne, AddOnHandler.unregisterSubProject,
    AddOnHandler.ctrlScriptStart.
  eff_run.
  destruct (ctrl_start env "unregisterSubProj" [projDir] w)
    as [[ret | e] w1]; eff_run; split; reflexivity.
Qed.

(** X25 (MarketplaceService.unregisterSubProjects): the paths of a
    request are unregistered in order, up to the first call that
    rejects; no command is run; and when the service answers, it
    answers [true] after unregistering every path. *)
Theorem unregisterSubProjects_unregisters_in_order :
  forall (paths : list string) (w : W),
    let run := MarketplaceService.unregisterSubProjects env inspect paths w in
    let calls := map (fun p => ("unregisterSubProj", [p])) paths in
    (exists k, Trace.ctrlCalls (Eff.events run) = firstn k calls)
    /\ Trace.execCalls (Eff.events run) = []
    /\ (forall answer,
          Eff.outcome run = Returned answer ->
          answer = MarketplaceService.VBool true
          /\ Trace.ctrlCalls (Eff.events run) = calls).
Proof.
  intros paths w run calls. subst run calls.
  unfold MarketplaceService.unregisterSubProjects.
  assert (Hloop :
    forall w0 : W,
      let loop :=
        Eff.forEach paths (MarketplaceService.unregisterOne env inspect) w0 in
      (exists k,
          Trace.ctrlCalls (Eff.events loop)
          = firstn k (map (fun p => ("unregisterSubProj", [p])) paths))
      /\ Trace.execCalls (Eff.events loop) = []
      /\ (Eff.outcome loop = Returned tt ->
          Trace.ctrlCalls (Eff.events loop)
          = map (fun p => ("unregisterSubProj", [p])) paths)).
  { clear w. induction paths as [| p paths IH]; intros w; cbv zeta.
    - cbn. split; [exists 0%nat; reflexivity |]. split; reflexivity.
    - cbn [Eff.forEach]. unfold Eff.bind.
      pose proof (unregisterOne_run p w) as [Hone Hquiet].
      destruct (MarketplaceService.unregisterOne env inspect p w)
        as [[[[] | e] w1] t1]; unfold Eff.events in Hone, Hquiet;
        cbn [snd] in Hone, Hquiet.
      + specialize (IH w1). cbv zeta in IH.
        destruct (Eff.forEach paths
                    (MarketplaceService.unregisterOne env inspect) w1)
          as [[o w2] t2].
        unfold Eff.events, Eff.outcome in *. cbn [fst snd] in *.
        destruct IH as [[k Hk] [Hnone Hall]].
        rewrite !ctrlCalls_app, !execCalls_app, Hone, Hquiet, Hnone.
        cbn [app map]. split; [| split; [reflexivity |]].
        * exists (S k). cbn [firstn]. now rewrite Hk.
        * intros Ho. now rewrite (Hall Ho).
      + unfold Eff.events, Eff.outcome. cbn [fst snd].
        rewrite Hone, Hquiet.
        split; [exists 1%nat; reflexivity |]. split; [reflexivity |].
        discriminate. }
  specialize (Hloop w). cbv zeta in Hloop.
  unfold Eff.bind, Eff.ret.
  destruct (Eff.forEach paths (MarketplaceService.unregisterOne env inspect) w)
    as [[[[] | e] w1] t1]; unfold Eff.events, Eff.outcome in *;
    cbn [fst snd] in *; destruct Hloop as [[k Hk] [Hnone Hall]];
    rewrite ?app_nil_r.
  - split; [now exists k |]. split; [exact Hnone |].
    intros answer Ha. inversion Ha; subst. split; [reflexivity |].
    now apply Hall.
  - split; [now exists k |]. split; [exact Hnone | discriminate].
Qed.

(** X26 (MarketplaceService.cloneRepository): a request without [url]
    is rejected before anything is done; with one, the service does
    what [AddOnHandler.cloneRepository] does for the URL, the target
    directory and the branch of the request, and answers a mapping of
    the two keys [repositoryPath] and [fileContent], both strings. *)
Theorem service_cloneRepository_requires_the_url :
  forall (requestMapping : list (string * string)) (w : W),
    let run :=
      MarketplaceService.cloneRepository nodePath env _defaultDirectory
        requestMapping w in
    (MarketplaceService.get "url" requestMapping = None ->
     run = (Threw MarketplaceService.missingUrl, w, []))
    /\ (forall url,
          MarketplaceService.get "url" requestMapping = Some url ->
          let clone :=
            AddOnHandler.cloneRepository nodePath env _defaultDirectory url
              (MarketplaceService.get "targetDirectory" requestMapping)
              (MarketplaceService.get "branch" requestMapping) w in
          Eff.events run = Eff.events clone
          /\ Eff.finalWorld run = Eff.finalWorld clone
          /\ (forall e, Eff.outcome clone = Threw e ->
                Eff.outcome run = Threw e))
    /\ (forall answer,
          Eff.outcome run = Returned answer ->
          exists repositoryPath content,
            answer
            = MarketplaceService.VMapping
                [("repositoryPath", MarketplaceService.VString repositoryPath);
                 ("fileContent", MarketplaceService.VString content)]).
Proof.
  intros requestMapping w run. subst run.
  unfold MarketplaceService.cloneRepository.
  destruct (MarketplaceService.get "url" requestMapping) as [url |].
  - split; [discriminate |]. eff_run.
    destruct (AddOnHandler.cloneRepository nodePath env _defaultDirectory url
                (MarketplaceService.get "targetDirectory" requestMapping)
                (MarketplaceService.get "branch" requestMapping) w)
      as [[[result | e] w1] t1] eqn:Hclone; split.
    + intros url' Hurl. inversion Hurl; subst url'. rewrite Hclone.
      eff_run. rewrite app_nil_r. repeat split. discriminate.
    + intros answer Ha. inversion Ha; subst. eauto.
    + intros url' Hurl. inversion Hurl; subst url'. rewrite Hclone.
      eff_run. repeat split. intros e' He'. now inversion He'.
    + discriminate.
  - split; [reflexivity |]. split; [discriminate |]. discriminate.
Qed.

(** X27 (MarketplaceService.listRemoteRepositories): the service lists
    the organization named by the request, or [winccoa]; every page
    request asks for public repositories sorted by update, newest
    first, a hundred to the page, and ten requests are sent at most.
    What it answers is a string. *)
Theorem listRemoteRepositories_asks_for_public_repositories :
  forall (request : option string) (w : W),
    let run :=
      MarketplaceService.listRemoteRepositories env stringifyRepos request w in
    let requests := Trace.pageRequests (Eff.events run) in
    Forall (fun x =>
              q_org (fst x) = match request with
                              | Some name => name
                              | None => "winccoa"
                              end
              /\ q_type (fst x) = "public"
              /\ q_sort (fst x) = "updated"
              /\ q_direction (fst x) = "desc"
              /\ q_per_page (fst x) = 100%Z) requests
    /\ (length requests <= 10)%nat
    /\ (forall answer,
          Eff.outcome run = Returned answer ->
          exists text, answer = Some (MarketplaceService.VString text)).
Proof.
  intros request w run requests. subst requests run.
  unfold MarketplaceService.listRemoteRepositories.
  set (org := match request with
              | Some name => name
              | None => "winccoa"
              end).
  destruct (listOrganizationRepositories_loop env org
              MarketplaceService.remoteOptions w)
    as [Hrequests [_ Houtcome]].
  pose proof (pageLoop_run env org "public" "updated" "desc" 100 10 10 true
                1%Z [] w ltac:(lia)) as Hloop.
  cbv zeta in Hloop.
  destruct Hloop as [_ [Hpage [Hcount [_ [_ [_ [Hresult _]]]]]]].
  pose proof (pageLoop_requests env org "public" "updated" "desc" 100 10 10
                true 1%Z [] w) as [Hoptions _].
  cbn [MarketplaceService.remoteOptions AddOnHandler.orDefault
       AddOnHandler.type AddOnHandler.sort AddOnHandler.direction
       AddOnHandler.perPage AddOnHandler.maxPages] in Hrequests, Houtcome.
  change (Z.to_nat 10) with 10%nat in Hrequests, Houtcome.
  set (loop := AddOnHandler.pageLoop env 10 org "public" "updated" "desc" 100
                 10 true 1%Z [] w) in *.
  change (Z.to_nat (10 - 1 + 1)) with 10%nat in Hcount.
  unfold Eff.bind, Eff.ret.
  destruct (AddOnHandler.listOrganizationRepositories env org
              MarketplaceService.remoteOptions w) as [[[fetched | e] w1] t1];
    unfold Eff.events, Eff.outcome in *; cbn [fst snd] in *;
    rewrite ?app_nil_r, Hrequests.
  - split; [| split; [exact Hcount |]].
    + apply Forall_forall. intros x Hx.
      pose proof (proj1 (Forall_forall _ _) Hpage x Hx) as [Hper Horg].
      pose proof (proj1 (Forall_forall _ _) Hoptions x Hx) as [Ht [Hs Hd]].
      repeat split; assumption.
    + intros answer Ha. inversion Ha; subst answer.
      destruct (fst (fst loop)) as [result | e] eqn:Hloop; [| discriminate].
      inversion Houtcome; subst fetched.
      rewrite (Hresult result eq_refl). cbn [option_map]. eauto.
  - split; [| split; [exact Hcount | discriminate]].
    apply Forall_forall. intros x Hx.
    pose proof (proj1 (Forall_forall _ _) Hpage x Hx) as [Hper Horg].
    pose proof (proj1 (Forall_forall _ _) Hoptions x Hx) as [Ht [Hs Hd]].
    repeat split; assumption.
Qed.

End Service.

(** X24 at work: two paths, both registered, and no manager attached. *)
Lemma registerSubProjects_registers_in_order_witness :
  let run :=
    MarketplaceService.registerSubProjects NodePath.posix (Sim.env [] [])
      (fun _ => "0") ["/proj/addon"; "/nowhere"] Sim.world0 in
  Eff.outcome run = Returned (MarketplaceService.VBool true)
  /\ Trace.ctrlCalls (Eff.events run)
     = [("registerSubProj", ["/proj/addon"]);
        ("registerSubProj", ["/nowhere"])]
  /\ Trace.attachments (Eff.events run) = [].
Proof.
  cbv zeta.
  assert (Hrun :
    Eff.outcome
      (MarketplaceService.registerSubProjects NodePath.posix (Sim.env [] [])
         (fun _ => "0") ["/proj/addon"; "/nowhere"] Sim.world0)
    = Returned (MarketplaceService.VBool true))
    by (vm_compute; reflexivity).
  destruct (registerSubProjects_registers_in_order NodePath.posix
              (Sim.env [] []) (fun _ => "0") ["/proj/addon"; "/nowhere"]
              Sim.world0) as [_ [Hnone Hall]].
  split; [exact Hrun |]. split; [| exact Hnone].
  exact (proj2 (Hall _ Hrun)).
Defined.
